(** * BookBuddy: the device-side state machine of the ESP32 firmware

    A shallow embedding of the firmware sketch (presence tracking, the
    emotion timer, touch classification, telemetry snapshots and the
    clock-sync endpoint), followed by the properties of the specification.

    Conventions.  [uint32_t] and [uint8_t] values are integers of [Z] with the
    wrap-around written out ([u32], [u8]).  Every hardware read ([millis()],
    [rtc.now()], [digitalRead]) is an explicit input: a function that reads
    the hardware at several instants takes one reading per instant.  Display
    and audio calls write no modelled state and are left out. *)

From Stdlib Require Import ZArith List Bool String Ascii Lia.
Import ListNotations.

Local Open Scope Z_scope.

(** ** Machine integers *)

Definition u32 (x : Z) : Z := x mod 4294967296.
Definition u8 (x : Z) : Z := x mod 256.

(** ** Constants *)

Definition NUM_BOOKS : nat := 5.
Definition BOOK_NAMES : list string :=
  ["English"; "Hindi"; "Maths"; "Marathi"; "Science"]%string.

Definition BOOT_CALM_TIME : Z := 300000.
Definition CALM_HOLD_TIME : Z := 300000.
Definition DEGRADE_INTERVAL : Z := 300000.
Definition DEGRADE_STAGES : Z := 5.
Definition LONG_PRESS_TIME : Z := 2000.
Definition WS_UPDATE_INTERVAL : Z := 2000.

(** ** Data model *)

Inductive Emotion : Set :=
| EMOTION_NEUTRAL
| EMOTION_CALM
| EMOTION_HAPPY
| EMOTION_PROUD
| EMOTION_VERY_PROUD
| EMOTION_SAD
| EMOTION_VERY_SAD
| EMOTION_REMINDER.

Record BookState : Set := mkBook {
  present : bool;
  wasPresent : bool;
  lastPlacedEpoch : Z;
  cumulativeSeconds : Z;
  tracking : bool
}.

(** The "Emotion timing state" globals of the sketch, with [currentEmotion]
    and [bootCompleteTime]. *)
Record EmotionVars : Set := mkEmo {
  currentEmotion : Emotion;
  bootCompleteTime : Z;
  inBootCalmPeriod : bool;
  calmHoldActive : bool;
  calmHoldStartTime : Z;
  degradeActive : bool;
  degradeStartTime : Z;
  currentDegradeStage : Z;
  reminderSpoken : bool
}.

(** The remaining globals. *)
Record Device : Set := mkDevice {
  books : list BookState;
  emo : EmotionVars;
  lastInteractionTime : Z;
  currentBookCount : Z;
  lastBookCount : Z;
  touchPressed : bool;
  touchStartTime : Z;
  allBooksAnnouncedOnce : bool;
  allBooksWerePlaced : bool;
  allBooksPlacedTime : Z;
  rtcReady : bool;
  wifiConnected : bool;
  lastWsUpdate : Z
}.

(** The hardware at one instant: the millisecond counter behind [millis()]
    and the seconds register behind [rtc.now().unixtime()]. *)
Record Hardware : Set := mkHw {
  hw_millis : Z;
  hw_rtc : Z
}.

(** What the loop makes observable: presence changes, the two one-shots and
    the two touch intents. *)
Inductive Event : Set :=
| Placed (slot : nat)
| Removed (slot : nat)
| AllPlacedEvent
| ReminderEvent
| QuickStatusIntent
| DetailedStatsIntent.

(** Field setters. *)

Definition set_books (bs : list BookState) (d : Device) : Device :=
  mkDevice bs (emo d) (lastInteractionTime d) (currentBookCount d)
    (lastBookCount d) (touchPressed d) (touchStartTime d)
    (allBooksAnnouncedOnce d) (allBooksWerePlaced d) (allBooksPlacedTime d)
    (rtcReady d) (wifiConnected d) (lastWsUpdate d).

Definition set_emo (e : EmotionVars) (d : Device) : Device :=
  mkDevice (books d) e (lastInteractionTime d) (currentBookCount d)
    (lastBookCount d) (touchPressed d) (touchStartTime d)
    (allBooksAnnouncedOnce d) (allBooksWerePlaced d) (allBooksPlacedTime d)
    (rtcReady d) (wifiConnected d) (lastWsUpdate d).

Definition set_lastInteractionTime (t : Z) (d : Device) : Device :=
  mkDevice (books d) (emo d) t (currentBookCount d)
    (lastBookCount d) (touchPressed d) (touchStartTime d)
    (allBooksAnnouncedOnce d) (allBooksWerePlaced d) (allBooksPlacedTime d)
    (rtcReady d) (wifiConnected d) (lastWsUpdate d).

Definition set_counts (cur last : Z) (d : Device) : Device :=
  mkDevice (books d) (emo d) (lastInteractionTime d) cur last
    (touchPressed d) (touchStartTime d)
    (allBooksAnnouncedOnce d) (allBooksWerePlaced d) (allBooksPlacedTime d)
    (rtcReady d) (wifiConnected d) (lastWsUpdate d).

Definition set_touch (pressed : bool) (start : Z) (d : Device) : Device :=
  mkDevice (books d) (emo d) (lastInteractionTime d) (currentBookCount d)
    (lastBookCount d) pressed start
    (allBooksAnnouncedOnce d) (allBooksWerePlaced d) (allBooksPlacedTime d)
    (rtcReady d) (wifiConnected d) (lastWsUpdate d).

Definition set_allBooksAnnouncedOnce (a : bool) (d : Device) : Device :=
  mkDevice (books d) (emo d) (lastInteractionTime d) (currentBookCount d)
    (lastBookCount d) (touchPressed d) (touchStartTime d)
    a (allBooksWerePlaced d) (allBooksPlacedTime d)
    (rtcReady d) (wifiConnected d) (lastWsUpdate d).

Definition set_allBooksPlaced (t : Z) (d : Device) : Device :=
  mkDevice (books d) (emo d) (lastInteractionTime d) (currentBookCount d)
    (lastBookCount d) (touchPressed d) (touchStartTime d)
    (allBooksAnnouncedOnce d) true t
    (rtcReady d) (wifiConnected d) (lastWsUpdate d).

Definition set_lastWsUpdate (t : Z) (d : Device) : Device :=
  mkDevice (books d) (emo d) (lastInteractionTime d) (currentBookCount d)
    (lastBookCount d) (touchPressed d) (touchStartTime d)
    (allBooksAnnouncedOnce d) (allBooksWerePlaced d) (allBooksPlacedTime d)
    (rtcReady d) (wifiConnected d) t.

(** The four assignments made on a book change, by [updateBookStates] when
    all five books are placed, and by a short press:
    [calmHoldActive = false; degradeActive = false; currentDegradeStage = 0;
    reminderSpoken = false]. *)
Definition resetDegrade (e : EmotionVars) : EmotionVars :=
  mkEmo (currentEmotion e) (bootCompleteTime e) (inBootCalmPeriod e)
    false (calmHoldStartTime e) false (degradeStartTime e) 0 false.

Definition endBootCalm (e : EmotionVars) : EmotionVars :=
  mkEmo (currentEmotion e) (bootCompleteTime e) false
    (calmHoldActive e) (calmHoldStartTime e) (degradeActive e)
    (degradeStartTime e) (currentDegradeStage e) (reminderSpoken e).

Definition set_currentEmotion (m : Emotion) (e : EmotionVars) : EmotionVars :=
  mkEmo m (bootCompleteTime e) (inBootCalmPeriod e)
    (calmHoldActive e) (calmHoldStartTime e) (degradeActive e)
    (degradeStartTime e) (currentDegradeStage e) (reminderSpoken e).

(** ** ClockSource *)

(** [getRTCEpoch]: the RTC's unixtime, or [millis() / 1000] without an RTC. *)
Definition getRTCEpoch (hw : Hardware) (d : Device) : Z :=
  if rtcReady d then hw_rtc hw else hw_millis hw / 1000.

(** ** PresenceTracker *)

(** [getBookTotalSeconds], on the slot and the epoch its [getRTCEpoch()] call
    returns.  [total += ...] is a [uint32_t] addition. *)
Definition getBookTotalSeconds (now : Z) (b : BookState) : Z :=
  if tracking b && (0 <? lastPlacedEpoch b) then
    if lastPlacedEpoch b <? now
    then u32 (cumulativeSeconds b + (now - lastPlacedEpoch b))
    else cumulativeSeconds b
  else cumulativeSeconds b.

(** The readings taken for one slot in one pass of [updateBookStates]: the
    pin level at the first [digitalRead], the level at the read that follows
    the 50 ms settle delay, and the hardware clock when the change is
    handled.  The pins are pulled up: a book is there when the level is LOW. *)
Record SlotSample : Set := mkSample {
  pin_first : bool;
  pin_second : bool;
  slot_hw : Hardware
}.

(** [currentState] after the debounce. *)
Definition debounced (smp : SlotSample) (b : BookState) : bool :=
  let first := negb (pin_first smp) in
  if Bool.eqb first (present b) then first else negb (pin_second smp).

(** The "BOOK PLACED" branch on [books[i]]. *)
Definition placeBook (now : Z) (b : BookState) : BookState :=
  mkBook (present b) (wasPresent b) now (cumulativeSeconds b) true.

(** The "BOOK REMOVED" branch on [books[i]]. *)
Definition removeBook (now : Z) (b : BookState) : BookState :=
  let cum :=
    if tracking b && (0 <? lastPlacedEpoch b) then
      if lastPlacedEpoch b <? now
      then u32 (cumulativeSeconds b + (now - lastPlacedEpoch b))
      else cumulativeSeconds b
    else cumulativeSeconds b in
  mkBook (present b) (wasPresent b) 0 cum false.

(** One iteration of the loop of [updateBookStates] on [books[i]]: the new
    slot and whether a state change was detected. *)
Definition sampleSlot (now : Z) (smp : SlotSample) (b : BookState)
  : BookState * bool :=
  let cs := debounced smp b in
  if negb (Bool.eqb cs (wasPresent b)) then
    let b1 := if cs then placeBook now b else removeBook now b in
    (mkBook cs cs (lastPlacedEpoch b1) (cumulativeSeconds b1) (tracking b1),
     true)
  else
    (mkBook cs (wasPresent b) (lastPlacedEpoch b) (cumulativeSeconds b)
       (tracking b), false).

(** The globals written when a state change is detected. *)
Definition onBookChange (currentTime : Z) (d : Device) : Device :=
  set_emo (resetDegrade (endBootCalm (emo d)))
    (set_lastInteractionTime currentTime d).

(** The [for] loop of [updateBookStates] from index [i] on: [bs] are the
    slots not yet visited, [d] carries the globals, [bookCount] is the
    [uint8_t] counter.  Returns the visited slots, the globals, the counter
    and the change events in order. *)
Fixpoint scanBooks (currentTime : Z) (pins : nat -> SlotSample) (i : nat)
    (bs : list BookState) (d : Device) (bookCount : Z)
  : list BookState * Device * Z * list Event :=
  match bs with
  | [] => ([], d, bookCount, [])
  | b :: rest =>
      let smp := pins i in
      let '(b', changed) := sampleSlot (getRTCEpoch (slot_hw smp) d) smp b in
      let d1 := if changed then onBookChange currentTime d else d in
      let ev := if changed
                then [if present b' then Placed i else Removed i] else [] in
      let n := if present b' then u8 (bookCount + 1) else bookCount in
      let '(rest', d2, n', evs) := scanBooks currentTime pins (S i) rest d1 n in
      (b' :: rest', d2, n', ev ++ evs)
  end.

(** The readings of one pass of [updateBookStates]. *)
Record UpdateInput : Set := mkUpdate {
  upd_hw : Hardware;             (* millis() on entry: currentTime *)
  upd_pins : nat -> SlotSample;  (* the readings of channel i *)
  upd_hold_hw : Hardware         (* millis() stored in calmHoldStartTime *)
}.

(** The "ALL 5 BOOKS PLACED" block. *)
Definition celebrate (currentTime holdStart : Z) (d : Device) : Device :=
  let d1 := set_allBooksPlaced currentTime (set_allBooksAnnouncedOnce true d) in
  let e := emo d1 in
  set_emo
    (mkEmo EMOTION_CALM (bootCompleteTime e) (inBootCalmPeriod e)
       true holdStart false (degradeStartTime e) 0 false)
    d1.

(** [updateBookStates], up to the throttled telemetry push (see [wsPublish]). *)
Definition updateBookStates (inp : UpdateInput) (d : Device)
  : Device * list Event :=
  let currentTime := hw_millis (upd_hw inp) in
  let '(bs, d1, bookCount, evs) :=
    scanBooks currentTime (upd_pins inp) 0 (books d) d 0 in
  let d2 := set_counts bookCount (currentBookCount d1) (set_books bs d1) in
  let fire := (currentBookCount d2 =? 5) && (lastBookCount d2 <? 5)
              && negb (allBooksAnnouncedOnce d2) in
  let d3 := if fire
            then celebrate currentTime (hw_millis (upd_hold_hw inp)) d2
            else d2 in
  let d4 := if currentBookCount d3 <? 5
            then set_allBooksAnnouncedOnce false d3 else d3 in
  (d4, evs ++ (if fire then [AllPlacedEvent] else [])).

(** ** EmotionEngine *)

(** The [switch (stage)] of the degrade phase. *)
Definition degradeEmotion (stage : Z) (cur : Emotion) : Emotion :=
  match stage with
  | 0 => EMOTION_CALM
  | 1 => EMOTION_NEUTRAL
  | 2 => EMOTION_NEUTRAL
  | 3 => EMOTION_SAD
  | 4 => EMOTION_VERY_SAD
  | 5 => EMOTION_REMINDER
  | _ => cur
  end.

(** The [switch (currentBookCount)] of the normal phase. *)
Definition countEmotion (count : Z) (cur : Emotion) : Emotion :=
  match count with
  | 0 => EMOTION_NEUTRAL
  | 1 => EMOTION_CALM
  | 2 => EMOTION_CALM
  | 3 => EMOTION_HAPPY
  | 4 => EMOTION_HAPPY
  | 5 => EMOTION_PROUD
  | _ => cur
  end.

(** [uint8_t stage = elapsed / DEGRADE_INTERVAL;
     if (stage > DEGRADE_STAGES) stage = DEGRADE_STAGES;] *)
Definition degradeStageOf (elapsed : Z) : Z :=
  let stage := u8 (elapsed / DEGRADE_INTERVAL) in
  if DEGRADE_STAGES <? stage then DEGRADE_STAGES else stage.

(** Phase 2 and the normal phase of [calculateEmotion], entered with the
    boot and hold phases behind. *)
Definition degradeOrNormal (currentTime count : Z) (e : EmotionVars)
  : EmotionVars * list Event :=
  if degradeActive e then
    let elapsed := u32 (currentTime - degradeStartTime e) in
    let stage := degradeStageOf elapsed in
    let fire := (stage =? 5) && negb (reminderSpoken e) in
    (mkEmo (degradeEmotion stage (currentEmotion e)) (bootCompleteTime e)
       (inBootCalmPeriod e) (calmHoldActive e) (calmHoldStartTime e)
       (degradeActive e) (degradeStartTime e) stage
       (if fire then true else reminderSpoken e),
     if fire then [ReminderEvent] else [])
  else
    (set_currentEmotion (countEmotion count (currentEmotion e)) e, []).

(** Phase 1 of [calculateEmotion] and what follows it. *)
Definition holdOrLater (currentTime count : Z) (e : EmotionVars)
  : EmotionVars * list Event :=
  if calmHoldActive e then
    let elapsed := u32 (currentTime - calmHoldStartTime e) in
    if elapsed <? CALM_HOLD_TIME then
      (set_currentEmotion EMOTION_CALM e, [])
    else
      degradeOrNormal currentTime count
        (mkEmo (currentEmotion e) (bootCompleteTime e) (inBootCalmPeriod e)
           false (calmHoldStartTime e) true currentTime 0 (reminderSpoken e))
  else degradeOrNormal currentTime count e.

(** [calculateEmotion] on the emotion globals. *)
Definition calculateEmotionVars (currentTime count : Z) (e : EmotionVars)
  : EmotionVars * list Event :=
  if inBootCalmPeriod e then
    let elapsed := u32 (currentTime - bootCompleteTime e) in
    if elapsed <? BOOT_CALM_TIME then
      (set_currentEmotion EMOTION_CALM e, [])
    else holdOrLater currentTime count (endBootCalm e)
  else holdOrLater currentTime count e.

Definition calculateEmotion (hw : Hardware) (d : Device)
  : Device * list Event :=
  let '(e, evs) :=
    calculateEmotionVars (hw_millis hw) (currentBookCount d) (emo d) in
  (set_emo e d, evs).

(** ** InteractionHandler *)

(** [handleTouchSensor]: [touchReading] is the level of the touch pin. *)
Definition handleTouchSensor (hw : Hardware) (touchReading : bool)
    (d : Device) : Device * list Event :=
  let currentTime := hw_millis hw in
  let d1 := if touchReading && negb (touchPressed d)
            then set_touch true currentTime d else d in
  if negb touchReading && touchPressed d1 then
    let pressDuration := u32 (currentTime - touchStartTime d1) in
    if LONG_PRESS_TIME <=? pressDuration then
      (set_touch false (touchStartTime d1) d1, [DetailedStatsIntent])
    else if 50 <? pressDuration then
      let d2 := set_lastInteractionTime currentTime d1 in
      let d3 := if degradeActive (emo d2) || calmHoldActive (emo d2)
                then set_emo (resetDegrade (emo d2)) d2 else d2 in
      (set_touch false (touchStartTime d3) d3, [QuickStatusIntent])
    else
      (set_touch false (touchStartTime d1) d1, [])
  else (d1, []).

(** ** The main loop *)

(** The readings of one iteration of [loop()]. *)
Record LoopInput : Set := mkLoop {
  in_update : UpdateInput;
  in_touch_hw : Hardware;
  in_touch : bool;
  in_calc_hw : Hardware
}.

(** [updateBookStates(); handleTouchSensor(); calculateEmotion();] *)
Definition loopStep (inp : LoopInput) (d : Device) : Device * list Event :=
  let '(d1, ev1) := updateBookStates (in_update inp) d in
  let '(d2, ev2) := handleTouchSensor (in_touch_hw inp) (in_touch inp) d1 in
  let '(d3, ev3) := calculateEmotion (in_calc_hw inp) d2 in
  (d3, ev1 ++ ev2 ++ ev3).

(** The states after each iteration with the events of that iteration. *)
Fixpoint runLoop (inps : list LoopInput) (d : Device)
  : list (Device * list Event) :=
  match inps with
  | [] => []
  | inp :: rest =>
      let r := loopStep inp d in r :: runLoop rest (fst r)
  end.

(** A slot as [setup()] initialises it. *)
Definition freshBook : BookState := mkBook false false 0 0 false.

(** The globals when [setup()] returns: [bootMillis] is the [millis()] stored
    in [bootCompleteTime], [setupMillis] the earlier one stored in
    [lastInteractionTime]. *)
Definition bootDevice (rtc wifi : bool) (setupMillis bootMillis : Z) : Device :=
  mkDevice (repeat freshBook NUM_BOOKS)
    (mkEmo EMOTION_CALM bootMillis true false 0 false 0 0 false)
    setupMillis 0 0 false 0 false false 0 rtc wifi 0.

(** ** TelemetryHub *)

(** The JSON documents the firmware writes, as values. *)
#[local] Unset Elimination Schemes.
Inductive JValue : Set :=
| JStr (s : string)
| JNum (n : Z)
| JBool (b : bool)
| JArr (items : list JValue)
| JObj (fields : list (string * JValue)).
#[local] Set Elimination Schemes.

Definition fieldNames (v : JValue) : list string :=
  match v with
  | JObj fields => map fst fields
  | _ => []
  end.

Definition field (name : string) (v : JValue) : option JValue :=
  match v with
  | JObj fields =>
      match find (fun kv => String.eqb (fst kv) name) fields with
      | Some kv => Some (snd kv)
      | None => None
      end
  | _ => None
  end.

Definition getEmotionName (m : Emotion) : string :=
  match m with
  | EMOTION_NEUTRAL => "Neutral"
  | EMOTION_CALM => "Calm"
  | EMOTION_HAPPY => "Happy"
  | EMOTION_PROUD => "Proud"
  | EMOTION_VERY_PROUD => "Very Proud"
  | EMOTION_SAD => "Sad"
  | EMOTION_VERY_SAD => "Very Sad"
  | EMOTION_REMINDER => "Reminder"
  end.

(** Decimal digits of [sprintf("%02d")] and [("%04d")] for values in range. *)
Definition digitChar (n : Z) : ascii := ascii_of_nat (48 + Z.to_nat (n mod 10)).

Definition dec2 (n : Z) : string :=
  String (digitChar (n / 10)) (String (digitChar n) EmptyString).

Definition dec4 (n : Z) : string :=
  String (digitChar (n / 1000)) (String (digitChar (n / 100)) (dec2 n)).

(** The calendar fields of a [DateTime], from its unixtime. *)
Definition dt_hour (t : Z) : Z := (t / 3600) mod 24.
Definition dt_minute (t : Z) : Z := (t / 60) mod 60.
Definition dt_second (t : Z) : Z := t mod 60.

(** Year, month and day of the day number [t / 86400] (proleptic Gregorian
    calendar, days counted from 1970-01-01). *)
Definition dt_date (t : Z) : Z * Z * Z :=
  let z := t / 86400 + 719468 in
  let era := z / 146097 in
  let doe := z - era * 146097 in
  let yoe := (doe - doe / 1460 + doe / 36524 - doe / 146096) / 365 in
  let doy := doe - (365 * yoe + yoe / 4 - yoe / 100) in
  let mp := (5 * doy + 2) / 153 in
  let day := doy - (153 * mp + 2) / 5 + 1 in
  let month := if mp <? 10 then mp + 3 else mp - 9 in
  let year := yoe + era * 400 + (if month <=? 2 then 1 else 0) in
  (year, month, day).

(** ["%02d:%02d:%02d"] *)
Definition clockText (t : Z) : string :=
  (dec2 (dt_hour t) ++ ":" ++ dec2 (dt_minute t) ++ ":"
   ++ dec2 (dt_second t))%string.

(** ["%04d-%02d-%02dT%02d:%02d:%02d"] *)
Definition isoText (t : Z) : string :=
  let '(y, m, dd) := dt_date t in
  (dec4 y ++ "-" ++ dec2 m ++ "-" ++ dec2 dd ++ "T" ++ clockText t)%string.

(** The readings of one snapshot assembly: the hardware when [uptime] and
    [time] are written, and at each [getBookTotalSeconds(i)] call of the
    [books] loop and of the [totalSecs] loop. *)
Record SnapshotInput : Set := mkSnap {
  snap_hw : Hardware;
  snap_entry_hw : nat -> Hardware;
  snap_total_hw : nat -> Hardware
}.

(** The first loop: one object per book. *)
Fixpoint bookEntries (d : Device) (reads : nat -> Hardware) (i : nat)
    (names : list string) (bs : list BookState) : list JValue :=
  match names, bs with
  | name :: names', b :: bs' =>
      JObj [("name", JStr name); ("present", JBool (present b));
            ("totalSeconds",
             JNum (getBookTotalSeconds (getRTCEpoch (reads i) d) b))]%string
      :: bookEntries d reads (S i) names' bs'
  | _, _ => []
  end.

(** The second loop: [totalSecs += getBookTotalSeconds(i)] in [uint32_t]. *)
Fixpoint sumTotals (d : Device) (reads : nat -> Hardware) (i : nat)
    (bs : list BookState) (totalSecs : Z) : Z :=
  match bs with
  | [] => totalSecs
  | b :: bs' =>
      sumTotals d reads (S i) bs'
        (u32 (totalSecs + getBookTotalSeconds (getRTCEpoch (reads i) d) b))
  end.

(** The document of the [/api/status] handler. *)
Definition statusSnapshot (inp : SnapshotInput) (d : Device) : JValue :=
  JObj
    [("status", JStr "live");
     ("uptime", JNum (hw_millis (snap_hw inp) / 1000));
     ("emotion", JStr (getEmotionName (currentEmotion (emo d))));
     ("booksPlaced", JNum (currentBookCount d));
     ("time", JStr (if rtcReady d then isoText (hw_rtc (snap_hw inp))
                    else "N/A"));
     ("books", JArr (bookEntries d (snap_entry_hw inp) 0 BOOK_NAMES (books d)));
     ("totalStudySeconds",
      JNum (sumTotals d (snap_total_hw inp) 0 (firstn NUM_BOOKS (books d)) 0));
     ("degradeStage", JNum (currentDegradeStage (emo d)));
     ("bootCalm", JBool (inBootCalmPeriod (emo d)))]%string.

(** The document built by [sendWebSocketUpdate]. *)
Definition wsSnapshot (inp : SnapshotInput) (d : Device) : JValue :=
  JObj
    [("status", JStr "live");
     ("uptime", JNum (hw_millis (snap_hw inp) / 1000));
     ("emotion", JStr (getEmotionName (currentEmotion (emo d))));
     ("booksPlaced", JNum (currentBookCount d));
     ("time", JStr (if rtcReady d then isoText (hw_rtc (snap_hw inp))
                    else "N/A"));
     ("books", JArr (bookEntries d (snap_entry_hw inp) 0 BOOK_NAMES (books d)));
     ("totalStudySeconds",
      JNum (sumTotals d (snap_total_hw inp) 0 (firstn NUM_BOOKS (books d)) 0));
     ("degradeStage", JNum (currentDegradeStage (emo d)));
     ("bootCalm", JBool (inBootCalmPeriod (emo d)));
     ("calmHold", JBool (calmHoldActive (emo d)));
     ("degradeActive", JBool (degradeActive (emo d)))]%string.

(** [sendWebSocketUpdate]: nothing is sent without a client. *)
Definition sendWebSocketUpdate (clients : nat) (inp : SnapshotInput)
    (d : Device) : option JValue :=
  match clients with
  | O => None
  | S _ => Some (wsSnapshot inp d)
  end.

(** The throttled push that ends [updateBookStates]: [hw] is read by the two
    [millis()] calls of the test and of the assignment. *)
Definition wsPublish (hw : Hardware) (clients : nat) (inp : SnapshotInput)
    (d : Device) : Device * option JValue :=
  if wifiConnected d
     && (WS_UPDATE_INTERVAL <=? u32 (hw_millis hw - lastWsUpdate d))
  then (set_lastWsUpdate (hw_millis hw) d, sendWebSocketUpdate clients inp d)
  else (d, None).

(** ** Clock-sync endpoint *)

(** The Arduino [String] operations the handler uses, on the request text. *)

Definition dquote : string := String (ascii_of_nat 34) EmptyString.

(** The key searched for: the text [epoch] in double quotes, then a colon. *)
Definition epochKey : string := (dquote ++ "epoch" ++ dquote ++ ":")%string.

(** C's [isspace] and [isdigit]. *)
Definition isspace (c : ascii) : bool :=
  let n := nat_of_ascii c in
  (n =? 32)%nat || ((9 <=? n)%nat && (n <=? 13)%nat).

Definition isdigit (c : ascii) : bool :=
  let n := nat_of_ascii c in (48 <=? n)%nat && (n <=? 57)%nat.

Fixpoint skipSpaces (s : string) : string :=
  match s with
  | String c rest => if isspace c then skipSpaces rest else s
  | EmptyString => EmptyString
  end.

Fixpoint dropTrailingSpaces (s : string) : string :=
  match s with
  | EmptyString => EmptyString
  | String c rest =>
      match dropTrailingSpaces rest with
      | EmptyString => if isspace c then EmptyString
                       else String c EmptyString
      | rest' => String c rest'
      end
  end.

(** [String::trim] *)
Definition trim (s : string) : string := dropTrailingSpaces (skipSpaces s).

(** [String::substring(left)] *)
Definition substringFrom (left : nat) (s : string) : string :=
  substring left (String.length s - left) s.

(** The digits read by [atol], most significant first. *)
Fixpoint digitsValue (acc : Z) (s : string) : Z :=
  match s with
  | String c rest =>
      if isdigit c
      then digitsValue (10 * acc + (Z.of_nat (nat_of_ascii c) - 48)) rest
      else acc
  | EmptyString => acc
  end.

(** A 32-bit [long] saturates in [strtol]. *)
Definition clampLong (z : Z) : Z :=
  Z.max (-2147483648) (Z.min 2147483647 z).

(** [String::toInt], that is [atol]: leading white space, an optional sign,
    then digits up to the first other character. *)
Definition toInt (s : string) : Z :=
  match skipSpaces s with
  | String "-" rest => clampLong (- digitsValue 0 rest)
  | String "+" rest => clampLong (digitsValue 0 rest)
  | s' => clampLong (digitsValue 0 s')
  end.

(** The text handed to [toInt]: what follows the key, cut at the first
    closing brace and trimmed; [None] when the key is not found. *)
Definition epochText (body : string) : option string :=
  match index 0 epochKey body with
  | None => None
  | Some idx =>
      let epochStr := trim (substringFrom (idx + 8) body) in
      let cut := match index 0 "}" epochStr with
                 | Some endIdx => substring 0 endIdx epochStr
                 | None => epochStr
                 end in
      Some (trim cut)
  end.

Record Response : Set := mkResponse {
  status : Z;
  payload : JValue
}.

Definition rtcMissing : Response :=
  mkResponse 500 (JObj [("error", JStr "RTC not available")]%string).

Definition invalidRequest : Response :=
  mkResponse 400 (JObj [("error", JStr "Invalid request")]%string).

Definition synced (newTime : string) : Response :=
  mkResponse 200
    (JObj [("success", JBool true); ("newTime", JStr newTime)]%string).

(** The body handler of [/api/synctime].  [rtc.adjust] writes the seconds
    register of the hardware; the globals are returned as they were found. *)
Definition handleSyncTime (body : string) (hw : Hardware) (d : Device)
  : Device * Hardware * Response :=
  if negb (rtcReady d) then (d, hw, rtcMissing)
  else
    match epochText body with
    | Some epochStr =>
        let epoch := u32 (toInt epochStr) in
        if 1000000000 <? epoch then
          let hw' := mkHw (hw_millis hw) epoch in
          (d, hw', synced (clockText (hw_rtc hw')))
        else (d, hw, invalidRequest)
    | None => (d, hw, invalidRequest)
    end.

(** ** Operations on the device *)

(** The operations of the specification: a sampling pass, a touch poll, an
    emotion tick, a read-only total query and a clock-sync request. *)
Inductive Op : Set :=
| OpSample (inp : UpdateInput)
| OpTouch (hw : Hardware) (touchReading : bool)
| OpTick (hw : Hardware)
| OpQuery (idx : nat) (hw : Hardware)
| OpSync (body : string) (hw : Hardware).

Definition applyOp (op : Op) (d : Device) : Device :=
  match op with
  | OpSample inp => fst (updateBookStates inp d)
  | OpTouch hw r => fst (handleTouchSensor hw r d)
  | OpTick hw => fst (calculateEmotion hw d)
  | OpQuery _ _ => d
  | OpSync body hw => fst (fst (handleSyncTime body hw d))
  end.

(** The epoch an operation reads for slot [i], if it samples the slots. *)
Definition opEpoch (op : Op) (d : Device) (i : nat) : option Z :=
  match op with
  | OpSample inp => Some (getRTCEpoch (slot_hw (upd_pins inp i)) d)
  | _ => None
  end.

(** ** The formulas of the specification and the invariants of the loop *)

(** The stage formula the specification gives for the degrade phase. *)
Definition specStage (elapsed : Z) : Z :=
  Z.min DEGRADE_STAGES (elapsed / DEGRADE_INTERVAL).

(** The live-total formula of the specification's data model. *)
Definition specLiveTotal (now : Z) (b : BookState) : Z :=
  cumulativeSeconds b + (if tracking b then now - lastPlacedEpoch b else 0).

(** The live total before it is reduced to 32 bits. *)
Definition exactTotal (now : Z) (b : BookState) : Z :=
  cumulativeSeconds b
  + (if tracking b && (0 <? lastPlacedEpoch b)
     then Z.max 0 (now - lastPlacedEpoch b) else 0).

(** What every pass of [updateBookStates] leaves in a slot. *)
Definition slotInv (b : BookState) : Prop :=
  wasPresent b = tracking b /\ 0 <= cumulativeSeconds b.

(** Sampling passes over one slot, each with the epoch it reads. *)
Fixpoint sampleRun (steps : list (Z * SlotSample)) (b : BookState)
  : BookState :=
  match steps with
  | [] => b
  | (now, smp) :: rest => sampleRun rest (fst (sampleSlot now smp b))
  end.

(** The epochs of the passes do not decrease and lie between [lo] and [hi]. *)
Fixpoint timesWithin (lo hi : Z) (steps : list (Z * SlotSample)) : Prop :=
  match steps with
  | [] => lo <= hi
  | (t, _) :: rest => lo <= t /\ timesWithin t hi rest
  end.

(** Counting events in a trace of the loop. *)
Definition isAllPlaced (e : Event) : bool :=
  match e with AllPlacedEvent => true | _ => false end.

Definition isReminder (e : Event) : bool :=
  match e with ReminderEvent => true | _ => false end.

Definition isChange (e : Event) : bool :=
  match e with Placed _ | Removed _ => true | _ => false end.

(** The events that start a new phase entry: a presence change, all five
    books placed, a short press. *)
Definition isReset (e : Event) : bool :=
  match e with
  | Placed _ | Removed _ | AllPlacedEvent | QuickStatusIntent => true
  | _ => false
  end.

Definition countEvents (p : Event -> bool)
    (tr : list (Device * list Event)) : nat :=
  List.length (filter p (List.concat (map snd tr))).

Definition noReset (tr : list (Device * list Event)) : Prop :=
  filter isReset (List.concat (map snd tr)) = [].

(** The number of ascents to five in a sequence of book counts that follows
    the count [prev]. *)
Fixpoint ascents (prev : Z) (counts : list Z) : nat :=
  match counts with
  | [] => O
  | c :: rest =>
      let up := if (c =? 5) && (prev <? 5) then 1%nat else 0%nat in
      (up + ascents c rest)%nat
  end.

(** The state after an iteration is in the last degrade stage. *)
Definition atMaxStage (r : Device * list Event) : bool :=
  degradeActive (emo (fst r)) && (currentDegradeStage (emo (fst r)) =? 5).

(** The all-placed one-shot is armed whenever fewer than five are counted. *)
Definition armInv (d : Device) : Prop :=
  currentBookCount d < 5 -> allBooksAnnouncedOnce d = false.

(** The emotion flags exclude each other, and an idle degrade phase has its
    stage and reminder flag cleared. *)
Definition phaseInv (e : EmotionVars) : Prop :=
  (degradeActive e = true -> inBootCalmPeriod e = false)
  /\ (calmHoldActive e = true -> degradeActive e = false)
  /\ (degradeActive e = false ->
      currentDegradeStage e = 0 /\ reminderSpoken e = false).

(** [currentBookCount] agrees with the [present] flags of the five slots. *)
Definition bookCountConsistent (d : Device) : Prop :=
  List.length (books d) = NUM_BOOKS
  /\ currentBookCount d = Z.of_nat (List.length (filter present (books d))).

(** Reading a snapshot back. *)
Definition numField (name : string) (v : JValue) : option Z :=
  match field name v with
  | Some (JNum n) => Some n
  | _ => None
  end.

Definition snapshotBooks (v : JValue) : list JValue :=
  match field "books" v with
  | Some (JArr items) => items
  | _ => []
  end.

Definition entryTotal (v : JValue) : Z :=
  match numField "totalSeconds" v with
  | Some n => n
  | None => 0
  end.

Definition entryPresent (v : JValue) : bool :=
  match field "present" v with
  | Some (JBool b) => b
  | _ => false
  end.

Definition sumOfEntryTotals (v : JValue) : Z :=
  fold_right Z.add 0 (map entryTotal (snapshotBooks v)).

Definition presentEntries (v : JValue) : Z :=
  Z.of_nat (List.length (filter entryPresent (snapshotBooks v))).

(** The request text the dashboard sends: an object whose only member is
    the key and a decimal literal. *)
Definition syncBody (digits : string) : string :=
  ("{" ++ epochKey ++ digits ++ "}")%string.

Fixpoint allDigits (s : string) : bool :=
  match s with
  | EmptyString => true
  | String c rest => isdigit c && allDigits rest
  end.

(** [s] without its prefix [p], if it has that prefix. *)
Definition expectPrefix (p s : string) : option string :=
  if prefix p s then Some (substringFrom (String.length p) s) else None.

Fixpoint skipDigits (s : string) : string :=
  match s with
  | String c rest => if isdigit c then skipDigits rest else s
  | EmptyString => EmptyString
  end.

(** The request schema of the specification, [{epoch: u32}], as a
    recogniser following the spec's words: white space, an opening brace,
    the quoted key, a colon, an unsigned decimal literal below 2^32, a
    closing brace, with white space allowed between the tokens and nothing
    else.  Returns the epoch of a well-formed body. *)
Definition specSyncEpoch (body : string) : option Z :=
  match expectPrefix "{" (skipSpaces body) with
  | None => None
  | Some s1 =>
  match expectPrefix (dquote ++ "epoch" ++ dquote) (skipSpaces s1) with
  | None => None
  | Some s2 =>
  match expectPrefix ":" (skipSpaces s2) with
  | None => None
  | Some s3 =>
      let lit := skipSpaces s3 in
      let after := skipDigits lit in
      if (String.length after <? String.length lit)%nat then
        match expectPrefix "}" (skipSpaces after) with
        | None => None
        | Some s4 =>
            match skipSpaces s4 with
            | EmptyString =>
                if digitsValue 0 lit <? 4294967296
                then Some (digitsValue 0 lit) else None
            | _ => None
            end
        end
      else None
  end end end.

(** ** Scenarios *)

(** One iteration of the loop in which every hardware read sees the same
    instant: [millis() = t], the RTC at [rtc], all five book pins at
    [level] and the touch pin at [touch]. *)
Definition steadyInput (t rtc : Z) (level touch : bool) : LoopInput :=
  let hw := mkHw t rtc in
  mkLoop (mkUpdate hw (fun _ => mkSample level level hw) hw) hw touch hw.

(** A sampling pass at one instant: the books of the channels selected by
    [down] rest on their switches (pin LOW), the other pins read HIGH. *)
Definition passAt (t rtc : Z) (down : nat -> bool) : UpdateInput :=
  let hw := mkHw t rtc in
  mkUpdate hw (fun i => mkSample (negb (down i)) (negb (down i)) hw) hw.

(** [books[i]] *)
Definition slotOf (i : nat) (d : Device) : BookState :=
  nth i (books d) freshBook.

(** The globals after the iterations [inps]. *)
Definition finalDevice (inps : list LoopInput) (d : Device) : Device :=
  fold_left (fun acc inp => fst (loopStep inp acc)) inps d.

(** All five books are put down two seconds after boot and nothing is
    touched afterwards: the hold expires at 310 s, the fifth stage is
    reached 25 minutes later, and the last tick comes 256 intervals after
    the degrade phase began. *)
Definition longIdleRun : list LoopInput :=
  [steadyInput 10000 1700000002 false false;
   steadyInput 310000 1700000302 false false;
   steadyInput 1810000 1700001802 false false;
   steadyInput 77110000 1700077102 false false].

(** A touch of half a second, ten seconds after boot, with no book down. *)
Definition shortPressDuringBoot : list LoopInput :=
  [steadyInput 18000 1700000010 true true;
   steadyInput 18500 1700000010 true false].

(** ** Text of numbers and durations *)

(** The decimal digits of a non-negative integer, least significant first
    onto [acc]: what ["%d"], [String(n)] and a JavaScript template literal
    print for an integer.  [fuel] bounds the number of digits. *)
Fixpoint decimalDigits (fuel : nat) (n : Z) (acc : string) : string :=
  match fuel with
  | O => acc
  | S fuel' =>
      let acc' := String (digitChar n) acc in
      if n <? 10 then acc' else decimalDigits fuel' (n / 10) acc'
  end.

(** Twenty digits cover every 64-bit value. *)
Definition decimalText (n : Z) : string := decimalDigits 20 n EmptyString.

(** [formatDuration] of the sketch: ["%dh %dm"], ["%dm %ds"] or ["%ds"]. *)
Definition formatDuration (totalSeconds : Z) : string :=
  let hours := totalSeconds / 3600 in
  let mins := (totalSeconds mod 3600) / 60 in
  let secs := totalSeconds mod 60 in
  if 0 <? hours then
    (decimalText hours ++ "h " ++ decimalText mins ++ "m")%string
  else if 0 <? mins then
    (decimalText mins ++ "m " ++ decimalText secs ++ "s")%string
  else (decimalText secs ++ "s")%string.

(** [formatTime] of the charts, which the dashboard's [App] repeats under
    the name [formatDuration], on an integer number of seconds. *)
Definition formatTime (seconds : Z) : string :=
  if seconds <? 60 then (decimalText seconds ++ "s")%string
  else
    let m := seconds / 60 in
    let s := seconds mod 60 in
    if m <? 60 then (decimalText m ++ "m " ++ decimalText s ++ "s")%string
    else
      let h := m / 60 in
      (decimalText h ++ "h " ++ decimalText (m mod 60) ++ "m")%string.

(** ** Dashboard: chart sampling and the timeline *)

(** [Array.prototype.filter] with the index passed to the callback. *)
Fixpoint filterIndexed {A : Type} (p : nat -> bool) (i : nat) (l : list A)
  : list A :=
  match l with
  | [] => []
  | x :: rest =>
      if p i then x :: filterIndexed p (S i) rest
      else filterIndexed p (S i) rest
  end.

(** [Math.ceil(n / m)] on non-negative integers, [m] positive. *)
Definition ceilDiv (n m : nat) : nat := ((n + m - 1) / m)%nat.

(** [sampleData] of the charts. *)
Definition sampleData {A : Type} (data : list A) (maxPoints : nat) : list A :=
  if (List.length data <=? maxPoints)%nat then data
  else
    let step := ceilDiv (List.length data) maxPoints in
    filterIndexed
      (fun i => (i mod step =? 0)%nat || (i =? List.length data - 1)%nat)
      0 data.

(** [slice(-n)] *)
Definition lastN {A : Type} (n : nat) (l : list A) : list A :=
  skipn (List.length l - n) l.

(** The state updater of [addTimelineEntry]. *)
Definition addTimelineEntry {A : Type} (entry : A) (prev : list A) : list A :=
  let next := prev ++ [entry] in
  if (200 <? List.length next)%nat then lastN 200 next else next.

(** An order-preserving selection of elements. *)
Inductive Subseq {A : Type} : list A -> list A -> Prop :=
| Subseq_nil : Subseq [] []
| Subseq_skip x l1 l2 : Subseq l1 l2 -> Subseq l1 (x :: l2)
| Subseq_keep x l1 l2 : Subseq l1 l2 -> Subseq (x :: l1) (x :: l2).

(** ** The face and its sound *)

(** The face globals of the sketch: the animated values, their targets,
    the time of the last frame and the emotion last rendered. *)
Record Face : Set := mkFace {
  eyeOpen : Z;
  pupilOffset : Z;
  mouthCurve : Z;
  eyesClosed : bool;
  t_eyeOpen : Z;
  t_pupilOffset : Z;
  t_mouthCurve : Z;
  t_eyesClosed : bool;
  lastFrame : Z;
  lastEmotion : Emotion
}.

(** The values of the [enum Emotion]. *)
Definition emotionCode (m : Emotion) : Z :=
  match m with
  | EMOTION_NEUTRAL => 0
  | EMOTION_CALM => 1
  | EMOTION_HAPPY => 2
  | EMOTION_PROUD => 3
  | EMOTION_VERY_PROUD => 4
  | EMOTION_SAD => 5
  | EMOTION_VERY_SAD => 6
  | EMOTION_REMINDER => 7
  end.

(** The targets [setEmotionTargets] assigns: eye opening, pupil offset,
    mouth curve, eyes closed. *)
Definition emotionTargets (m : Emotion) : Z * Z * Z * bool :=
  match m with
  | EMOTION_NEUTRAL => (30, 0, 0, false)
  | EMOTION_CALM => (28, 0, 5, false)
  | EMOTION_HAPPY => (0, 0, 10, true)
  | EMOTION_PROUD => (0, 0, 14, true)
  | EMOTION_VERY_PROUD => (0, 0, 16, true)
  | EMOTION_SAD => (32, 5, -5, false)
  | EMOTION_VERY_SAD => (34, 8, -10, false)
  | EMOTION_REMINDER => (34, 6, -8, false)
  end.

Definition setEmotionTargets (m : Emotion) (f : Face) : Face :=
  let '(e, p, c, closed) := emotionTargets m in
  mkFace (eyeOpen f) (pupilOffset f) (mouthCurve f) (eyesClosed f)
    e p c closed (lastFrame f) (lastEmotion f).

(** Arduino's [constrain(amt, low, high)]. *)
Definition constrain (amt low high : Z) : Z :=
  if amt <? low then low else if high <? amt then high else amt.

(** [animateFace]: the face, and whether the eyes and the mouth are
    redrawn.  [hw] is read by both [millis()] calls. *)
Definition animateFace (hw : Hardware) (f : Face) : Face * bool * bool :=
  if u32 (hw_millis hw - lastFrame f) <? 50 then (f, false, false)
  else
    let e := eyeOpen f + constrain (t_eyeOpen f - eyeOpen f) (-2) 2 in
    let p := pupilOffset f + constrain (t_pupilOffset f - pupilOffset f) (-1) 1 in
    let c := mouthCurve f + constrain (t_mouthCurve f - mouthCurve f) (-1) 1 in
    let closed := t_eyesClosed f in
    let eyesChanged :=
      negb (e =? eyeOpen f) || negb (p =? pupilOffset f)
      || negb (Bool.eqb closed (eyesClosed f)) in
    let mouthChanged := negb (c =? mouthCurve f) in
    (mkFace e p c closed (t_eyeOpen f) (t_pupilOffset f) (t_mouthCurve f)
       (t_eyesClosed f) (hw_millis hw) (lastEmotion f),
     eyesChanged, mouthChanged).

(** Frames in sequence, one per hardware reading. *)
Definition faceFrames (hws : list Hardware) (f : Face) : Face :=
  fold_left (fun acc hw => fst (fst (animateFace hw acc))) hws f.

(** None of the frames is skipped by the 50 ms throttle. *)
Fixpoint framesDue (hws : list Hardware) (f : Face) : Prop :=
  match hws with
  | [] => True
  | hw :: rest =>
      50 <= u32 (hw_millis hw - lastFrame f)
      /\ framesDue rest (fst (fst (animateFace hw f)))
  end.

(** The track [playEmotionAudio] starts, if any. *)
Definition emotionAudio (dfPlayerReady : bool) (m : Emotion) : option Z :=
  if dfPlayerReady then
    match m with
    | EMOTION_HAPPY => Some 31
    | EMOTION_PROUD => Some 32
    | EMOTION_SAD => Some 33
    | _ => None
    end
  else None.

(** The "Handle emotion changes" block of [loop()]. *)
Definition onEmotionChange (dfPlayerReady : bool) (current : Emotion)
    (f : Face) : Face * option Z :=
  if negb (emotionCode current =? emotionCode (lastEmotion f)) then
    let f1 := setEmotionTargets current f in
    (mkFace (eyeOpen f1) (pupilOffset f1) (mouthCurve f1) (eyesClosed f1)
       (t_eyeOpen f1) (t_pupilOffset f1) (t_mouthCurve f1) (t_eyesClosed f1)
       (lastFrame f1) current,
     emotionAudio dfPlayerReady current)
  else (f, None).

(** The face drawn with the targets of [m] reached. *)
Definition settledOn (m : Emotion) (f : Face) : Prop :=
  let '(e, p, c, closed) := emotionTargets m in
  eyeOpen f = e /\ pupilOffset f = p /\ mouthCurve f = c
  /\ eyesClosed f = closed.

(** The keys of the dashboard's emotion table. *)
Definition dashboardEmotionKeys : list string :=
  ["Neutral"; "Calm"; "Happy"; "Proud"; "Very Proud"; "Sad"; "Very Sad";
   "Reminder"]%string.

(** ** Slots over whole sessions *)

(** What the sketch keeps true of every slot between two passes. *)
Definition slotWf (b : BookState) : Prop :=
  present b = wasPresent b
  /\ tracking b = wasPresent b
  /\ (tracking b = false -> lastPlacedEpoch b = 0)
  /\ 0 <= cumulativeSeconds b < 4294967296.

(** ** The demo mode of the dashboard *)

Record BookData : Set := mkBookData {
  bd_name : string;
  bd_present : bool;
  bd_totalSeconds : Z
}.

(** The fields of [DeviceStatus] but [time], which is the wall clock. *)
Record DeviceStatus : Set := mkStatus {
  ds_status : string;
  ds_uptime : Z;
  ds_emotion : string;
  ds_booksPlaced : Z;
  ds_books : list BookData;
  ds_totalStudySeconds : Z
}.

(** [Array.prototype.map] with the index passed to the callback. *)
Fixpoint mapIndexed {A B : Type} (g : A -> nat -> B) (i : nat) (l : list A)
  : list B :=
  match l with
  | [] => []
  | x :: rest => g x i :: mapIndexed g (S i) rest
  end.

(** The assignments to [present] in the demo's [tick], in order. *)
Definition demoPresent (phase : Z) (i : nat) (present : bool) : bool :=
  let p := present in
  let p := if (phase =? 0) && (i =? 0)%nat then true else p in
  let p := if (phase =? 1) && (i =? 1)%nat then true else p in
  let p := if (phase =? 2) && (i =? 2)%nat then true else p in
  let p := if (phase =? 3) && (i =? 3)%nat then true else p in
  let p := if (phase =? 4) && (i =? 4)%nat then true else p in
  let p := if (phase =? 6) && (i =? 2)%nat then false else p in
  let p := if (phase =? 7) && (i =? 0)%nat then false else p in
  let p := if (phase =? 8) && (i =? 4)%nat then false else p in
  let p := if (phase =? 9) && (i =? 1)%nat then false else p in
  let p := if (phase =? 10) && (i =? 3)%nat then false else p in
  if phase =? 11 then false else p.

Definition demoEmotion (placedCount : Z) : string :=
  if placedCount =? 5 then "Proud"
  else if 3 <=? placedCount then "Happy"
  else if 1 <=? placedCount then "Calm"
  else "Neutral".

(** One [tick] of the demo on its variables [tickCount] and [demoBooks]:
    the new variables and the status it publishes. *)
Definition demoTick (tickCount : Z) (demoBooks : list BookData)
  : Z * list BookData * DeviceStatus :=
  let tickCount' := tickCount + 1 in
  let phase := (tickCount' / 5) mod 12 in
  let books' :=
    mapIndexed
      (fun b i =>
         let present := demoPresent phase i (bd_present b) in
         mkBookData (bd_name b) present
           (bd_totalSeconds b + (if present then 2 else 0)))
      0 demoBooks in
  let placedCount := Z.of_nat (List.length (filter bd_present books')) in
  (tickCount', books',
   mkStatus "demo" (tickCount' * 2) (demoEmotion placedCount) placedCount
     books'
     (fold_left (fun a b => a + bd_totalSeconds b) books' 0)).

(** ** Polls of the touch pin *)

(** [handleTouchSensor] over successive polls, each with its reading. *)
Fixpoint pollTouch (polls : list (Hardware * bool)) (d : Device)
  : Device * list Event :=
  match polls with
  | [] => (d, [])
  | (hw, reading) :: rest =>
      let '(d1, ev1) := handleTouchSensor hw reading d in
      let '(d2, ev2) := pollTouch rest d1 in
      (d2, ev1 ++ ev2)
  end.

(** ** Sessions as the dashboard records them *)

Record ReadingSession : Set := mkSession {
  rs_book : string;
  rs_startTime : Z;
  rs_endTime : Z;
  rs_duration : Z
}.

(** The two refs of the hook, objects used as maps from book names, and
    the [sessions] state. *)
Record Tracker : Type := mkTracker {
  prevBooks : string -> option bool;
  sessionStart : string -> option Z;
  sessions : list ReadingSession
}.

(** Assignment to, or with [None] deletion of, a property. *)
Definition setKey {V : Type} (k : string) (v : option V)
    (m : string -> option V) : string -> option V :=
  fun k' => if String.eqb k' k then v else m k'.

(** [Math.round(ms / 1000)] on an integer number of milliseconds: halves
    round up. *)
Definition roundSeconds (ms : Z) : Z := (ms + 500) / 1000.

(** The body of the [forEach] of [trackSessions] for one book; [now] is
    [Date.now()]. *)
Definition trackBook (now : Z) (book : BookData) (tr : Tracker) : Tracker :=
  let name := bd_name book in
  let wasPresent :=
    match prevBooks tr name with Some b => b | None => false end in
  let starts1 :=
    if bd_present book && negb wasPresent
    then setKey name (Some now) (sessionStart tr)
    else sessionStart tr in
  let ended := negb (bd_present book) && wasPresent in
  let start :=
    match starts1 name with
    | Some s => if s =? 0 then now - bd_totalSeconds book * 1000 else s
    | None => now - bd_totalSeconds book * 1000
    end in
  mkTracker
    (setKey name (Some (bd_present book)) (prevBooks tr))
    (if ended then setKey name None starts1 else starts1)
    (if ended
     then sessions tr ++ [mkSession name start now (roundSeconds (now - start))]
     else sessions tr).

Definition trackSessions (now : Z) (books : list BookData) (tr : Tracker)
  : Tracker :=
  fold_left (fun t b => trackBook now b t) books tr.

(** The sessions recorded for one book. *)
Definition sessionsOf (name : string) (tr : Tracker) : list ReadingSession :=
  filter (fun s => String.eqb (rs_book s) name) (sessions tr).

(** The hook before the first snapshot. *)
Definition freshTracker : Tracker :=
  mkTracker (fun _ => None) (fun _ => None) [].

(** The sessions of a sequence of snapshots, each with the [Date.now()] of
    its arrival. *)
Definition trackRun (snaps : list (Z * list BookData)) (tr : Tracker)
  : Tracker :=
  fold_left (fun t s => trackSessions (fst s) (snd s) t) snaps tr.

(** What the hook holds about the book named [k]. *)
Definition viewOf (k : string) (tr : Tracker)
  : option bool * option Z * list ReadingSession :=
  (prevBooks tr k, sessionStart tr k, sessionsOf k tr).

(** [trackBook] as seen from the name of its book. *)
Definition stepView (now : Z) (book : BookData)
    (v : option bool * option Z * list ReadingSession)
  : option bool * option Z * list ReadingSession :=
  let '(prev, st, ss) := v in
  let wasPresent := match prev with Some b => b | None => false end in
  let st1 := if bd_present book && negb wasPresent then Some now else st in
  let ended := negb (bd_present book) && wasPresent in
  let start :=
    match st1 with
    | Some s => if s =? 0 then now - bd_totalSeconds book * 1000 else s
    | None => now - bd_totalSeconds book * 1000
    end in
  (Some (bd_present book),
   if ended then None else st1,
   if ended
   then ss ++ [mkSession (bd_name book) start now (roundSeconds (now - start))]
   else ss).

(** ** The push with its two clock reads *)

(** The block that ends [updateBookStates], with the [millis()] of the
    test and the [millis()] stored kept apart; the snapshot is built after
    the assignment. *)
Definition throttledPush (hwTest hwSet : Hardware) (clients : nat)
    (inp : SnapshotInput) (d : Device) : Device * option JValue :=
  if wifiConnected d
     && (WS_UPDATE_INTERVAL <=? u32 (hw_millis hwTest - lastWsUpdate d))
  then
    let d1 := set_lastWsUpdate (hw_millis hwSet) d in
    (d1, sendWebSocketUpdate clients inp d1)
  else (d, None).

(** Goals of the form [phaseInv] on a record whose flags are known. *)
Ltac phase_flags :=
  repeat split; intros; cbn in *; auto; congruence.

(** * Properties *)

(** ** Machine integers *)

Lemma u32_small (x : Z) : 0 <= x < 4294967296 -> u32 x = x.
Proof. intros H. unfold u32. apply Z.mod_small. exact H. Qed.

Lemma u32_range (x : Z) : 0 <= u32 x < 4294967296.
Proof. unfold u32. apply Z.mod_pos_bound. lia. Qed.

Lemma u32_add_l (x y : Z) : u32 (u32 x + y) = u32 (x + y).
Proof. unfold u32. apply Zplus_mod_idemp_l. Qed.

(** ** The degrade stage *)

(** Below 256 intervals the narrowing to eight bits loses nothing and the
    stage is the formula of the specification. *)
Lemma degradeStageOf_below_wrap (elapsed : Z) :
  0 <= elapsed < 76800000 -> degradeStageOf elapsed = specStage elapsed.
Proof.
  intros H.
  unfold degradeStageOf, specStage, u8, DEGRADE_INTERVAL, DEGRADE_STAGES.
  assert (Hq : 0 <= elapsed / 300000 < 256).
  { split.
    - apply Z.div_pos; lia.
    - apply Z.div_lt_upper_bound; lia. }
  rewrite (Z.mod_small _ _ Hq).
  destruct (5 <? elapsed / 300000) eqn:E.
  - apply Z.ltb_lt in E. lia.
  - apply Z.ltb_ge in E. lia.
Qed.

Lemma degradeStageOf_bounds (elapsed : Z) : 0 <= degradeStageOf elapsed <= 5.
Proof.
  unfold degradeStageOf, u8, DEGRADE_STAGES.
  pose proof (Z.mod_pos_bound (elapsed / DEGRADE_INTERVAL) 256 ltac:(lia)).
  destruct (5 <? _) eqn:E.
  - lia.
  - apply Z.ltb_ge in E. lia.
Qed.

(** C1.  The stage recomputed at a tick is NOT min(MAX_STAGE,
    floor(elapsed / T_degradeInterval)) for every elapsed time of the u32
    timer: the quotient is narrowed to eight bits before it is clamped.
    After the books have rested for 256 intervals (76 800 000 ms since the
    degrade phase began) the loop computes stage 0 and shows Calm again,
    where the formula gives 5; the stage has decreased from the 5 it had
    reached. *)
Theorem degrade_stage_wraps_after_256_intervals :
  let tr := runLoop longIdleRun (bootDevice true true 0 8000) in
  let e := emo (finalDevice longIdleRun (bootDevice true true 0 8000)) in
  map (fun r => currentDegradeStage (emo (fst r))) tr = [0; 0; 5; 0]
  /\ degradeActive e = true
  /\ degradeStartTime e = 310000
  /\ u32 (77110000 - degradeStartTime e) = 76800000
  /\ currentDegradeStage e = 0
  /\ currentEmotion e = EMOTION_CALM
  /\ degradeStageOf 76800000 = 0
  /\ specStage 76800000 = 5.
Proof. vm_compute. repeat split; reflexivity. Qed.

(** ** The boot calm period *)

(** While the period runs the tick shows Calm and leaves the flags alone. *)
Lemma boot_calm_shows_calm (hw : Hardware) (d : Device) :
  inBootCalmPeriod (emo d) = true ->
  u32 (hw_millis hw - bootCompleteTime (emo d)) < BOOT_CALM_TIME ->
  calculateEmotion hw d
  = (set_emo (set_currentEmotion EMOTION_CALM (emo d)) d, []).
Proof.
  intros Hboot Hlt. unfold calculateEmotion, calculateEmotionVars.
  rewrite Hboot.
  apply Z.ltb_lt in Hlt. rewrite Hlt. reflexivity.
Qed.

Lemma holdOrLater_keeps_boot_flag (t c : Z) (e : EmotionVars) :
  inBootCalmPeriod (fst (holdOrLater t c e)) = inBootCalmPeriod e.
Proof.
  unfold holdOrLater, degradeOrNormal.
  destruct (calmHoldActive e); [destruct (_ <? CALM_HOLD_TIME)|];
    cbn [degradeActive]; try destruct (degradeActive e); reflexivity.
Qed.

(** The first tick at or after [BOOT_CALM_TIME] ends the period. *)
Lemma boot_calm_expires (hw : Hardware) (d : Device) :
  inBootCalmPeriod (emo d) = true ->
  BOOT_CALM_TIME <= u32 (hw_millis hw - bootCompleteTime (emo d)) ->
  inBootCalmPeriod (emo (fst (calculateEmotion hw d))) = false.
Proof.
  intros Hboot Hge. unfold calculateEmotion, calculateEmotionVars.
  rewrite Hboot.
  apply Z.ltb_ge in Hge. rewrite Hge.
  destruct (holdOrLater _ _ _) as [e evs] eqn:E. cbn.
  change e with (fst (e, evs)). rewrite <- E.
  apply holdOrLater_keeps_boot_flag.
Qed.

(** The touch handler never writes [inBootCalmPeriod]. *)
Lemma touch_keeps_boot_flag (hw : Hardware) (r : bool) (d : Device) :
  inBootCalmPeriod (emo (fst (handleTouchSensor hw r d)))
  = inBootCalmPeriod (emo d).
Proof.
  unfold handleTouchSensor.
  destruct r; cbn [andb negb].
  - destruct (touchPressed d); reflexivity.
  - destruct (touchPressed d); [|reflexivity].
    destruct (LONG_PRESS_TIME <=? _); [reflexivity|].
    destruct (50 <? _); [|reflexivity].
    cbn. destruct (degradeActive (emo d) || calmHoldActive (emo d));
      reflexivity.
Qed.

(** C3.  A short press does NOT end the boot calm period.  The sketch ends
    the period "on any interaction" where a book changes, and expires it
    after [BOOT_CALM_TIME], but the touch handler has no such assignment: a
    touch of 500 ms ten seconds after boot is answered with the quick
    status, and the next tick still finds the period running and shows Calm
    although no book is down, where the normal phase shows Neutral. *)
Theorem short_press_does_not_end_boot_calm :
  let d0 := bootDevice true true 0 8000 in
  let d := finalDevice shortPressDuringBoot d0 in
  map snd (runLoop shortPressDuringBoot d0) = [[]; [QuickStatusIntent]]
  /\ inBootCalmPeriod (emo d) = true
  /\ currentEmotion (emo d) = EMOTION_CALM
  /\ currentBookCount d = 0
  /\ countEmotion (currentBookCount d) (currentEmotion (emo d))
     = EMOTION_NEUTRAL.
Proof. vm_compute. repeat split; reflexivity. Qed.

(** ** Touch classification *)

(** C4, as stated, fails at a press of exactly 50 ms: the handler asks for
    more than 50 ms, so the release emits nothing and resets nothing. *)
Lemma press_of_50ms_is_ignored :
  ~ (forall (hw : Hardware) (d : Device),
        touchPressed d = true ->
        50 <= u32 (hw_millis hw - touchStartTime d) < LONG_PRESS_TIME ->
        snd (handleTouchSensor hw false d) = [QuickStatusIntent]).
Proof.
  intros H.
  specialize (H (mkHw 18050 1700000010)
                (set_touch true 18000 (bootDevice true true 0 8000))).
  vm_compute in H.
  assert (Hnil : @nil Event = [QuickStatusIntent]).
  { apply H; [reflexivity | split; [discriminate | reflexivity]]. }
  discriminate Hnil.
Qed.

(** C4 (amended).  On release of a press of duration d (the u32 difference
    of the two [millis()] readings): d <= 50 ms emits nothing and leaves the
    emotion state alone; 50 < d < 2000 ms emits QuickStatusIntent, records
    the interaction and leaves neither CalmHold nor Degrade active, with
    the stage 0 and the reminder flag clear; d >= 2000 ms emits
    DetailedStatsIntent and leaves the emotion state unchanged.  In every case
    the press is over. *)
Theorem touch_release_classification (hw : Hardware) (d : Device) :
  touchPressed d = true ->
  phaseInv (emo d) ->
  let dur := u32 (hw_millis hw - touchStartTime d) in
  let d' := fst (handleTouchSensor hw false d) in
  let evs := snd (handleTouchSensor hw false d) in
  touchPressed d' = false
  /\ (dur <= 50 -> evs = [] /\ emo d' = emo d)
  /\ (50 < dur < LONG_PRESS_TIME ->
      evs = [QuickStatusIntent]
      /\ lastInteractionTime d' = hw_millis hw
      /\ calmHoldActive (emo d') = false
      /\ degradeActive (emo d') = false
      /\ currentDegradeStage (emo d') = 0
      /\ reminderSpoken (emo d') = false
      /\ inBootCalmPeriod (emo d') = inBootCalmPeriod (emo d))
  /\ (LONG_PRESS_TIME <= dur ->
      evs = [DetailedStatsIntent] /\ emo d' = emo d).
Proof.
  intros Hp (Hboot & Hhold & Hidle) dur d' evs.
  subst d' evs. unfold handleTouchSensor.
  cbn [andb negb]. rewrite Hp. fold dur.
  unfold LONG_PRESS_TIME in *.
  destruct (2000 <=? dur) eqn:Elong.
  - apply Z.leb_le in Elong. cbn.
    repeat split; try reflexivity; intros; lia.
  - apply Z.leb_gt in Elong.
    destruct (50 <? dur) eqn:Eshort.
    + apply Z.ltb_lt in Eshort.
      split; [|split; [intros; lia|split; [|intros; lia]]].
      * destruct (degradeActive _ || calmHoldActive _); reflexivity.
      * intros _.
        destruct (degradeActive (emo d)) eqn:Edeg;
          destruct (calmHoldActive (emo d)) eqn:Ecalm; cbn;
          rewrite ?Edeg, ?Ecalm; cbn; repeat split;
          try reflexivity; try assumption; apply Hidle; reflexivity.
    + apply Z.ltb_ge in Eshort. cbn.
      repeat split; try reflexivity; intros; lia.
Qed.

Lemma touch_release_classification_witness :
  let d := set_touch true 18000
             (finalDevice longIdleRun (bootDevice true true 0 8000)) in
  let hw := mkHw 19800 1700000020 in
  touchPressed d = true
  /\ phaseInv (emo d)
  /\ 50 < u32 (hw_millis hw - touchStartTime d) < LONG_PRESS_TIME
  /\ degradeActive (emo d) = true
  /\ snd (handleTouchSensor hw false d) = [QuickStatusIntent]
  /\ degradeActive (emo (fst (handleTouchSensor hw false d))) = false
  /\ touchPressed (fst (handleTouchSensor hw false d)) = false.
Proof.
  intros d hw.
  assert (Hp : touchPressed d = true) by reflexivity.
  assert (Hinv : phaseInv (emo d)).
  { vm_compute. repeat split; intros; try reflexivity; discriminate. }
  assert (Hd : 50 < u32 (hw_millis hw - touchStartTime d) < LONG_PRESS_TIME).
  { vm_compute. split; reflexivity. }
  pose proof (touch_release_classification hw d Hp Hinv) as H.
  cbv zeta in H. destruct H as (H1 & _ & H2 & _).
  destruct (H2 Hd) as (E1 & _ & _ & E2 & _).
  split; [exact Hp|]. split; [exact Hinv|]. split; [exact Hd|].
  split; [reflexivity|]. split; [exact E1|]. split; [exact E2|exact H1].
Defined.

(** ** One slot in one sampling pass *)

Lemma sampleSlot_placed (now : Z) (smp : SlotSample) (b : BookState) :
  wasPresent b = false ->
  debounced smp b = true ->
  sampleSlot now smp b
  = (mkBook true true now (cumulativeSeconds b) true, true).
Proof.
  intros Hw Hd. unfold sampleSlot. rewrite Hd, Hw. reflexivity.
Qed.

Lemma sampleSlot_removed (now : Z) (smp : SlotSample) (b : BookState) :
  wasPresent b = true ->
  debounced smp b = false ->
  sampleSlot now smp b
  = (mkBook false false 0 (cumulativeSeconds (removeBook now b)) false, true).
Proof.
  intros Hw Hd. unfold sampleSlot. rewrite Hd, Hw. reflexivity.
Qed.

Lemma sampleSlot_unchanged (now : Z) (smp : SlotSample) (b : BookState) :
  debounced smp b = wasPresent b ->
  sampleSlot now smp b
  = (mkBook (wasPresent b) (wasPresent b) (lastPlacedEpoch b)
       (cumulativeSeconds b) (tracking b), false).
Proof.
  intros Hd. unfold sampleSlot. rewrite Hd.
  rewrite Bool.eqb_reflx. reflexivity.
Qed.

(** The three cases are all there is. *)
Lemma sampleSlot_cases (now : Z) (smp : SlotSample) (b : BookState) :
  (wasPresent b = false /\ debounced smp b = true)
  \/ (wasPresent b = true /\ debounced smp b = false)
  \/ debounced smp b = wasPresent b.
Proof.
  destruct (wasPresent b), (debounced smp b); auto.
Qed.

(** ** Accrual on removal *)

(** C5, as stated, fails for a session that began when the clock source
    returned 0.  Without an RTC the epoch is [millis() / 1000]; a book put
    down while that is 0 and taken away at epoch 100 is tracked, the removal
    is accepted, and nothing is added where max(0, 100 - 0) = 100. *)
Lemma session_from_epoch_zero_adds_nothing :
  let d0 := bootDevice false true 0 8000 in
  let d1 := fst (updateBookStates (passAt 500 0 (Nat.eqb 0)) d0) in
  let r := updateBookStates (passAt 100500 0 (fun _ => false)) d1 in
  getRTCEpoch (mkHw 500 0) d0 = 0
  /\ getRTCEpoch (mkHw 100500 0) d1 = 100
  /\ tracking (slotOf 0 d1) = true
  /\ lastPlacedEpoch (slotOf 0 d1) = 0
  /\ snd r = [Removed 0]
  /\ cumulativeSeconds (slotOf 0 (fst r)) = 0
  /\ cumulativeSeconds (slotOf 0 (fst r))
     <> cumulativeSeconds (slotOf 0 d1)
        + Z.max 0 (100 - lastPlacedEpoch (slotOf 0 d1)).
Proof. vm_compute. repeat split; try reflexivity. discriminate. Qed.

(** C5 (amended).  On an accepted Removed event for a slot that is tracking
    a session begun at a non-zero epoch, max(0, now - lastPlacedEpoch) is
    added to cumulativeSeconds in 32-bit arithmetic, exactly that when the
    sum fits; tracking becomes false and lastPlacedEpoch 0, the sketch's
    "none".  A session from epoch 1000 to epoch 1050 on a fresh slot leaves
    50; when the clock has regressed below lastPlacedEpoch nothing is added. *)
Theorem removal_accrues_clamped_session
    (now : Z) (smp : SlotSample) (b : BookState) :
  tracking b = true ->
  0 < lastPlacedEpoch b ->
  wasPresent b = true ->
  debounced smp b = false ->
  0 <= cumulativeSeconds b < 4294967296 ->
  let added := Z.max 0 (now - lastPlacedEpoch b) in
  let b' := fst (sampleSlot now smp b) in
  snd (sampleSlot now smp b) = true
  /\ cumulativeSeconds b' = u32 (cumulativeSeconds b + added)
  /\ (cumulativeSeconds b + added < 4294967296 ->
      cumulativeSeconds b' = cumulativeSeconds b + added)
  /\ (now < lastPlacedEpoch b -> cumulativeSeconds b' = cumulativeSeconds b)
  /\ (lastPlacedEpoch b = 1000 -> now = 1050 -> cumulativeSeconds b = 0 ->
      cumulativeSeconds b' = 50)
  /\ tracking b' = false
  /\ lastPlacedEpoch b' = 0
  /\ present b' = false.
Proof.
  intros Ht Hlp Hw Hdeb Hcum added b'.
  assert (Hcum' : cumulativeSeconds b' = u32 (cumulativeSeconds b + added)).
  { subst b' added. unfold sampleSlot. rewrite Hdeb, Hw. cbn.
    rewrite Ht. apply Z.ltb_lt in Hlp. rewrite Hlp. cbn.
    apply Z.ltb_lt in Hlp.
    destruct (lastPlacedEpoch b <? now) eqn:E.
    - apply Z.ltb_lt in E. rewrite Z.max_r by lia. reflexivity.
    - apply Z.ltb_ge in E. rewrite Z.max_l by lia.
      rewrite Z.add_0_r. symmetry. apply u32_small. exact Hcum. }
  assert (Hshape : snd (sampleSlot now smp b) = true
                   /\ tracking b' = false /\ lastPlacedEpoch b' = 0
                   /\ present b' = false).
  { subst b'. unfold sampleSlot. rewrite Hdeb, Hw. cbn. repeat split. }
  destruct Hshape as (Hs & Htr & Hl & Hp).
  split; [exact Hs|]. split; [exact Hcum'|].
  split.
  { intros Hfit. rewrite Hcum'. apply u32_small. subst added. lia. }
  split.
  { intros Hreg. rewrite Hcum'. subst added.
    rewrite Z.max_l by lia. rewrite Z.add_0_r. apply u32_small. exact Hcum. }
  split.
  { intros H1 H2 H3. rewrite Hcum'. subst added.
    rewrite H1, H2, H3. reflexivity. }
  repeat split; assumption.
Qed.

Lemma removal_accrues_clamped_session_witness :
  let d0 := bootDevice true true 0 8000 in
  let d1 := fst (updateBookStates (passAt 10000 1000 (Nat.eqb 0)) d0) in
  let r := updateBookStates (passAt 60000 1050 (fun _ => false)) d1 in
  let b := slotOf 0 d1 in
  let smp := mkSample true true (mkHw 60000 1050) in
  tracking b = true
  /\ 0 < lastPlacedEpoch b
  /\ wasPresent b = true
  /\ debounced smp b = false
  /\ 0 <= cumulativeSeconds b < 4294967296
  /\ cumulativeSeconds (fst (sampleSlot 1050 smp b)) = 50
  /\ snd r = [Removed 0]
  /\ cumulativeSeconds (slotOf 0 (fst r)) = 50.
Proof.
  intros d0 d1 r b smp.
  assert (H1 : tracking b = true) by reflexivity.
  assert (H2 : 0 < lastPlacedEpoch b) by reflexivity.
  assert (H3 : wasPresent b = true) by reflexivity.
  assert (H4 : debounced smp b = false) by reflexivity.
  assert (H5 : 0 <= cumulativeSeconds b < 4294967296)
    by (vm_compute; split; [discriminate | reflexivity]).
  pose proof (removal_accrues_clamped_session 1050 smp b H1 H2 H3 H4 H5) as H.
  cbv zeta in H. destruct H as (_ & _ & _ & _ & HA & _).
  split; [exact H1|]. split; [exact H2|]. split; [exact H3|].
  split; [exact H4|]. split; [exact H5|].
  split; [apply HA; reflexivity|].
  split; reflexivity.
Defined.

(** ** A session placed at epoch 0 *)

(** Without an RTC the epoch is 0 throughout the first second of the
    millisecond counter. *)
Lemma fallback_epoch_zero (hw : Hardware) (d : Device) :
  rtcReady d = false -> 0 <= hw_millis hw < 1000 -> getRTCEpoch hw d = 0.
Proof.
  intros Hr Hm. unfold getRTCEpoch. rewrite Hr.
  apply Z.div_small. exact Hm.
Qed.

(** C10.  A Placed event accepted at an instant when the clock source
    returns 0 puts the slot in tracking with lastPlacedEpoch = 0.  The live
    total of that slot is then cumulativeSeconds at every instant, and the
    Removed event that ends the session adds nothing, whatever the epoch of
    the removal: the whole session contributes 0 seconds. *)
Theorem session_placed_at_epoch_zero
    (hw : Hardware) (d : Device) (smp : SlotSample) (b : BookState) :
  getRTCEpoch hw d = 0 ->
  wasPresent b = false ->
  debounced smp b = true ->
  let b1 := fst (sampleSlot (getRTCEpoch hw d) smp b) in
  snd (sampleSlot (getRTCEpoch hw d) smp b) = true
  /\ tracking b1 = true
  /\ lastPlacedEpoch b1 = 0
  /\ cumulativeSeconds b1 = cumulativeSeconds b
  /\ (forall now, getBookTotalSeconds now b1 = cumulativeSeconds b)
  /\ (forall now smp',
        debounced smp' b1 = false ->
        let b2 := fst (sampleSlot now smp' b1) in
        snd (sampleSlot now smp' b1) = true
        /\ tracking b2 = false
        /\ cumulativeSeconds b2 = cumulativeSeconds b
        /\ forall now', getBookTotalSeconds now' b2 = cumulativeSeconds b).
Proof.
  intros Hz Hw Hdeb b1. subst b1. rewrite Hz.
  rewrite (sampleSlot_placed 0 smp b Hw Hdeb). cbn [fst snd].
  split; [reflexivity|]. split; [reflexivity|]. split; [reflexivity|].
  split; [reflexivity|]. split.
  - intros now. reflexivity.
  - intros now smp' Hdeb'.
    rewrite (sampleSlot_removed now smp'
               (mkBook true true 0 (cumulativeSeconds b) true)
               eq_refl Hdeb').
    cbn [fst snd].
    split; [reflexivity|]. split; [reflexivity|]. split; [reflexivity|].
    intros now'. reflexivity.
Qed.

Lemma session_placed_at_epoch_zero_witness :
  let d := bootDevice false true 0 8000 in
  let hw := mkHw 500 0 in
  let smp := mkSample false false hw in
  let gone := mkSample true true (mkHw 3600500 0) in
  let b1 := fst (sampleSlot (getRTCEpoch hw d) smp freshBook) in
  getRTCEpoch hw d = 0
  /\ wasPresent freshBook = false
  /\ debounced smp freshBook = true
  /\ debounced gone b1 = false
  /\ getBookTotalSeconds 3600 b1 = 0
  /\ cumulativeSeconds (fst (sampleSlot 3600 gone b1)) = 0.
Proof.
  intros d hw smp gone b1.
  assert (H0 : getRTCEpoch hw d = 0)
    by (apply fallback_epoch_zero; [reflexivity | cbn; lia]).
  assert (H1 : wasPresent freshBook = false) by reflexivity.
  assert (H2 : debounced smp freshBook = true) by reflexivity.
  assert (H3 : debounced gone b1 = false) by reflexivity.
  pose proof (session_placed_at_epoch_zero hw d smp freshBook H0 H1 H2) as H.
  cbv zeta in H. destruct H as (_ & _ & _ & _ & Hlive & Hrem).
  split; [exact H0|]. split; [exact H1|]. split; [exact H2|].
  split; [exact H3|]. split; [exact (Hlive 3600)|].
  exact (proj1 (proj2 (proj2 (Hrem 3600 gone H3)))).
Defined.

(** ** The live total *)

Lemma getBookTotalSeconds_u32 (now : Z) (b : BookState) :
  0 <= cumulativeSeconds b < 4294967296 ->
  getBookTotalSeconds now b = u32 (exactTotal now b).
Proof.
  intros Hc. unfold getBookTotalSeconds, exactTotal.
  destruct (tracking b && (0 <? lastPlacedEpoch b)).
  - destruct (lastPlacedEpoch b <? now) eqn:E.
    + apply Z.ltb_lt in E. rewrite Z.max_r by lia. reflexivity.
    + apply Z.ltb_ge in E. rewrite Z.max_l by lia.
      rewrite Z.add_0_r. symmetry. apply u32_small. exact Hc.
  - rewrite Z.add_0_r. symmetry. apply u32_small. exact Hc.
Qed.

Lemma exactTotal_lower (now : Z) (b : BookState) :
  cumulativeSeconds b <= exactTotal now b.
Proof.
  unfold exactTotal. destruct (tracking b && _); lia.
Qed.

Lemma getBookTotalSeconds_exact (now : Z) (b : BookState) :
  0 <= cumulativeSeconds b ->
  exactTotal now b < 4294967296 ->
  getBookTotalSeconds now b = exactTotal now b.
Proof.
  intros Hc Hfit.
  pose proof (exactTotal_lower now b) as Hl.
  rewrite getBookTotalSeconds_u32 by lia.
  apply u32_small. lia.
Qed.

Lemma exactTotal_mono (t1 t2 : Z) (b : BookState) :
  t1 <= t2 ->
  exactTotal t1 b <= exactTotal t2 b <= exactTotal t1 b + (t2 - t1).
Proof.
  intros Ht. unfold exactTotal. destruct (tracking b && _); lia.
Qed.

Lemma removeBook_cumulative (now : Z) (b : BookState) :
  0 <= cumulativeSeconds b ->
  exactTotal now b < 4294967296 ->
  cumulativeSeconds (removeBook now b) = exactTotal now b.
Proof.
  intros Hc Hfit.
  rewrite <- (getBookTotalSeconds_exact now b Hc Hfit).
  reflexivity.
Qed.

Lemma sampleSlot_slotInv (now : Z) (smp : SlotSample) (b : BookState) :
  slotInv b -> slotInv (fst (sampleSlot now smp b)).
Proof.
  intros [Hw Hc].
  destruct (sampleSlot_cases now smp b) as [[H1 H2]|[[H1 H2]|H]].
  - rewrite sampleSlot_placed by assumption. split; [reflexivity|exact Hc].
  - rewrite sampleSlot_removed by assumption. split; [reflexivity|].
    cbn. unfold removeBook. cbn.
    destruct (tracking b && _); [destruct (_ <? now)|]; try exact Hc.
    apply u32_range.
  - rewrite sampleSlot_unchanged by assumption. split; assumption.
Qed.

(** A pass at epoch [now] leaves the live total of epoch [now] as it is. *)
Lemma sampleSlot_exactTotal (now : Z) (smp : SlotSample) (b : BookState) :
  slotInv b ->
  exactTotal now b < 4294967296 ->
  exactTotal now (fst (sampleSlot now smp b)) = exactTotal now b.
Proof.
  intros [Hw Hc] Hfit.
  destruct (sampleSlot_cases now smp b) as [[H1 H2]|[[H1 H2]|H]].
  - rewrite sampleSlot_placed by assumption.
    unfold exactTotal. cbn. rewrite <- Hw, H1. cbn.
    destruct (0 <? now); lia.
  - rewrite sampleSlot_removed by assumption.
    unfold exactTotal at 1. cbn [fst tracking cumulativeSeconds andb].
    rewrite removeBook_cumulative by assumption. lia.
  - rewrite sampleSlot_unchanged by assumption. reflexivity.
Qed.

Lemma sampleSlot_cumulative_mono (now : Z) (smp : SlotSample) (b : BookState) :
  0 <= cumulativeSeconds b ->
  exactTotal now b < 4294967296 ->
  cumulativeSeconds b <= cumulativeSeconds (fst (sampleSlot now smp b)).
Proof.
  intros Hc Hfit.
  destruct (sampleSlot_cases now smp b) as [[H1 H2]|[[H1 H2]|H]].
  - rewrite sampleSlot_placed by assumption. cbn. lia.
  - rewrite sampleSlot_removed by assumption. cbn [fst cumulativeSeconds].
    rewrite removeBook_cumulative by assumption. apply exactTotal_lower.
  - rewrite sampleSlot_unchanged by assumption. cbn. lia.
Qed.

Lemma timesWithin_le (lo hi : Z) (steps : list (Z * SlotSample)) :
  timesWithin lo hi steps -> lo <= hi.
Proof.
  revert lo. induction steps as [|[t smp] rest IH]; intros lo H; cbn in H.
  - exact H.
  - destruct H as [H1 H2]. specialize (IH t H2). lia.
Qed.

(** Over any number of passes at non-decreasing epochs the live total does
    not decrease, and it grows no faster than the clock. *)
Lemma sampleRun_exactTotal (steps : list (Z * SlotSample)) :
  forall (b : BookState) (t hi : Z),
    slotInv b ->
    timesWithin t hi steps ->
    exactTotal t b + (hi - t) < 4294967296 ->
    slotInv (sampleRun steps b)
    /\ exactTotal t b <= exactTotal hi (sampleRun steps b)
       <= exactTotal t b + (hi - t).
Proof.
  induction steps as [|[t' smp] rest IH]; intros b t hi Hinv Hw Hfit; cbn in *.
  - split; [exact Hinv|]. apply exactTotal_mono. exact Hw.
  - destruct Hw as [Htt Hrest].
    pose proof (timesWithin_le _ _ _ Hrest) as Hhi.
    pose proof (exactTotal_mono t t' b Htt) as Hm.
    assert (Hfit' : exactTotal t' b < 4294967296) by lia.
    pose proof (sampleSlot_exactTotal t' smp b Hinv Hfit') as Heq.
    specialize (IH (fst (sampleSlot t' smp b)) t' hi
                  (sampleSlot_slotInv t' smp b Hinv) Hrest).
    rewrite Heq in IH.
    destruct IH as [Hi Hb]; [lia|].
    split; [exact Hi|]. lia.
Qed.

(** ** The sampling loop *)

Lemma getRTCEpoch_same_clock (hw : Hardware) (d d' : Device) :
  rtcReady d' = rtcReady d -> getRTCEpoch hw d' = getRTCEpoch hw d.
Proof. intros H. unfold getRTCEpoch. rewrite H. reflexivity. Qed.

Lemma onBookChange_idem (t : Z) (d : Device) :
  onBookChange t (onBookChange t d) = onBookChange t d.
Proof. reflexivity. Qed.

Section SamplingLoop.

Variables (t : Z) (pins : nat -> SlotSample).

(** The slots after the loop are the sampled slots, one by one. *)
Lemma scanBooks_nth (bs : list BookState) :
  forall (i0 : nat) (d : Device) (n : Z) bs' d' n' evs (k : nat) (b : BookState),
    scanBooks t pins i0 bs d n = (bs', d', n', evs) ->
    nth_error bs k = Some b ->
    nth_error bs' k
    = Some (fst (sampleSlot (getRTCEpoch (slot_hw (pins (i0 + k)%nat)) d)
                   (pins (i0 + k)%nat) b)).
Proof.
  induction bs as [|b0 rest IH]; intros i0 d n bs' d' n' evs k b Hs Hk.
  - destruct k; discriminate Hk.
  - cbn [scanBooks] in Hs.
    destruct (sampleSlot _ (pins i0) b0) as [b0' changed] eqn:E0.
    destruct (scanBooks t pins (S i0) rest _ _) as [[[r1 d1] n1] e1] eqn:E1.
    injection Hs as <- <- <- <-.
    destruct k as [|k].
    + cbn in Hk. injection Hk as <-. cbn.
      rewrite Nat.add_0_r, E0. reflexivity.
    + cbn in Hk. cbn [nth_error].
      rewrite (IH _ _ _ _ _ _ _ k b E1 Hk).
      replace (S i0 + k)%nat with (i0 + S k)%nat by lia.
      rewrite (getRTCEpoch_same_clock _ d).
      * reflexivity.
      * destruct changed; reflexivity.
Qed.

Lemma scanBooks_length (bs : list BookState) :
  forall (i0 : nat) (d : Device) (n : Z) bs' d' n' evs,
    scanBooks t pins i0 bs d n = (bs', d', n', evs) ->
    List.length bs' = List.length bs.
Proof.
  induction bs as [|b0 rest IH]; intros i0 d n bs' d' n' evs Hs.
  - cbn in Hs. injection Hs as <- _ _ _. reflexivity.
  - cbn [scanBooks] in Hs.
    destruct (sampleSlot _ (pins i0) b0) as [b0' changed] eqn:E0.
    destruct (scanBooks t pins (S i0) rest _ _) as [[[r1 d1] n1] e1] eqn:E1.
    injection Hs as <- <- <- <-. cbn. f_equal. eapply IH. exact E1.
Qed.

(** The globals after the loop: untouched when no change was seen, and
    otherwise the reset of [onBookChange]; the loop emits change events
    only. *)
Lemma scanBooks_device (bs : list BookState) :
  forall (i0 : nat) (d : Device) (n : Z) bs' d' n' evs,
    scanBooks t pins i0 bs d n = (bs', d', n', evs) ->
    forallb isChange evs = true
    /\ ((evs = [] /\ d' = d) \/ (evs <> [] /\ d' = onBookChange t d)).
Proof.
  induction bs as [|b0 rest IH]; intros i0 d n bs' d' n' evs Hs.
  - cbn in Hs. injection Hs as <- <- <- <-. split; [reflexivity|]. left. auto.
  - cbn [scanBooks] in Hs.
    destruct (sampleSlot _ (pins i0) b0) as [b0' changed] eqn:E0.
    destruct (scanBooks t pins (S i0) rest _ _) as [[[r1 d1] n1] e1] eqn:E1.
    injection Hs as <- <- <- <-.
    destruct (IH _ _ _ _ _ _ _ E1) as [Hall Hd].
    destruct changed.
    + split.
      * cbn. rewrite Hall. destruct (present b0'); reflexivity.
      * right. split; [discriminate|].
        destruct Hd as [[_ ->]|[_ ->]]; reflexivity.
    + split; [exact Hall|]. cbn [app]. exact Hd.
Qed.

(** With room in the eight-bit counter, the loop counts the present slots. *)
Lemma scanBooks_count (bs : list BookState) :
  forall (i0 : nat) (d : Device) (n : Z) bs' d' n' evs,
    scanBooks t pins i0 bs d n = (bs', d', n', evs) ->
    0 <= n ->
    n + Z.of_nat (List.length bs) < 256 ->
    n' = n + Z.of_nat (List.length (filter present bs')).
Proof.
  induction bs as [|b0 rest IH]; intros i0 d n bs' d' n' evs Hs Hn Hroom.
  - cbn in Hs. injection Hs as <- <- <- <-. cbn. lia.
  - cbn [scanBooks] in Hs.
    destruct (sampleSlot _ (pins i0) b0) as [b0' changed] eqn:E0.
    destruct (scanBooks t pins (S i0) rest _ _) as [[[r1 d1] n1] e1] eqn:E1.
    injection Hs as <- <- <- <-.
    cbn [List.length] in Hroom.
    cbn [filter]. destruct (present b0').
    + assert (Hu : u8 (n + 1) = n + 1)
        by (unfold u8; apply Z.mod_small; lia).
      rewrite Hu in E1.
      rewrite (IH _ _ _ _ _ _ _ E1) by lia.
      cbn [List.length]. lia.
    + rewrite (IH _ _ _ _ _ _ _ E1) by lia. reflexivity.
Qed.

(** Without a change event, every slot keeps its state: [present] is
    rewritten with the value [wasPresent] already holds. *)
Lemma scanBooks_quiet (bs : list BookState) :
  forall (i0 : nat) (d : Device) (n : Z) bs' d' n' evs,
    scanBooks t pins i0 bs d n = (bs', d', n', evs) ->
    evs = [] ->
    map wasPresent bs' = map wasPresent bs
    /\ map present bs' = map wasPresent bs.
Proof.
  induction bs as [|b0 rest IH]; intros i0 d n bs' d' n' evs Hs He.
  - cbn in Hs. injection Hs as <- <- <- <-. split; reflexivity.
  - cbn [scanBooks] in Hs.
    destruct (sampleSlot _ (pins i0) b0) as [b0' changed] eqn:E0.
    destruct (scanBooks t pins (S i0) rest _ _) as [[[r1 d1] n1] e1] eqn:E1.
    injection Hs as <- <- <- <-.
    destruct changed; [discriminate He|].
    cbn [app] in He.
    destruct (IH _ _ _ _ _ _ _ E1 He) as [H1 H2].
    unfold sampleSlot in E0.
    destruct (negb (Bool.eqb _ _)) eqn:Eb; [discriminate E0|].
    apply negb_false_iff, Bool.eqb_prop in Eb.
    injection E0 as <-. cbn. rewrite H1, H2, Eb. split; reflexivity.
Qed.

End SamplingLoop.

(** [updateBookStates] in terms of its loop. *)
Lemma updateBookStates_unfold (inp : UpdateInput) (d : Device) bs d1 n evs :
  scanBooks (hw_millis (upd_hw inp)) (upd_pins inp) 0 (books d) d 0
  = (bs, d1, n, evs) ->
  let fire := (n =? 5) && (currentBookCount d1 <? 5)
              && negb (allBooksAnnouncedOnce d1) in
  let d' := fst (updateBookStates inp d) in
  books d' = bs
  /\ currentBookCount d' = n
  /\ lastBookCount d' = currentBookCount d1
  /\ rtcReady d' = rtcReady d1
  /\ touchPressed d' = touchPressed d1
  /\ touchStartTime d' = touchStartTime d1
  /\ allBooksAnnouncedOnce d'
     = (if n <? 5 then false else if fire then true
        else allBooksAnnouncedOnce d1)
  /\ emo d'
     = (if fire
        then emo (celebrate (hw_millis (upd_hw inp))
                    (hw_millis (upd_hold_hw inp)) d1)
        else emo d1)
  /\ snd (updateBookStates inp d)
     = evs ++ (if fire then [AllPlacedEvent] else []).
Proof.
  intros Hs fire d'. subst d' fire. unfold updateBookStates. rewrite Hs.
  cbn [currentBookCount lastBookCount allBooksAnnouncedOnce set_counts
       set_books].
  destruct ((n =? 5) && (currentBookCount d1 <? 5)
            && negb (allBooksAnnouncedOnce d1)) eqn:Ef.
  - cbn. destruct (n <? 5); cbn; repeat split; reflexivity.
  - cbn. destruct (n <? 5); cbn; repeat split; reflexivity.
Qed.

Lemma handleTouchSensor_books (hw : Hardware) (r : bool) (d : Device) :
  books (fst (handleTouchSensor hw r d)) = books d
  /\ currentBookCount (fst (handleTouchSensor hw r d)) = currentBookCount d
  /\ allBooksAnnouncedOnce (fst (handleTouchSensor hw r d))
     = allBooksAnnouncedOnce d
  /\ rtcReady (fst (handleTouchSensor hw r d)) = rtcReady d.
Proof.
  unfold handleTouchSensor.
  destruct r; cbn [andb negb].
  - destruct (touchPressed d); repeat split; reflexivity.
  - destruct (touchPressed d); [|repeat split; reflexivity].
    destruct (LONG_PRESS_TIME <=? _); [repeat split; reflexivity|].
    destruct (50 <? _); [|repeat split; reflexivity].
    cbn. destruct (degradeActive (emo d) || calmHoldActive (emo d));
      repeat split; reflexivity.
Qed.

Lemma calculateEmotion_books (hw : Hardware) (d : Device) :
  books (fst (calculateEmotion hw d)) = books d
  /\ currentBookCount (fst (calculateEmotion hw d)) = currentBookCount d
  /\ allBooksAnnouncedOnce (fst (calculateEmotion hw d))
     = allBooksAnnouncedOnce d
  /\ rtcReady (fst (calculateEmotion hw d)) = rtcReady d.
Proof.
  unfold calculateEmotion.
  destruct (calculateEmotionVars _ _ _) as [e evs].
  repeat split; reflexivity.
Qed.

Lemma handleSyncTime_device (body : string) (hw : Hardware) (d : Device) :
  fst (fst (handleSyncTime body hw d)) = d.
Proof.
  unfold handleSyncTime.
  destruct (negb (rtcReady d)); [reflexivity|].
  destruct (epochText body); [|reflexivity].
  destruct (1000000000 <? _); reflexivity.
Qed.

(** No operation lowers the accrued seconds of a slot. *)
Lemma applyOp_cumulative_mono (op : Op) (d : Device) (i : nat) (b : BookState) :
  nth_error (books d) i = Some b ->
  0 <= cumulativeSeconds b ->
  (forall now, opEpoch op d i = Some now -> exactTotal now b < 4294967296) ->
  exists b', nth_error (books (applyOp op d)) i = Some b'
             /\ cumulativeSeconds b <= cumulativeSeconds b'.
Proof.
  intros Hi Hc Hfit.
  destruct op as [inp|hw r|hw|idx hw|body hw]; cbn [applyOp].
  - destruct (scanBooks (hw_millis (upd_hw inp)) (upd_pins inp) 0 (books d) d 0)
      as [[[bs d1] n] evs] eqn:Hs.
    destruct (updateBookStates_unfold inp d bs d1 n evs Hs) as (Hb & _).
    rewrite Hb.
    rewrite (scanBooks_nth _ _ _ _ _ _ _ _ _ _ i b Hs Hi). cbn [Nat.add].
    eexists. split; [reflexivity|].
    apply sampleSlot_cumulative_mono; [exact Hc|].
    apply Hfit. reflexivity.
  - destruct (handleTouchSensor_books hw r d) as (Hb & _). rewrite Hb.
    exists b. split; [exact Hi|lia].
  - destruct (calculateEmotion_books hw d) as (Hb & _). rewrite Hb.
    exists b. split; [exact Hi|lia].
  - exists b. split; [exact Hi|lia].
  - rewrite handleSyncTime_device. exists b. split; [exact Hi|lia].
Qed.

(** C2, as stated, fails when the clock has been set back below the start
    of a running session: the live total is then [cumulativeSeconds], not
    [cumulativeSeconds + (now - lastPlacedEpoch)], neither as an integer nor
    reduced to 32 bits. *)
Lemma live_total_clamps_clock_regression :
  let d0 := bootDevice true true 0 8000 in
  let d1 := fst (updateBookStates (passAt 10000 1700000050 (Nat.eqb 0)) d0) in
  let b := slotOf 0 d1 in
  tracking b = true
  /\ lastPlacedEpoch b = 1700000050
  /\ getBookTotalSeconds 1700000000 b = 0
  /\ specLiveTotal 1700000000 b = -50
  /\ getBookTotalSeconds 1700000000 b <> specLiveTotal 1700000000 b
  /\ getBookTotalSeconds 1700000000 b <> u32 (specLiveTotal 1700000000 b).
Proof. vm_compute. repeat split; try reflexivity; discriminate. Qed.

(** Past 2^32 the 32-bit sum wraps and the live total does decrease. *)
Lemma live_total_wraps_past_u32 :
  let b := mkBook true true 1000000001 4294967295 true in
  getBookTotalSeconds 1000000001 b = 4294967295
  /\ getBookTotalSeconds 1000000003 b = 1.
Proof. vm_compute. split; reflexivity. Qed.

(** C2 (amended).  For every slot and query instant, liveTotal is
    cumulativeSeconds + (tracking and lastPlacedEpoch > 0 ?
    max(0, now - lastPlacedEpoch) : 0), reduced to 32 bits.  As long as
    that sum stays below 2^32, liveTotal does not decrease between two
    queries at non-decreasing epochs, whatever sampling passes of the slot
    happen at non-decreasing epochs in between; and no operation (sampling
    pass, touch poll, tick, query, clock sync) lowers cumulativeSeconds,
    provided a removal's sum stays below 2^32. *)
Theorem live_total_never_decreases :
  (forall (now : Z) (b : BookState),
      0 <= cumulativeSeconds b < 4294967296 ->
      getBookTotalSeconds now b
      = u32 (cumulativeSeconds b
             + (if tracking b && (0 <? lastPlacedEpoch b)
                then Z.max 0 (now - lastPlacedEpoch b) else 0)))
  /\ (forall (steps : list (Z * SlotSample)) (b : BookState) (now1 now2 : Z),
         slotInv b ->
         timesWithin now1 now2 steps ->
         exactTotal now1 b + (now2 - now1) < 4294967296 ->
         getBookTotalSeconds now1 b
         <= getBookTotalSeconds now2 (sampleRun steps b))
  /\ (forall (op : Op) (d : Device) (i : nat) (b : BookState),
         nth_error (books d) i = Some b ->
         0 <= cumulativeSeconds b ->
         (forall now, opEpoch op d i = Some now ->
                      exactTotal now b < 4294967296) ->
         exists b', nth_error (books (applyOp op d)) i = Some b'
                    /\ cumulativeSeconds b <= cumulativeSeconds b').
Proof.
  split; [|split].
  - intros now b Hc. apply getBookTotalSeconds_u32. exact Hc.
  - intros steps b now1 now2 Hinv Hw Hfit.
    destruct (sampleRun_exactTotal steps b now1 now2 Hinv Hw Hfit)
      as [Hinv' Hb].
    pose proof (timesWithin_le _ _ _ Hw) as Hle.
    pose proof (exactTotal_lower now1 b) as Hl.
    rewrite (getBookTotalSeconds_exact now1 b) by (try apply Hinv; lia).
    rewrite (getBookTotalSeconds_exact now2 (sampleRun steps b))
      by (try apply Hinv'; lia).
    lia.
  - exact applyOp_cumulative_mono.
Qed.

Lemma live_total_never_decreases_witness :
  let d0 := bootDevice true true 0 8000 in
  let d1 := fst (updateBookStates (passAt 10000 1700000050 (Nat.eqb 0)) d0) in
  let b := slotOf 0 d1 in
  let gone := mkSample true true (mkHw 60000 1700000100) in
  let op := OpSample (passAt 60000 1700000100 (fun _ => false)) in
  (0 <= cumulativeSeconds b < 4294967296
   /\ getBookTotalSeconds 1700000060 b = u32 (0 + Z.max 0 10))
  /\ (slotInv b
      /\ timesWithin 1700000060 1700000200 [(1700000100, gone)]
      /\ exactTotal 1700000060 b + (1700000200 - 1700000060) < 4294967296
      /\ getBookTotalSeconds 1700000060 b
         <= getBookTotalSeconds 1700000200
              (sampleRun [(1700000100, gone)] b))
  /\ (nth_error (books d1) 0 = Some b
      /\ 0 <= cumulativeSeconds b
      /\ exactTotal 1700000100 b < 4294967296
      /\ exists b', nth_error (books (applyOp op d1)) 0 = Some b'
                    /\ cumulativeSeconds b <= cumulativeSeconds b').
Proof.
  intros d0 d1 b gone op.
  destruct live_total_never_decreases as (P1 & P2 & P3).
  assert (Hc : 0 <= cumulativeSeconds b < 4294967296)
    by (change (cumulativeSeconds b) with 0; lia).
  assert (Hinv : slotInv b) by (split; [reflexivity | apply Hc]).
  assert (Hw : timesWithin 1700000060 1700000200 [(1700000100, gone)])
    by (cbn; lia).
  assert (Hfit : exactTotal 1700000060 b + (1700000200 - 1700000060)
                 < 4294967296) by reflexivity.
  assert (Hnth : nth_error (books d1) 0 = Some b) by reflexivity.
  assert (Hfit' : forall now, opEpoch op d1 0%nat = Some now ->
                              exactTotal now b < 4294967296).
  { intros now Hn. injection Hn as <-. reflexivity. }
  split; [split; [exact Hc | exact (P1 1700000060 b Hc)]|].
  split.
  - split; [exact Hinv|]. split; [exact Hw|]. split; [exact Hfit|].
    exact (P2 [(1700000100, gone)] b 1700000060 1700000200 Hinv Hw Hfit).
  - split; [exact Hnth|]. split; [apply Hc|]. split; [reflexivity|].
    exact (P3 op d1 0%nat b Hnth (proj1 Hc) Hfit').
Defined.

(** A sampling pass leaves the count in agreement with the slots. *)
Lemma updateBookStates_bookCountConsistent (inp : UpdateInput) (d : Device) :
  List.length (books d) = NUM_BOOKS ->
  bookCountConsistent (fst (updateBookStates inp d)).
Proof.
  intros Hlen.
  destruct (scanBooks (hw_millis (upd_hw inp)) (upd_pins inp) 0 (books d) d 0)
    as [[[bs d1] n] evs] eqn:Hs.
  destruct (updateBookStates_unfold inp d bs d1 n evs Hs) as (Hb & Hn & _).
  unfold bookCountConsistent. rewrite Hb, Hn.
  split.
  - rewrite (scanBooks_length _ _ _ _ _ _ _ _ _ _ Hs). exact Hlen.
  - rewrite (scanBooks_count _ _ _ _ _ _ _ _ _ _ Hs); [lia|lia|].
    rewrite Hlen. cbn. lia.
Qed.

Lemma loopStep_bookCountConsistent (inp : LoopInput) (d : Device) :
  List.length (books d) = NUM_BOOKS ->
  bookCountConsistent (fst (loopStep inp d)).
Proof.
  intros Hlen. unfold loopStep.
  pose proof (updateBookStates_bookCountConsistent (in_update inp) d Hlen) as U.
  destruct (updateBookStates (in_update inp) d) as [d1 ev1].
  pose proof (handleTouchSensor_books (in_touch_hw inp) (in_touch inp) d1) as T.
  destruct (handleTouchSensor _ _ d1) as [d2 ev2].
  pose proof (calculateEmotion_books (in_calc_hw inp) d2) as C.
  destruct (calculateEmotion _ d2) as [d3 ev3].
  cbn [fst] in *.
  destruct T as (T1 & T2 & _). destruct C as (C1 & C2 & _).
  unfold bookCountConsistent in *. rewrite C1, C2, T1, T2. exact U.
Qed.

Lemma runLoop_bookCountConsistent (inps : list LoopInput) :
  forall d : Device,
    List.length (books d) = NUM_BOOKS ->
    Forall (fun r => bookCountConsistent (fst r)) (runLoop inps d).
Proof.
  induction inps as [|inp rest IH]; intros d Hlen; cbn [runLoop].
  - constructor.
  - pose proof (loopStep_bookCountConsistent inp d Hlen) as H.
    constructor; [exact H|]. apply IH. apply H.
Qed.

(** A pass that sees a book change ends the boot calm period. *)
Lemma book_change_ends_boot_calm (inp : UpdateInput) (d : Device) :
  existsb isChange (snd (updateBookStates inp d)) = true ->
  inBootCalmPeriod (emo (fst (updateBookStates inp d))) = false.
Proof.
  destruct (scanBooks (hw_millis (upd_hw inp)) (upd_pins inp) 0 (books d) d 0)
    as [[[bs d1] n] evs0] eqn:Hs.
  destruct (updateBookStates_unfold inp d bs d1 n evs0 Hs)
    as (_ & _ & _ & _ & _ & _ & _ & Hemo & Hev).
  destruct (scanBooks_device _ _ _ _ _ _ _ _ _ _ Hs) as [_ Hd1].
  rewrite Hev, Hemo, existsb_app. intros Hex.
  assert (Hd : d1 = onBookChange (hw_millis (upd_hw inp)) d).
  { destruct Hd1 as [[-> _]|[_ ->]]; [|reflexivity].
    cbn [existsb orb] in Hex.
    match type of Hex with
    | context [if ?c then _ else _] => destruct c; discriminate Hex
    end. }
  rewrite Hd.
  match goal with
  | |- context [if ?c then _ else _] => destruct c; reflexivity
  end.
Qed.

(** ** The one-shot events *)

Lemma phaseInv_resetDegrade (e : EmotionVars) : phaseInv (resetDegrade e).
Proof. phase_flags. Qed.

Lemma degradeOrNormal_reminder (t c : Z) (e : EmotionVars) :
  phaseInv e ->
  inBootCalmPeriod e = false ->
  calmHoldActive e = false ->
  let e' := fst (degradeOrNormal t c e) in
  let atMax := degradeActive e' && (currentDegradeStage e' =? 5) in
  phaseInv e'
  /\ snd (degradeOrNormal t c e)
     = (if negb (reminderSpoken e) && atMax then [ReminderEvent] else [])
  /\ reminderSpoken e' = reminderSpoken e || atMax.
Proof.
  intros (H1 & H2 & H3) Hboot Hhold. unfold degradeOrNormal.
  destruct (degradeActive e) eqn:Ed; cbn.
  - destruct (degradeStageOf _ =? 5), (reminderSpoken e); cbn;
      (split; [phase_flags | split; reflexivity]).
  - rewrite Ed. cbn. destruct (H3 eq_refl) as [Hs Hr].
    rewrite Hr. cbn.
    split; [phase_flags | split; reflexivity].
Qed.

Lemma holdOrLater_reminder (t c : Z) (e : EmotionVars) :
  phaseInv e ->
  inBootCalmPeriod e = false ->
  let e' := fst (holdOrLater t c e) in
  let atMax := degradeActive e' && (currentDegradeStage e' =? 5) in
  phaseInv e'
  /\ snd (holdOrLater t c e)
     = (if negb (reminderSpoken e) && atMax then [ReminderEvent] else [])
  /\ reminderSpoken e' = reminderSpoken e || atMax.
Proof.
  intros Hinv Hboot. pose proof Hinv as (H1 & H2 & H3). unfold holdOrLater.
  destruct (calmHoldActive e) eqn:Eh.
  - pose proof (H2 eq_refl) as Hd. destruct (H3 Hd) as [Hs Hr].
    destruct (_ <? CALM_HOLD_TIME).
    + cbn. rewrite Hd, Hr. cbn.
      split; [phase_flags | split; reflexivity].
    + match goal with
      | |- context [degradeOrNormal t c ?e0] =>
          pose proof (degradeOrNormal_reminder t c e0) as Hx
      end.
      cbn [reminderSpoken inBootCalmPeriod calmHoldActive] in Hx.
      apply Hx; [phase_flags | exact Hboot | reflexivity].
  - apply degradeOrNormal_reminder; assumption.
Qed.

(** A tick fires the reminder exactly when it leaves the machine in the
    last stage with the flag not yet set, and sets the flag then. *)
Lemma calculateEmotionVars_reminder (t c : Z) (e : EmotionVars) :
  phaseInv e ->
  let e' := fst (calculateEmotionVars t c e) in
  let atMax := degradeActive e' && (currentDegradeStage e' =? 5) in
  phaseInv e'
  /\ snd (calculateEmotionVars t c e)
     = (if negb (reminderSpoken e) && atMax then [ReminderEvent] else [])
  /\ reminderSpoken e' = reminderSpoken e || atMax.
Proof.
  intros Hinv. pose proof Hinv as (H1 & H2 & H3). unfold calculateEmotionVars.
  destruct (inBootCalmPeriod e) eqn:Eb.
  - assert (Hd : degradeActive e = false).
    { destruct (degradeActive e); [|reflexivity].
      specialize (H1 eq_refl). discriminate H1. }
    destruct (H3 Hd) as [Hs Hr].
    destruct (_ <? BOOT_CALM_TIME).
    + cbn. rewrite Hd, Hr. cbn.
      split; [phase_flags | split; reflexivity].
    + pose proof (holdOrLater_reminder t c (endBootCalm e)) as Hx.
      cbn [reminderSpoken endBootCalm] in Hx.
      apply Hx; [phase_flags | reflexivity].
  - apply holdOrLater_reminder; assumption.
Qed.

Lemma calculateEmotion_events (hw : Hardware) (d : Device) :
  filter isAllPlaced (snd (calculateEmotion hw d)) = []
  /\ filter isReset (snd (calculateEmotion hw d)) = []
  /\ emo (fst (calculateEmotion hw d))
     = fst (calculateEmotionVars (hw_millis hw) (currentBookCount d) (emo d))
  /\ snd (calculateEmotion hw d)
     = snd (calculateEmotionVars (hw_millis hw) (currentBookCount d) (emo d)).
Proof.
  assert (Hev : forall t c e,
             snd (calculateEmotionVars t c e) = []
             \/ snd (calculateEmotionVars t c e) = [ReminderEvent]).
  { intros t c e. unfold calculateEmotionVars, holdOrLater, degradeOrNormal.
    repeat match goal with
           | |- context [if ?b then _ else _] => destruct b; cbn
           end; auto. }
  unfold calculateEmotion.
  specialize (Hev (hw_millis hw) (currentBookCount d) (emo d)).
  destruct (calculateEmotionVars _ _ _) as [e evs]. cbn in *.
  destruct Hev as [-> | ->]; repeat split; reflexivity.
Qed.

(** The touch handler emits at most one intent; the emotion state moves
    only with the quick status, and then to a reset state. *)
Lemma handleTouchSensor_events (hw : Hardware) (r : bool) (d : Device) :
  let d' := fst (handleTouchSensor hw r d) in
  let evs := snd (handleTouchSensor hw r d) in
  filter isAllPlaced evs = []
  /\ filter isReminder evs = []
  /\ (phaseInv (emo d) -> phaseInv (emo d'))
  /\ (filter isReset evs = [] -> emo d' = emo d).
Proof.
  assert (Hidle : forall (d0 : Device) (evs0 : list Event),
             emo d0 = emo d ->
             filter isAllPlaced evs0 = [] ->
             filter isReminder evs0 = [] ->
             filter isAllPlaced evs0 = []
             /\ filter isReminder evs0 = []
             /\ (phaseInv (emo d) -> phaseInv (emo d0))
             /\ (filter isReset evs0 = [] -> emo d0 = emo d)).
  { intros d0 evs0 He H1 H2. rewrite He. auto. }
  unfold handleTouchSensor.
  destruct r; cbn [andb negb].
  - destruct (touchPressed d); apply Hidle; reflexivity.
  - destruct (touchPressed d); [|apply Hidle; reflexivity].
    destruct (LONG_PRESS_TIME <=? _); [apply Hidle; reflexivity|].
    destruct (50 <? _); [|apply Hidle; reflexivity].
    cbn. split; [reflexivity|]. split; [reflexivity|]. split.
    + intros Hinv.
      destruct (degradeActive (emo d) || calmHoldActive (emo d)); cbn;
        [apply phaseInv_resetDegrade | exact Hinv].
    + intros Habs. discriminate Habs.
Qed.

Lemma phaseInv_onBookChange (t : Z) (d : Device) :
  phaseInv (emo (onBookChange t d)).
Proof. phase_flags. Qed.

(** A sampling pass keeps the invariants, fires the all-placed one-shot
    exactly on an ascent to five, and leaves the emotion state alone when
    it emits nothing. *)
Lemma updateBookStates_events (inp : UpdateInput) (d : Device) :
  let d' := fst (updateBookStates inp d) in
  let evs := snd (updateBookStates inp d) in
  (phaseInv (emo d) -> phaseInv (emo d'))
  /\ (filter isReset evs = [] -> emo d' = emo d)
  /\ filter isReminder evs = []
  /\ (armInv d ->
      armInv d'
      /\ filter isAllPlaced evs
         = (if (currentBookCount d' =? 5) && (currentBookCount d <? 5)
            then [AllPlacedEvent] else [])).
Proof.
  destruct (scanBooks (hw_millis (upd_hw inp)) (upd_pins inp) 0 (books d) d 0)
    as [[[bs d1] n] evs0] eqn:Hs.
  destruct (updateBookStates_unfold inp d bs d1 n evs0 Hs)
    as (_ & Hn & _ & _ & _ & _ & Hann & Hemo & Hev).
  destruct (scanBooks_device _ _ _ _ _ _ _ _ _ _ Hs) as [Hall Hd1].
  cbv zeta. rewrite Hev, Hemo, Hn.
  assert (Hcnt : currentBookCount d1 = currentBookCount d
                 /\ allBooksAnnouncedOnce d1 = allBooksAnnouncedOnce d).
  { destruct Hd1 as [[_ ->]|[_ ->]]; split; reflexivity. }
  destruct Hcnt as [Hc Ha].
  assert (Hnone : forall p, (forall e, isChange e = true -> p e = false) ->
                            filter p evs0 = []).
  { intros p Hp. clear - Hall Hp.
    induction evs0 as [|e rest IH]; [reflexivity|].
    cbn in Hall. apply andb_prop in Hall. destruct Hall as [He Hr].
    cbn. rewrite (Hp e He). apply IH. exact Hr. }
  assert (Hrem : filter isReminder evs0 = []).
  { apply Hnone. intros [] He; try discriminate He; reflexivity. }
  assert (Hap : filter isAllPlaced evs0 = []).
  { apply Hnone. intros [] He; try discriminate He; reflexivity. }
  set (fire := (n =? 5) && (currentBookCount d1 <? 5)
               && negb (allBooksAnnouncedOnce d1)) in *.
  split; [|split; [|split]].
  - intros Hinv. destruct fire.
    + phase_flags.
    + destruct Hd1 as [[_ ->]|[_ ->]];
        [exact Hinv | apply phaseInv_onBookChange].
  - rewrite filter_app. intros Hq. apply app_eq_nil in Hq.
    destruct Hq as [Hq1 Hq2].
    destruct fire; [discriminate Hq2|].
    destruct Hd1 as [[_ ->]|[Hne _]]; [reflexivity|].
    exfalso. destruct evs0 as [|e rest]; [apply Hne; reflexivity|].
    cbn in Hall. apply andb_prop in Hall. destruct Hall as [He _].
    cbn in Hq1. destruct e; try discriminate He; discriminate Hq1.
  - rewrite filter_app, Hrem. destruct fire; reflexivity.
  - intros Harm. unfold armInv in *.
    rewrite Hann, Hn, filter_app, Hap. cbn [app].
    subst fire. rewrite Hc, Ha.
    destruct (n <? 5) eqn:En.
    + split; [reflexivity|].
      apply Z.ltb_lt in En.
      assert (E5 : (n =? 5) = false) by (apply Z.eqb_neq; lia).
      rewrite E5. reflexivity.
    + split; [intros Hlt; apply Z.ltb_ge in En; lia|].
      destruct (n =? 5); [|reflexivity].
      destruct (currentBookCount d <? 5) eqn:Ec; [|reflexivity].
      apply Z.ltb_lt in Ec. rewrite (Harm Ec). reflexivity.
Qed.

(** One iteration of the loop. *)
Lemma loopStep_one_shots (inp : LoopInput) (d : Device) :
  armInv d ->
  phaseInv (emo d) ->
  let r := loopStep inp d in
  armInv (fst r)
  /\ phaseInv (emo (fst r))
  /\ filter isAllPlaced (snd r)
     = (if (currentBookCount (fst r) =? 5) && (currentBookCount d <? 5)
        then [AllPlacedEvent] else [])
  /\ (filter isReset (snd r) = [] ->
      filter isReminder (snd r)
      = (if negb (reminderSpoken (emo d)) && atMaxStage r
         then [ReminderEvent] else [])
      /\ reminderSpoken (emo (fst r))
         = reminderSpoken (emo d) || atMaxStage r).
Proof.
  intros Harm Hinv. unfold loopStep, atMaxStage.
  destruct (updateBookStates (in_update inp) d) as [d1 ev1] eqn:E1.
  destruct (handleTouchSensor (in_touch_hw inp) (in_touch inp) d1)
    as [d2 ev2] eqn:E2.
  destruct (calculateEmotion (in_calc_hw inp) d2) as [d3 ev3] eqn:E3.
  pose proof (updateBookStates_events (in_update inp) d) as U.
  pose proof (handleTouchSensor_events (in_touch_hw inp) (in_touch inp) d1) as T.
  pose proof (handleTouchSensor_books (in_touch_hw inp) (in_touch inp) d1) as TB.
  pose proof (calculateEmotion_events (in_calc_hw inp) d2) as C.
  pose proof (calculateEmotion_books (in_calc_hw inp) d2) as CB.
  rewrite E1 in U. rewrite E2 in T, TB. rewrite E3 in C, CB.
  cbn [fst snd] in *.
  destruct U as (U1 & U2 & U3 & U4). destruct (U4 Harm) as [U5 U6].
  destruct T as (T1 & T2 & T3 & T4).
  destruct TB as (_ & TB2 & TB3 & _).
  destruct C as (C1 & C2 & C3 & C4).
  destruct CB as (_ & CB2 & CB3 & _).
  pose proof (calculateEmotionVars_reminder (hw_millis (in_calc_hw inp))
                (currentBookCount d2) (emo d2) (T3 (U1 Hinv))) as R.
  cbv zeta in R. rewrite <- C3, <- C4 in R. destruct R as (R1 & R2 & R3).
  split; [|split; [exact R1|split]].
  - unfold armInv in *. rewrite CB2, CB3, TB2, TB3. exact U5.
  - rewrite !filter_app, U6, T1, C1, CB2, TB2. rewrite !app_nil_r. reflexivity.
  - rewrite !filter_app. intros Hq.
    apply app_eq_nil in Hq. destruct Hq as [Hq1 Hq].
    apply app_eq_nil in Hq. destruct Hq as [Hq2 _].
    rewrite U3, T2. cbn [app].
    rewrite <- (U2 Hq1), <- (T4 Hq2).
    split; [|exact R3].
    rewrite R2.
    destruct (negb (reminderSpoken (emo d2)) && _); reflexivity.
Qed.

Lemma countEvents_cons (p : Event -> bool) (r : Device * list Event)
    (tr : list (Device * list Event)) :
  countEvents p (r :: tr)
  = (List.length (filter p (snd r)) + countEvents p tr)%nat.
Proof.
  unfold countEvents. cbn [map List.concat].
  rewrite filter_app, length_app. reflexivity.
Qed.

Lemma noReset_cons (r : Device * list Event) (tr : list (Device * list Event)) :
  noReset (r :: tr) -> filter isReset (snd r) = [] /\ noReset tr.
Proof.
  unfold noReset. cbn [map List.concat]. rewrite filter_app.
  apply app_eq_nil.
Qed.

(** Over a run without a reset, the reminder fires once if the last stage
    is reached with the flag clear, and not at all otherwise. *)
Lemma runLoop_reminder (inps : list LoopInput) :
  forall d : Device,
    armInv d ->
    phaseInv (emo d) ->
    noReset (runLoop inps d) ->
    countEvents isReminder (runLoop inps d)
    = if reminderSpoken (emo d) then 0%nat
      else if existsb atMaxStage (runLoop inps d) then 1%nat else 0%nat.
Proof.
  induction inps as [|inp rest IH]; intros d Harm Hinv Hq.
  - cbn. destruct (reminderSpoken (emo d)); reflexivity.
  - cbn [runLoop] in *.
    destruct (loopStep_one_shots inp d Harm Hinv) as (A & P & _ & R).
    cbv zeta in A, P, R.
    apply noReset_cons in Hq. destruct Hq as [Hq1 Hq2].
    destruct (R Hq1) as [R1 R2].
    rewrite countEvents_cons, R1, (IH _ A P Hq2), R2.
    cbn [existsb].
    destruct (reminderSpoken (emo d)), (atMaxStage (loopStep inp d)); cbn;
      try reflexivity.
Qed.

(** The all-placed one-shot fires as often as the book count ascends to
    five. *)
Lemma runLoop_allPlaced (inps : list LoopInput) :
  forall d : Device,
    armInv d ->
    phaseInv (emo d) ->
    countEvents isAllPlaced (runLoop inps d)
    = ascents (currentBookCount d)
        (map (fun r => currentBookCount (fst r)) (runLoop inps d))
    /\ Forall (fun r => armInv (fst r) /\ phaseInv (emo (fst r)))
         (runLoop inps d).
Proof.
  induction inps as [|inp rest IH]; intros d Harm Hinv.
  - cbn. split; [reflexivity|constructor].
  - cbn [runLoop map ascents].
    destruct (loopStep_one_shots inp d Harm Hinv) as (A & P & F & _).
    cbv zeta in A, P, F.
    destruct (IH _ A P) as [IH1 IH2].
    split.
    + rewrite countEvents_cons, F, IH1.
      destruct ((currentBookCount (fst (loopStep inp d)) =? 5)
                && (currentBookCount d <? 5)); reflexivity.
    + constructor; [split; assumption | exact IH2].
Qed.

(** C6.  In every run of the loop from a state that satisfies the loop's
    invariants (the state after boot does): the book count after each
    iteration is the number of slots with present = true; AllPlacedEvent
    fires exactly once per ascent of that count to five from fewer, so it
    cannot fire again before the count has dropped below five; and in any
    stretch of the run without a reset (presence change, all-placed, short
    press) the ReminderEvent fires exactly once if the last degrade stage is
    reached with the reminder not yet given, and never if it was already
    given.  The invariants hold again after every iteration, so this
    applies to every stretch of every run. *)
Theorem one_shots_fire_once (inps : list LoopInput) (d : Device) :
  armInv d ->
  phaseInv (emo d) ->
  List.length (books d) = NUM_BOOKS ->
  let tr := runLoop inps d in
  Forall (fun r => bookCountConsistent (fst r)) tr
  /\ countEvents isAllPlaced tr
     = ascents (currentBookCount d)
         (map (fun r => currentBookCount (fst r)) tr)
  /\ (noReset tr ->
      countEvents isReminder tr
      = if reminderSpoken (emo d) then 0%nat
        else if existsb atMaxStage tr then 1%nat else 0%nat)
  /\ Forall (fun r => armInv (fst r) /\ phaseInv (emo (fst r))) tr.
Proof.
  intros Harm Hinv Hlen tr. subst tr.
  destruct (runLoop_allPlaced inps d Harm Hinv) as [H1 H2].
  split; [apply runLoop_bookCountConsistent; exact Hlen|].
  split; [exact H1|]. split; [|exact H2].
  intros Hq. apply runLoop_reminder; assumption.
Qed.

Lemma bootDevice_invariants (rtc wifi : bool) (t0 t1 : Z) :
  armInv (bootDevice rtc wifi t0 t1)
  /\ phaseInv (emo (bootDevice rtc wifi t0 t1)).
Proof. split; [intros _; reflexivity | phase_flags]. Qed.

Lemma one_shots_fire_once_witness :
  let d0 := bootDevice true true 0 8000 in
  let d1 := fst (loopStep (steadyInput 10000 1700000002 false false) d0) in
  let ticks := [steadyInput 310000 1700000302 false false;
                steadyInput 1810000 1700001802 false false;
                steadyInput 1810030 1700001802 false false;
                steadyInput 2110000 1700002102 false false] in
  (armInv d0 /\ phaseInv (emo d0) /\ List.length (books d0) = NUM_BOOKS
   /\ countEvents isAllPlaced (runLoop longIdleRun d0) = 1%nat)
  /\ (armInv d1 /\ phaseInv (emo d1) /\ List.length (books d1) = NUM_BOOKS
      /\ noReset (runLoop ticks d1)
      /\ countEvents isReminder (runLoop ticks d1) = 1%nat).
Proof.
  intros d0 d1 ticks.
  destruct (bootDevice_invariants true true 0 8000) as [A0 P0].
  assert (L0 : List.length (books d0) = NUM_BOOKS) by reflexivity.
  pose proof (one_shots_fire_once longIdleRun d0 A0 P0 L0) as H0.
  cbv zeta in H0. destruct H0 as (_ & H0 & _ & F0).
  assert (A1 : armInv d1) by (intros H; vm_compute in H; discriminate H).
  assert (P1 : phaseInv (emo d1)) by phase_flags.
  assert (L1 : List.length (books d1) = NUM_BOOKS) by reflexivity.
  assert (Q1 : noReset (runLoop ticks d1)) by reflexivity.
  pose proof (one_shots_fire_once ticks d1 A1 P1 L1) as H1.
  cbv zeta in H1. destruct H1 as (_ & _ & H1 & _).
  split.
  - split; [exact A0|]. split; [exact P0|]. split; [exact L0|].
    rewrite H0. reflexivity.
  - split; [exact A1|]. split; [exact P1|]. split; [exact L1|].
    split; [exact Q1|]. rewrite (H1 Q1). reflexivity.
Defined.

(** ** Snapshots *)

(** C8, as stated, fails: the document of the pull endpoint has nine fields
    and the pushed one eleven; [calmHold] and [degradeActive] are written by
    [sendWebSocketUpdate] only. *)
Lemma status_snapshot_lacks_two_fields :
  let d := bootDevice true true 0 8000 in
  let hw := mkHw 20000 1700000012 in
  let inp := mkSnap hw (fun _ => hw) (fun _ => hw) in
  field "calmHold" (wsSnapshot inp d) = Some (JBool false)
  /\ field "calmHold" (statusSnapshot inp d) = None
  /\ field "degradeActive" (wsSnapshot inp d) = Some (JBool false)
  /\ field "degradeActive" (statusSnapshot inp d) = None
  /\ fieldNames (statusSnapshot inp d) <> fieldNames (wsSnapshot inp d).
Proof. vm_compute. repeat split; try reflexivity. discriminate. Qed.

(** C8 (amended).  For every device state and the same hardware readings,
    the document of the pull endpoint is the pushed document without its
    last two fields: it has the nine fields [status] to [bootCalm], each with
    the value the pushed document gives it, and the pushed document adds
    [calmHold] and [degradeActive]. *)
Theorem status_snapshot_is_push_prefix (inp : SnapshotInput) (d : Device) :
  exists common : list (string * JValue),
    statusSnapshot inp d = JObj common
    /\ wsSnapshot inp d
       = JObj (common
               ++ [("calmHold"%string, JBool (calmHoldActive (emo d)));
                   ("degradeActive"%string, JBool (degradeActive (emo d)))])
    /\ map fst common
       = ["status"; "uptime"; "emotion"; "booksPlaced"; "time"; "books";
          "totalStudySeconds"; "degradeStage"; "bootCalm"]%string
    /\ forall name : string,
         field name (wsSnapshot inp d)
         = match field name (statusSnapshot inp d) with
           | Some v => Some v
           | None =>
               field name
                 (JObj [("calmHold"%string, JBool (calmHoldActive (emo d)));
                        ("degradeActive"%string,
                         JBool (degradeActive (emo d)))])
           end.
Proof.
  eexists. split; [reflexivity|]. split; [reflexivity|].
  split; [reflexivity|].
  intros name. unfold field, wsSnapshot, statusSnapshot. cbn [find fst snd].
  repeat (destruct (String.eqb _ name); [reflexivity|]).
  reflexivity.
Qed.

Section AssemblyAtOneEpoch.

Variables (d : Device) (reads : nat -> Hardware) (now : Z).
Hypothesis Hnow : forall i, getRTCEpoch (reads i) d = now.

(** The entries of one assembly when every clock read returns [now]. *)
Lemma bookEntries_fixed_epoch (names : list string) :
  forall (bs : list BookState) (i : nat),
    map entryTotal (bookEntries d reads i names bs)
    = map (getBookTotalSeconds now) (firstn (List.length names) bs)
    /\ map entryPresent (bookEntries d reads i names bs)
       = map present (firstn (List.length names) bs).
Proof.
  induction names as [|name names IH]; intros bs i.
  - split; reflexivity.
  - destruct bs as [|b bs]; [split; reflexivity|].
    cbn [bookEntries List.length firstn map].
    destruct (IH bs (S i)) as [IH1 IH2]. rewrite IH1, IH2, Hnow.
    split; reflexivity.
Qed.

Lemma sumTotals_fixed_epoch :
  forall (bs : list BookState) (i : nat) (acc : Z),
    u32 acc = acc ->
    sumTotals d reads i bs acc
    = u32 (acc + fold_right Z.add 0 (map (getBookTotalSeconds now) bs)).
Proof.
  induction bs as [|b bs IH]; intros i acc Hacc.
  - cbn. rewrite Z.add_0_r. symmetry. exact Hacc.
  - cbn [sumTotals map fold_right]. rewrite Hnow.
    rewrite IH.
    + rewrite u32_add_l. f_equal. lia.
    + unfold u32. apply Z.mod_mod. lia.
Qed.

End AssemblyAtOneEpoch.

Lemma bookEntries_present (d : Device) (reads : nat -> Hardware)
    (names : list string) :
  forall (bs : list BookState) (i : nat),
    List.length (filter entryPresent (bookEntries d reads i names bs))
    = List.length (filter present (firstn (List.length names) bs)).
Proof.
  induction names as [|name names IH]; intros bs i.
  - reflexivity.
  - destruct bs as [|b bs]; [reflexivity|].
    cbn [bookEntries List.length firstn filter].
    change (entryPresent (JObj _)) with (present b).
    destruct (present b); cbn [List.length]; rewrite IH; reflexivity.
Qed.

(** C9, as stated, fails when the clock source moves on between the two
    loops of one assembly: the per-book totals are computed in the first
    loop and the grand total in a second loop that reads the clock again.
    With one book down since epoch 1700000000, entries computed at
    1700000050 and the total at 1700000051, the document reports 51 over
    entries that sum to 50. *)
Lemma snapshot_total_differs_when_clock_ticks :
  let d0 := bootDevice true true 0 8000 in
  let d := fst (loopStep (mkLoop (passAt 10000 1700000000 (Nat.eqb 0))
                            (mkHw 12200 1700000002) false
                            (mkHw 12200 1700000002)) d0) in
  let inp := mkSnap (mkHw 60000 1700000050)
               (fun _ => mkHw 60000 1700000050)
               (fun _ => mkHw 60004 1700000051) in
  bookCountConsistent d
  /\ sumOfEntryTotals (wsSnapshot inp d) = 50
  /\ numField "totalStudySeconds" (wsSnapshot inp d) = Some 51
  /\ sumOfEntryTotals (statusSnapshot inp d) = 50
  /\ numField "totalStudySeconds" (statusSnapshot inp d) = Some 51.
Proof. vm_compute. repeat split; reflexivity. Qed.

(** C9 (amended).  When the clock source returns one and the same epoch to
    every read of an assembly, the snapshot's totalStudySeconds is the sum of
    the per-slot totalSeconds of the same snapshot, as a 32-bit sum; and
    when the book count agrees with the slots, as it does after every
    iteration of the loop, booksPlaced is the number of entries of the same
    snapshot with present = true.  Both hold for the pushed document and
    for the document of the pull endpoint. *)
Theorem snapshot_consistent_at_one_epoch
    (inp : SnapshotInput) (d : Device) (now : Z) :
  (forall i, getRTCEpoch (snap_entry_hw inp i) d = now) ->
  (forall i, getRTCEpoch (snap_total_hw inp i) d = now) ->
  (numField "totalStudySeconds" (wsSnapshot inp d)
   = Some (u32 (sumOfEntryTotals (wsSnapshot inp d)))
   /\ numField "totalStudySeconds" (statusSnapshot inp d)
      = Some (u32 (sumOfEntryTotals (statusSnapshot inp d))))
  /\ (bookCountConsistent d ->
      numField "booksPlaced" (wsSnapshot inp d)
      = Some (presentEntries (wsSnapshot inp d))
      /\ numField "booksPlaced" (statusSnapshot inp d)
         = Some (presentEntries (statusSnapshot inp d)))
  /\ (forall (linp : LoopInput) (d0 : Device),
         List.length (books d0) = NUM_BOOKS ->
         bookCountConsistent (fst (loopStep linp d0))).
Proof.
  intros He Ht.
  assert (Hsum : sumTotals d (snap_total_hw inp) 0
                   (firstn NUM_BOOKS (books d)) 0
                 = u32 (fold_right Z.add 0
                          (map entryTotal
                             (bookEntries d (snap_entry_hw inp) 0 BOOK_NAMES
                                (books d))))).
  { rewrite (sumTotals_fixed_epoch d _ now Ht) by reflexivity.
    destruct (bookEntries_fixed_epoch d (snap_entry_hw inp) now He BOOK_NAMES
                (books d) 0%nat) as [E _].
    rewrite E. reflexivity. }
  split; [|split].
  - split.
    + change (numField "totalStudySeconds" (wsSnapshot inp d))
        with (Some (sumTotals d (snap_total_hw inp) 0
                      (firstn NUM_BOOKS (books d)) 0)).
      rewrite Hsum. reflexivity.
    + change (numField "totalStudySeconds" (statusSnapshot inp d))
        with (Some (sumTotals d (snap_total_hw inp) 0
                      (firstn NUM_BOOKS (books d)) 0)).
      rewrite Hsum. reflexivity.
  - intros [Hlen Hcnt].
    assert (Hp : presentEntries (wsSnapshot inp d) = currentBookCount d).
    { unfold presentEntries.
      change (snapshotBooks (wsSnapshot inp d))
        with (bookEntries d (snap_entry_hw inp) 0 BOOK_NAMES (books d)).
      rewrite bookEntries_present.
      change (List.length BOOK_NAMES) with NUM_BOOKS.
      rewrite <- Hlen, firstn_all. symmetry. exact Hcnt. }
    split.
    + rewrite Hp. reflexivity.
    + change (presentEntries (statusSnapshot inp d))
        with (presentEntries (wsSnapshot inp d)).
      rewrite Hp. reflexivity.
  - exact loopStep_bookCountConsistent.
Qed.

Lemma snapshot_consistent_at_one_epoch_witness :
  let d0 := bootDevice true true 0 8000 in
  let d := fst (loopStep (mkLoop (passAt 10000 1700000000 (Nat.eqb 0))
                            (mkHw 12200 1700000002) false
                            (mkHw 12200 1700000002)) d0) in
  let hw := mkHw 60000 1700000050 in
  let inp := mkSnap hw (fun _ => hw) (fun _ => hw) in
  (forall i, getRTCEpoch (snap_entry_hw inp i) d = 1700000050)
  /\ (forall i, getRTCEpoch (snap_total_hw inp i) d = 1700000050)
  /\ bookCountConsistent d
  /\ numField "totalStudySeconds" (wsSnapshot inp d) = Some 50
  /\ sumOfEntryTotals (wsSnapshot inp d) = 50
  /\ numField "booksPlaced" (statusSnapshot inp d) = Some 1
  /\ presentEntries (statusSnapshot inp d) = 1.
Proof.
  intros d0 d hw inp.
  assert (He : forall i, getRTCEpoch (snap_entry_hw inp i) d = 1700000050)
    by (intros i; reflexivity).
  assert (Ht : forall i, getRTCEpoch (snap_total_hw inp i) d = 1700000050)
    by (intros i; reflexivity).
  assert (Hc : bookCountConsistent d) by (split; reflexivity).
  destruct (snapshot_consistent_at_one_epoch inp d 1700000050 He Ht)
    as ((T1 & _) & P & _).
  destruct (P Hc) as (_ & P2).
  split; [exact He|]. split; [exact Ht|]. split; [exact Hc|].
  split; [rewrite T1; reflexivity|]. split; [reflexivity|].
  split; [rewrite P2; reflexivity | reflexivity].
Defined.

(** ** The clock-sync endpoint *)

Lemma substring_0_app (s t : string) :
  substring 0 (String.length s) (s ++ t) = s.
Proof.
  induction s as [|c s IH]; cbn.
  - destruct t; reflexivity.
  - rewrite IH. reflexivity.
Qed.

Lemma substring_0_length (s : string) : substring 0 (String.length s) s = s.
Proof.
  induction s as [|c s IH]; cbn; [reflexivity | rewrite IH; reflexivity].
Qed.

Lemma isdigit_not_space (c : ascii) : isdigit c = true -> isspace c = false.
Proof.
  destruct c as [[] [] [] [] [] [] [] []]; cbn; intros H;
    try discriminate H; reflexivity.
Qed.

Lemma isdigit_not_brace (c : ascii) :
  isdigit c = true -> Ascii.eqb "}" c = false.
Proof.
  destruct c as [[] [] [] [] [] [] [] []]; cbn; intros H;
    try discriminate H; reflexivity.
Qed.

Lemma dropTrailingSpaces_digits (s : string) :
  allDigits s = true -> dropTrailingSpaces s = s.
Proof.
  induction s as [|c s IH]; cbn; intros H; [reflexivity|].
  apply andb_prop in H. destruct H as [Hc Hs].
  rewrite (IH Hs). destruct s; [|reflexivity].
  rewrite (isdigit_not_space c Hc). reflexivity.
Qed.

Lemma dropTrailingSpaces_brace (s : string) :
  dropTrailingSpaces (s ++ "}") = (s ++ "}")%string.
Proof.
  induction s as [|c s IH]; cbn; [reflexivity|].
  rewrite IH. destruct s; reflexivity.
Qed.

Lemma skipSpaces_digits (s t : string) :
  s <> EmptyString -> allDigits s = true ->
  skipSpaces (s ++ t) = (s ++ t)%string.
Proof.
  intros Hne H. destruct s as [|c s]; [contradiction|].
  cbn in *. apply andb_prop in H. destruct H as [Hc _].
  rewrite (isdigit_not_space c Hc). reflexivity.
Qed.

Lemma index_brace_digits (s : string) :
  allDigits s = true ->
  index 0 "}" (s ++ "}") = Some (String.length s).
Proof.
  induction s as [|c s IH]; intros H; [reflexivity|].
  cbn in H. apply andb_prop in H. destruct H as [Hc Hs].
  cbn [append index prefix String.length].
  pose proof (isdigit_not_brace c Hc) as Hb.
  destruct (ascii_dec "}" c) as [E|E].
  - subst c. discriminate Hc.
  - rewrite (IH Hs). reflexivity.
Qed.

(** [atol] on a decimal literal without sign. *)
Lemma toInt_digits (s : string) :
  s <> EmptyString -> allDigits s = true ->
  toInt s = clampLong (digitsValue 0 s).
Proof.
  intros Hne H. destruct s as [|c s]; [contradiction|].
  cbn in H. apply andb_prop in H. destruct H as [Hc _].
  unfold toInt. cbn [skipSpaces]. rewrite (isdigit_not_space c Hc).
  destruct c as [[] [] [] [] [] [] [] []]; try discriminate Hc; reflexivity.
Qed.

Lemma index_epochKey_syncBody (ds : string) :
  index 0 epochKey (syncBody ds) = Some 1%nat.
Proof. destruct ds; reflexivity. Qed.

(** The handler finds the literal of the body the dashboard sends. *)
Lemma epochText_syncBody (ds : string) :
  ds <> EmptyString -> allDigits ds = true ->
  epochText (syncBody ds) = Some ds.
Proof.
  intros Hne H. unfold epochText.
  rewrite index_epochKey_syncBody.
  assert (Hsub : substringFrom (1 + 8) (syncBody ds) = (ds ++ "}")%string).
  { unfold substringFrom, syncBody.
    change (String.length ("{" ++ epochKey ++ ds ++ "}"))
      with (9 + String.length (ds ++ "}"))%nat.
    replace (9 + String.length (ds ++ "}") - (1 + 8))%nat
      with (String.length (ds ++ "}")) by lia.
    change (substring (1 + 8) (String.length (ds ++ "}"))
              ("{" ++ epochKey ++ ds ++ "}"))
      with (substring 0 (String.length (ds ++ "}")) (ds ++ "}")).
    apply substring_0_length. }
  rewrite Hsub. unfold trim.
  rewrite (skipSpaces_digits ds "}" Hne H), dropTrailingSpaces_brace.
  rewrite (index_brace_digits ds H), substring_0_app.
  replace ds with (ds ++ "")%string at 1
    by (clear; induction ds as [|c s IH]; cbn; [|rewrite IH]; reflexivity).
  rewrite (skipSpaces_digits ds "" Hne H).
  replace (ds ++ "")%string with ds
    by (clear; induction ds as [|c s IH]; cbn; [|rewrite <- IH]; reflexivity).
  rewrite (dropTrailingSpaces_digits ds H). reflexivity.
Qed.

Lemma clampLong_in_range (z : Z) :
  -2147483648 <= z <= 2147483647 -> clampLong z = z.
Proof. intros H. unfold clampLong. lia. Qed.

Lemma toInt_bounds (s : string) : -2147483648 <= toInt s <= 2147483647.
Proof.
  assert (H : forall z, -2147483648 <= clampLong z <= 2147483647)
    by (intros z; unfold clampLong; lia).
  unfold toInt. destruct (skipSpaces s) as [|c rest]; [apply H|].
  destruct c as [[] [] [] [] [] [] [] []]; apply H.
Qed.

(** C7, as stated, fails for malformed bodies: the handler looks for the
    key anywhere in the text and reads the digits that follow, so a body
    that is no JSON object at all is accepted and sets the clock. *)
Lemma malformed_sync_body_is_accepted :
  let d := bootDevice true true 0 8000 in
  let hw := mkHw 20000 946684812 in
  let body := ("xx" ++ epochKey ++ "1700000000yy")%string in
  let r := handleSyncTime body hw d in
  rtcReady d = true
  /\ specSyncEpoch body = None
  /\ status (snd r) = 200
  /\ status (snd r) <> status invalidRequest
  /\ hw_rtc (snd (fst r)) = 1700000000
  /\ hw_rtc (snd (fst r)) <> hw_rtc hw.
Proof. vm_compute. repeat split; try reflexivity; discriminate. Qed.

(** A negative literal passes the test as well: the [long] read by [toInt]
    is stored in a [uint32_t] before it is compared. *)
Lemma negative_epoch_sets_the_clock :
  let d := bootDevice true true 0 8000 in
  let hw := mkHw 20000 946684812 in
  let r := handleSyncTime (syncBody "-1") hw d in
  toInt "-1" = -1
  /\ status (snd r) = 200
  /\ hw_rtc (snd (fst r)) = 4294967295.
Proof. vm_compute. repeat split; reflexivity. Qed.

(** C7 (amended).  For every clock-sync request the globals of the device
    are left as found and the response is one of three.  Without a clock
    source: the 500 error, clock unchanged.  With a clock source and a body
    in which the key text is found and the integer read after it exceeds
    1 000 000 000: the clock is set to that integer and the response is 200
    with success and the new time as HH:MM:SS; this is so for the body
    [{"epoch":n}] with a decimal literal n between 1 000 000 001 and
    2^31 - 1.  With a clock source and a body without the key text, or
    with an integer between 0 and 1 000 000 000 read after it: the 400
    error, whose status differs from the 500 one, clock unchanged.  Every
    response other than 200 leaves the clock unchanged. *)
Theorem sync_time_responses (body : string) (hw : Hardware) (d : Device) :
  let r := handleSyncTime body hw d in
  let hw' := snd (fst r) in
  let resp := snd r in
  fst (fst r) = d
  /\ (rtcReady d = false -> resp = rtcMissing /\ hw' = hw)
  /\ (rtcReady d = true ->
      forall txt, epochText body = Some txt ->
                  1000000000 < toInt txt ->
                  resp = synced (clockText (toInt txt))
                  /\ hw_rtc hw' = toInt txt
                  /\ hw_millis hw' = hw_millis hw)
  /\ (rtcReady d = true ->
      epochText body = None
      \/ (exists txt, epochText body = Some txt
                      /\ 0 <= toInt txt <= 1000000000) ->
      resp = invalidRequest /\ hw' = hw)
  /\ (forall ds, rtcReady d = true ->
                 body = syncBody ds ->
                 ds <> EmptyString ->
                 allDigits ds = true ->
                 1000000000 < digitsValue 0 ds <= 2147483647 ->
                 resp = synced (clockText (digitsValue 0 ds))
                 /\ hw_rtc hw' = digitsValue 0 ds)
  /\ (status resp <> 200 -> hw' = hw)
  /\ (status resp = 200 \/ status resp = 400 \/ status resp = 500)
  /\ status invalidRequest <> status rtcMissing.
Proof.
  cbv zeta.
  assert (Hok : rtcReady d = true ->
                forall txt, epochText body = Some txt ->
                            1000000000 < toInt txt ->
                            handleSyncTime body hw d
                            = (d, mkHw (hw_millis hw) (toInt txt),
                               synced (clockText (toInt txt)))).
  { intros Hr txt Ht Hbig. unfold handleSyncTime. rewrite Hr, Ht. cbn [negb].
    pose proof (toInt_bounds txt) as Hb.
    rewrite (u32_small (toInt txt)) by lia.
    apply Z.ltb_lt in Hbig. rewrite Hbig. reflexivity. }
  split; [apply handleSyncTime_device|].
  split.
  { intros Hr. unfold handleSyncTime. rewrite Hr. split; reflexivity. }
  split.
  { intros Hr txt Ht Hbig. rewrite (Hok Hr txt Ht Hbig).
    repeat split. }
  split.
  { intros Hr [Hn|(txt & Ht & Hsmall)]; unfold handleSyncTime; rewrite Hr.
    - rewrite Hn. split; reflexivity.
    - rewrite Ht. cbn [negb].
      rewrite (u32_small (toInt txt)) by lia.
      assert (E : (1000000000 <? toInt txt) = false)
        by (apply Z.ltb_ge; lia).
      rewrite E. split; reflexivity. }
  split.
  { intros ds Hr -> Hne Hds Hv.
    pose proof (epochText_syncBody ds Hne Hds) as Ht.
    pose proof (toInt_digits ds Hne Hds) as Hi.
    rewrite clampLong_in_range in Hi by lia.
    rewrite (Hok Hr ds Ht) by lia.
    rewrite Hi. split; reflexivity. }
  split.
  { unfold handleSyncTime.
    destruct (negb (rtcReady d)); [reflexivity|].
    destruct (epochText body); [|reflexivity].
    destruct (1000000000 <? _); [|reflexivity].
    intros H. exfalso. apply H. reflexivity. }
  split.
  { unfold handleSyncTime.
    destruct (negb (rtcReady d)); [auto|].
    destruct (epochText body); [|auto].
    destruct (1000000000 <? _); auto. }
  discriminate.
Qed.

Lemma sync_time_responses_witness :
  let d := bootDevice true true 0 8000 in
  let hw := mkHw 20000 946684812 in
  let r := handleSyncTime (syncBody "1700000000") hw d in
  rtcReady d = true
  /\ "1700000000"%string <> EmptyString
  /\ allDigits "1700000000" = true
  /\ 1000000000 < digitsValue 0 "1700000000" <= 2147483647
  /\ snd r = synced "22:13:20"
  /\ hw_rtc (snd (fst r)) = 1700000000
  /\ (rtcReady d = true
      /\ epochText (syncBody "999999999") = Some "999999999"%string
      /\ 0 <= toInt "999999999" <= 1000000000
      /\ snd (handleSyncTime (syncBody "999999999") hw d) = invalidRequest
      /\ snd (fst (handleSyncTime (syncBody "999999999") hw d)) = hw)
  /\ (rtcReady (bootDevice false true 0 8000) = false
      /\ snd (handleSyncTime (syncBody "1700000000") hw
                (bootDevice false true 0 8000)) = rtcMissing).
Proof.
  intros d hw r.
  assert (Hr : rtcReady d = true) by reflexivity.
  assert (Hne : "1700000000"%string <> EmptyString) by discriminate.
  assert (Hds : allDigits "1700000000" = true) by reflexivity.
  assert (Hv : 1000000000 < digitsValue 0 "1700000000" <= 2147483647)
    by (vm_compute; split; [reflexivity | discriminate]).
  pose proof (sync_time_responses (syncBody "1700000000") hw d) as H.
  cbv zeta in H. destruct H as (_ & _ & _ & _ & Hcanon & _).
  destruct (Hcanon "1700000000"%string Hr eq_refl Hne Hds Hv) as [R1 R2].
  assert (Hsmall : 0 <= toInt "999999999" <= 1000000000)
    by (vm_compute; split; discriminate).
  pose proof (sync_time_responses (syncBody "999999999") hw d) as H.
  cbv zeta in H. destruct H as (_ & _ & _ & Hbad & _).
  destruct (Hbad Hr (or_intror (ex_intro _ "999999999"%string
                                  (conj eq_refl Hsmall)))) as [B1 B2].
  pose proof (sync_time_responses (syncBody "1700000000") hw
                (bootDevice false true 0 8000)) as H.
  cbv zeta in H. destruct H as (_ & Hno & _).
  destruct (Hno eq_refl) as [N1 _].
  split; [exact Hr|]. split; [exact Hne|]. split; [exact Hds|].
  split; [exact Hv|]. split; [exact R1|]. split; [exact R2|].
  split.
  - split; [exact Hr|]. split; [reflexivity|]. split; [exact Hsmall|].
    split; [exact B1 | exact B2].
  - split; [reflexivity | exact N1].
Defined.

(** * Further properties of the sketch and of the dashboard *)

(** ** Decimal text *)

Lemma digitChar_code (n : Z) :
  nat_of_ascii (digitChar n) = (48 + Z.to_nat (n mod 10))%nat.
Proof.
  unfold digitChar. apply nat_ascii_embedding.
  pose proof (Z.mod_pos_bound n 10 ltac:(lia)). lia.
Qed.

Lemma digitChar_isdigit (n : Z) : isdigit (digitChar n) = true.
Proof.
  unfold isdigit. rewrite digitChar_code.
  pose proof (Z.mod_pos_bound n 10 ltac:(lia)).
  apply andb_true_intro. split; apply Nat.leb_le; lia.
Qed.

Lemma digitChar_value (n : Z) :
  Z.of_nat (nat_of_ascii (digitChar n)) - 48 = n mod 10.
Proof.
  rewrite digitChar_code.
  pose proof (Z.mod_pos_bound n 10 ltac:(lia)). lia.
Qed.

Lemma string_length_app (s t : string) :
  String.length (s ++ t) = (String.length s + String.length t)%nat.
Proof. induction s as [|c s IH]; cbn; [reflexivity | rewrite IH; reflexivity]. Qed.

Section DecimalDigits.

Variable fuel : nat.

(** Reading the digits back gives the number, whatever follows them. *)
Lemma decimalDigits_value :
  forall (n : Z) (acc : string),
    0 <= n < 10 ^ Z.of_nat fuel ->
    digitsValue 0 (decimalDigits fuel n acc) = digitsValue n acc.
Proof.
  induction fuel as [|f IH]; intros n acc Hn.
  - cbn in *. replace n with 0 by lia. reflexivity.
  - cbn [decimalDigits].
    assert (Hstep : digitsValue 0 (String (digitChar n) acc)
                    = digitsValue (n mod 10) acc).
    { cbn [digitsValue]. rewrite digitChar_isdigit, digitChar_value.
      f_equal. }
    destruct (n <? 10) eqn:E.
    + apply Z.ltb_lt in E. rewrite Hstep. rewrite Z.mod_small by lia.
      reflexivity.
    + apply Z.ltb_ge in E.
      rewrite IH.
      * cbn [digitsValue]. rewrite digitChar_isdigit, digitChar_value.
        f_equal. pose proof (Z.div_mod n 10 ltac:(lia)). lia.
      * rewrite Nat2Z.inj_succ, Z.pow_succ_r in Hn by lia.
        split; [apply Z.div_pos; lia|].
        apply Z.div_lt_upper_bound; lia.
Qed.

Lemma decimalDigits_allDigits :
  forall (n : Z) (acc : string),
    allDigits acc = true -> allDigits (decimalDigits fuel n acc) = true.
Proof.
  induction fuel as [|f IH]; intros n acc Hacc; [exact Hacc|].
  cbn [decimalDigits].
  assert (H1 : allDigits (String (digitChar n) acc) = true).
  { cbn [allDigits]. rewrite digitChar_isdigit. exact Hacc. }
  destruct (n <? 10); [exact H1 | apply IH; exact H1].
Qed.

Lemma decimalDigits_nonempty :
  forall (n : Z) (acc : string),
    (fuel <> 0%nat \/ acc <> EmptyString) ->
    decimalDigits fuel n acc <> EmptyString.
Proof.
  induction fuel as [|f IH]; intros n acc H.
  - destruct H as [H|H]; [contradiction | exact H].
  - cbn [decimalDigits]. destruct (n <? 10); [discriminate|].
    apply IH. right. discriminate.
Qed.

(** A number below [10 ^ k] has at most [k] digits. *)
Lemma decimalDigits_length :
  forall (n k : Z) (acc : string),
    0 <= n < 10 ^ k -> 1 <= k <= Z.of_nat fuel ->
    Z.of_nat (String.length (decimalDigits fuel n acc))
    <= k + Z.of_nat (String.length acc).
Proof.
  induction fuel as [|f IH]; intros n k acc Hn Hk; [lia|].
  cbn [decimalDigits].
  destruct (n <? 10) eqn:E.
  - cbn [String.length]. lia.
  - apply Z.ltb_ge in E.
    assert (Hk2 : 2 <= k).
    { destruct (Z.eq_dec k 1) as [->|]; [|lia]. cbn in Hn. lia. }
    specialize (IH (n / 10) (k - 1) (String (digitChar n) acc)).
    cbn [String.length] in IH.
    rewrite Nat2Z.inj_succ in *.
    assert (Hpow : 10 ^ k = 10 * 10 ^ (k - 1)).
    { rewrite <- Z.pow_succ_r by lia. f_equal. lia. }
    assert (Hd : 0 <= n / 10 < 10 ^ (k - 1)).
    { split; [apply Z.div_pos; lia|].
      apply Z.div_lt_upper_bound; lia. }
    specialize (IH Hd). lia.
Qed.

End DecimalDigits.

(** The decimal text of a number is a non-empty run of digits that reads
    back as the number. *)
Lemma decimalText_digits (n : Z) :
  0 <= n < 10 ^ 20 ->
  allDigits (decimalText n) = true
  /\ decimalText n <> EmptyString
  /\ digitsValue 0 (decimalText n) = n.
Proof.
  intros Hn. unfold decimalText.
  split; [apply decimalDigits_allDigits; reflexivity|].
  split; [apply decimalDigits_nonempty; left; discriminate|].
  rewrite decimalDigits_value by exact Hn. reflexivity.
Qed.

Lemma decimalText_length (n k : Z) :
  0 <= n < 10 ^ k -> 1 <= k <= 20 ->
  Z.of_nat (String.length (decimalText n)) <= k.
Proof.
  intros Hn Hk. unfold decimalText.
  pose proof (decimalDigits_length 20 n k EmptyString Hn ltac:(lia)) as H.
  cbn [String.length] in H. lia.
Qed.

(** ** Durations as text *)

Lemma minutes_of_the_hour (n : Z) :
  0 <= n -> (n mod 3600) / 60 = (n / 60) mod 60.
Proof.
  intros Hn.
  change 3600 with (60 * 60).
  rewrite Z.rem_mul_r by lia.
  rewrite Z.mul_comm, Z.div_add by lia.
  rewrite Z.div_small by (apply Z.mod_pos_bound; lia). lia.
Qed.

Lemma hours_of_the_seconds (n : Z) : 0 <= n -> n / 3600 = n / 60 / 60.
Proof. intros Hn. rewrite Z.div_div by lia. reflexivity. Qed.

(** X1.  [formatDuration] never overruns its [char buf[20]]: for every
    [uint32_t] number of seconds the text has at most twelve characters. *)
Theorem formatDuration_fits_buffer (totalSeconds : Z) :
  0 <= totalSeconds < 4294967296 ->
  (String.length (formatDuration totalSeconds) <= 12)%nat.
Proof.
  intros Hn. unfold formatDuration.
  assert (Hh : 0 <= totalSeconds / 3600 < 10 ^ 7).
  { split; [apply Z.div_pos; lia|]. apply Z.div_lt_upper_bound; lia. }
  assert (Hm : 0 <= (totalSeconds mod 3600) / 60 < 10 ^ 2).
  { pose proof (Z.mod_pos_bound totalSeconds 3600 ltac:(lia)).
    split; [apply Z.div_pos; lia|]. apply Z.div_lt_upper_bound; lia. }
  assert (Hs : 0 <= totalSeconds mod 60 < 10 ^ 2).
  { pose proof (Z.mod_pos_bound totalSeconds 60 ltac:(lia)). lia. }
  pose proof (decimalText_length _ 7 Hh ltac:(lia)) as Lh.
  pose proof (decimalText_length _ 2 Hm ltac:(lia)) as Lm.
  pose proof (decimalText_length _ 2 Hs ltac:(lia)) as Ls.
  destruct (0 <? totalSeconds / 3600);
    [|destruct (0 <? totalSeconds mod 3600 / 60)];
    rewrite ?string_length_app; cbn [String.length]; lia.
Qed.

Lemma formatDuration_fits_buffer_witness :
  0 <= 4294967295 < 4294967296
  /\ formatDuration 4294967295 = "1193046h 28m"%string
  /\ (String.length (formatDuration 4294967295) <= 12)%nat.
Proof.
  assert (H : 0 <= 4294967295 < 4294967296) by lia.
  split; [exact H|]. split; [reflexivity|].
  exact (formatDuration_fits_buffer 4294967295 H).
Defined.

(** X2.  The dashboard prints a duration exactly as the device does: on
    every non-negative integer number of seconds, [formatTime] of the
    charts (and its copy in [App]) gives the text of the sketch's
    [formatDuration], although one divides twice and the other takes the
    remainder of the hour. *)
Theorem formatTime_agrees_with_formatDuration (seconds : Z) :
  0 <= seconds ->
  formatTime seconds = formatDuration seconds.
Proof.
  intros Hn. unfold formatTime, formatDuration.
  rewrite (minutes_of_the_hour seconds Hn), (hours_of_the_seconds seconds Hn).
  destruct (seconds <? 60) eqn:E1.
  - apply Z.ltb_lt in E1.
    rewrite (Z.div_small seconds 60) by lia.
    rewrite (Z.mod_small seconds 60) by lia. reflexivity.
  - apply Z.ltb_ge in E1.
    assert (Hm : 1 <= seconds / 60)
      by (apply Z.div_le_lower_bound; lia).
    destruct (seconds / 60 <? 60) eqn:E2.
    + apply Z.ltb_lt in E2.
      rewrite (Z.div_small (seconds / 60) 60) by lia.
      rewrite (Z.mod_small (seconds / 60) 60) by lia.
      cbn [Z.ltb Z.compare].
      assert (E3 : (0 <? seconds / 60) = true) by (apply Z.ltb_lt; lia).
      rewrite E3. reflexivity.
    + apply Z.ltb_ge in E2.
      assert (Hh : 1 <= seconds / 60 / 60)
        by (apply Z.div_le_lower_bound; lia).
      assert (E3 : (0 <? seconds / 60 / 60) = true) by (apply Z.ltb_lt; lia).
      rewrite E3. reflexivity.
Qed.

Lemma formatTime_agrees_with_formatDuration_witness :
  0 <= 3725
  /\ formatTime 3725 = "1h 2m"%string
  /\ formatTime 3725 = formatDuration 3725.
Proof.
  assert (H : 0 <= 3725) by lia.
  split; [exact H|]. split; [reflexivity|].
  exact (formatTime_agrees_with_formatDuration 3725 H).
Defined.

(** ** The clock sync as the dashboard sends it *)

(** X3.  The request body the dashboard's [syncTime] builds for an epoch
    [e] of at most 2^31 - 1, the object with the key and the decimal text
    of [e], is read back exactly by the handler: with an RTC, beyond
    1 000 000 000 the clock is set to [e] itself and the response carries
    its time of day; from 0 to 1 000 000 000 the request is refused and the
    clock kept. *)
Theorem dashboard_sync_round_trip (e : Z) (hw : Hardware) (d : Device) :
  rtcReady d = true ->
  0 <= e <= 2147483647 ->
  toInt (decimalText e) = e
  /\ handleSyncTime (syncBody (decimalText e)) hw d
     = (if 1000000000 <? e
        then (d, mkHw (hw_millis hw) e, synced (clockText e))
        else (d, hw, invalidRequest)).
Proof.
  intros Hr He.
  destruct (decimalText_digits e) as (Hd & Hne & Hv); [lia|].
  assert (Hi : toInt (decimalText e) = e).
  { rewrite (toInt_digits _ Hne Hd), Hv. apply clampLong_in_range. lia. }
  split; [exact Hi|].
  unfold handleSyncTime. rewrite Hr. cbn [negb].
  rewrite (epochText_syncBody _ Hne Hd), Hi.
  rewrite (u32_small e) by lia.
  destruct (1000000000 <? e); reflexivity.
Qed.

Lemma dashboard_sync_round_trip_witness :
  let d := bootDevice true true 0 8000 in
  let hw := mkHw 20000 946684812 in
  rtcReady d = true
  /\ 0 <= 1762000000 <= 2147483647
  /\ decimalText 1762000000 = "1762000000"%string
  /\ snd (fst (handleSyncTime (syncBody (decimalText 1762000000)) hw d))
     = mkHw 20000 1762000000.
Proof.
  intros d hw.
  assert (Hr : rtcReady d = true) by reflexivity.
  assert (He : 0 <= 1762000000 <= 2147483647) by lia.
  destruct (dashboard_sync_round_trip 1762000000 hw d Hr He) as [_ H].
  split; [exact Hr|]. split; [exact He|]. split; [reflexivity|].
  rewrite H. reflexivity.
Defined.

(** X4.  From 2^31 on the epoch does not survive the request: [toInt]
    saturates at the largest [long], so the body the dashboard builds for
    any such epoch sets the clock to 2147483647 (19 January 2038,
    03:14:07), whatever the epoch was. *)
Theorem dashboard_sync_saturates (e : Z) (hw : Hardware) (d : Device) :
  rtcReady d = true ->
  2147483648 <= e < 10 ^ 20 ->
  handleSyncTime (syncBody (decimalText e)) hw d
  = (d, mkHw (hw_millis hw) 2147483647, synced "03:14:07").
Proof.
  intros Hr He.
  destruct (decimalText_digits e) as (Hd & Hne & Hv); [lia|].
  assert (Hi : toInt (decimalText e) = 2147483647).
  { rewrite (toInt_digits _ Hne Hd), Hv. unfold clampLong. lia. }
  unfold handleSyncTime. rewrite Hr. cbn [negb].
  rewrite (epochText_syncBody _ Hne Hd), Hi. reflexivity.
Qed.

Lemma dashboard_sync_saturates_witness :
  let d := bootDevice true true 0 8000 in
  let hw := mkHw 20000 946684812 in
  rtcReady d = true
  /\ 2147483648 <= 4102444800 < 10 ^ 20
  /\ hw_rtc (snd (fst (handleSyncTime (syncBody (decimalText 4102444800))
                         hw d)))
     = 2147483647.
Proof.
  intros d hw.
  assert (Hr : rtcReady d = true) by reflexivity.
  assert (He : 2147483648 <= 4102444800 < 10 ^ 20) by lia.
  pose proof (dashboard_sync_saturates 4102444800 hw d Hr He) as H.
  split; [exact Hr|]. split; [exact He|].
  rewrite H. reflexivity.
Defined.

(** [atol] reads 0 where no number begins. *)
Lemma toInt_without_number (txt : string) :
  match skipSpaces txt with
  | EmptyString => True
  | String c _ =>
      isdigit c = false /\ c <> "-"%char /\ c <> "+"%char
  end ->
  toInt txt = 0.
Proof.
  unfold toInt. destruct (skipSpaces txt) as [|c rest]; [reflexivity|].
  intros (Hd & Hm & Hp).
  assert (Hv : digitsValue 0 (String c rest) = 0)
    by (cbn [digitsValue]; rewrite Hd; reflexivity).
  destruct c as [[] [] [] [] [] [] [] []];
    try (exfalso; apply Hm; reflexivity);
    try (exfalso; apply Hp; reflexivity);
    rewrite Hv; reflexivity.
Qed.

(** X5.  A sync request is refused, and the clock kept, whenever the key is
    missing from the body (as in an empty body) or what follows it does
    not begin with a number: white space aside, the first character is
    neither a digit nor a sign.  A quoted epoch is such a case. *)
Theorem sync_refuses_missing_number (body : string) (hw : Hardware) (d : Device) :
  rtcReady d = true ->
  match epochText body with
  | None => True
  | Some txt =>
      match skipSpaces txt with
      | EmptyString => True
      | String c _ =>
          isdigit c = false /\ c <> "-"%char /\ c <> "+"%char
      end
  end ->
  handleSyncTime body hw d = (d, hw, invalidRequest).
Proof.
  intros Hr H. unfold handleSyncTime. rewrite Hr. cbn [negb].
  destruct (epochText body) as [txt|]; [|reflexivity].
  rewrite (toInt_without_number txt H). reflexivity.
Qed.

Lemma sync_refuses_missing_number_witness :
  let d := bootDevice true true 0 8000 in
  let hw := mkHw 20000 946684812 in
  let quoted := syncBody (dquote ++ "1762000000" ++ dquote) in
  rtcReady d = true
  /\ epochText quoted = Some (dquote ++ "1762000000" ++ dquote)%string
  /\ handleSyncTime quoted hw d = (d, hw, invalidRequest)
  /\ epochText EmptyString = None
  /\ handleSyncTime EmptyString hw d = (d, hw, invalidRequest).
Proof.
  intros d hw quoted.
  assert (Hr : rtcReady d = true) by reflexivity.
  split; [exact Hr|]. split; [reflexivity|].
  split.
  - apply sync_refuses_missing_number; [exact Hr|].
    cbn. repeat split; discriminate.
  - split; [reflexivity|].
    apply sync_refuses_missing_number; [exact Hr | exact I].
Defined.

(** ** Chart sampling *)

Section FilterIndexed.

Context {A : Type}.

Lemma filterIndexed_app (p : nat -> bool) (l r : list A) :
  forall i : nat,
    filterIndexed p i (l ++ r)
    = filterIndexed p i l ++ filterIndexed p (i + List.length l) r.
Proof.
  induction l as [|x l IH]; intros i; cbn [filterIndexed app List.length].
  - rewrite Nat.add_0_r. reflexivity.
  - rewrite IH. replace (S i + List.length l)%nat
      with (i + S (List.length l))%nat by lia.
    destruct (p i); reflexivity.
Qed.

Lemma filterIndexed_Subseq (p : nat -> bool) (l : list A) :
  forall i : nat, Subseq (filterIndexed p i l) l.
Proof.
  induction l as [|x l IH]; intros i; cbn [filterIndexed].
  - constructor.
  - destruct (p i); constructor; apply IH.
Qed.

Lemma filterIndexed_or (p q : nat -> bool) (l : list A) :
  forall i : nat,
    (List.length (filterIndexed (fun k => p k || q k) i l)
     <= List.length (filterIndexed p i l)
        + List.length (filterIndexed q i l))%nat.
Proof.
  induction l as [|x l IH]; intros i; cbn [filterIndexed]; [lia|].
  specialize (IH (S i)).
  destruct (p i), (q i); cbn [orb List.length]; lia.
Qed.

Lemma filterIndexed_one (k : nat) (l : list A) :
  forall i : nat,
    (List.length (filterIndexed (fun j => j =? k)%nat i l) <= 1)%nat
    /\ ((k < i)%nat -> filterIndexed (fun j => j =? k)%nat i l = []).
Proof.
  induction l as [|x l IH]; intros i; cbn [filterIndexed].
  - split; [cbn; lia | reflexivity].
  - destruct (IH (S i)) as [IH1 IH2].
    destruct (i =? k)%nat eqn:E.
    + apply Nat.eqb_eq in E. subst i.
      rewrite IH2 by lia. split; [cbn; lia | lia].
    + apply Nat.eqb_neq in E. split; [exact IH1|].
      intros Hlt. apply IH2. lia.
Qed.

(** The multiples of [step] among the first [n] indices: [c] of them reach
    over [n] and the last one lies below [n]. *)
Lemma filterIndexed_multiples (step : nat) (l : list A) :
  (1 <= step)%nat ->
  let c := List.length (filterIndexed (fun i => i mod step =? 0)%nat 0 l) in
  (List.length l <= c * step < List.length l + step)%nat.
Proof.
  intros Hs. induction l as [|x l IH] using rev_ind; [cbn; lia|].
  cbv zeta in *. rewrite filterIndexed_app, !length_app.
  cbn [filterIndexed List.length Nat.add].
  set (n := List.length l) in *.
  set (c := List.length (filterIndexed (fun i => (i mod step =? 0)%nat) 0 l))
    in *.
  pose proof (Nat.div_mod_eq n step) as Hdm.
  pose proof (Nat.mod_upper_bound n step ltac:(lia)) as Hub.
  clearbody n c.
  destruct (n mod step =? 0)%nat eqn:E.
  - apply Nat.eqb_eq in E. cbn [List.length].
    rewrite E, Nat.add_0_r in Hdm.
    remember (n / step)%nat as k eqn:Hk. clear Hk Hub E.
    assert (Hck : c = k).
    { apply Nat.le_antisymm.
      - apply Nat.lt_succ_r. apply (Nat.mul_lt_mono_pos_r step); lia.
      - apply (Nat.mul_le_mono_pos_r _ _ step); lia. }
    subst c. lia.
  - apply Nat.eqb_neq in E. cbn [List.length].
    assert (Hne : n <> (c * step)%nat).
    { intros Heq. apply E. rewrite Heq. apply Nat.Div0.mod_mul. }
    lia.
Qed.

End FilterIndexed.

Lemma ceilDiv_covers (n m : nat) :
  (1 <= m)%nat -> (n <= ceilDiv n m * m)%nat.
Proof.
  intros Hm. unfold ceilDiv.
  pose proof (Nat.div_mod_eq (n + m - 1) m) as H.
  pose proof (Nat.mod_upper_bound (n + m - 1) m ltac:(lia)) as Hub.
  nia.
Qed.

(** X6.  [sampleData] with a positive [maxPoints] returns [data] itself
    when it is short enough, and otherwise an order-preserving selection of
    at most [maxPoints + 1] points, one more than its parameter says,
    which begins with the first point of [data] and ends with its last. *)
Theorem sampleData_selection {A : Type} (data : list A) (maxPoints : nat) :
  (1 <= maxPoints)%nat ->
  (List.length (sampleData data maxPoints) <= maxPoints + 1)%nat
  /\ Subseq (sampleData data maxPoints) data
  /\ hd_error (sampleData data maxPoints) = hd_error data
  /\ (forall dflt, last (sampleData data maxPoints) dflt = last data dflt)
  /\ ((List.length data <= maxPoints)%nat ->
      sampleData data maxPoints = data).
Proof.
  intros Hm. unfold sampleData.
  destruct (List.length data <=? maxPoints)%nat eqn:E.
  - apply Nat.leb_le in E.
    assert (Hrefl : Subseq data data)
      by (clear; induction data; constructor; assumption).
    repeat split; try reflexivity; [lia | exact Hrefl].
  - apply Nat.leb_gt in E.
    set (n := List.length data) in *.
    set (step := ceilDiv n maxPoints).
    pose proof (ceilDiv_covers n maxPoints Hm) as Hcov. fold step in Hcov.
    assert (Hstep : (1 <= step)%nat) by nia.
    split; [|split; [|split; [|split]]].
    + pose proof (filterIndexed_or (fun i => (i mod step =? 0)%nat)
                    (fun i => (i =? n - 1)%nat) data 0%nat) as Hor.
      pose proof (filterIndexed_multiples step data Hstep) as Hmul.
      cbv zeta in Hmul. fold n in Hmul.
      destruct (filterIndexed_one (n - 1) data 0%nat) as [Hone _].
      assert (Hc : (List.length
                      (filterIndexed (fun i => (i mod step =? 0)%nat) 0 data)
                    <= maxPoints)%nat) by nia.
      lia.
    + apply filterIndexed_Subseq.
    + destruct data as [|x rest]; [reflexivity|].
      cbn [filterIndexed]. rewrite Nat.Div0.mod_0_l. reflexivity.
    + intros dflt.
      destruct (exists_last (l := data)) as (front & x & Heq).
      { intros Hnil. subst data. cbn in E. lia. }
      subst n. rewrite Heq, filterIndexed_app, length_app.
      cbn [List.length filterIndexed Nat.add].
      replace (List.length front + 1 - 1)%nat with (List.length front) by lia.
      rewrite Nat.eqb_refl, orb_true_r, !last_last. reflexivity.
    + intros Hle. lia.
Qed.

Lemma sampleData_selection_witness :
  (1 <= 50)%nat
  /\ List.length (sampleData (seq 0 100) 50) = 51%nat
  /\ (List.length (sampleData (seq 0 100) 50) <= 50 + 1)%nat
  /\ hd_error (sampleData (seq 0 100) 50) = Some 0%nat
  /\ last (sampleData (seq 0 100) 50) 0%nat = 99%nat.
Proof.
  assert (H : (1 <= 50)%nat) by lia.
  destruct (sampleData_selection (seq 0 100) 50 H) as (B & _ & Hh & Hl & _).
  split; [exact H|]. split; [reflexivity|]. split; [exact B|].
  split; [rewrite Hh; reflexivity | rewrite Hl; reflexivity].
Defined.

(** ** The timeline of the dashboard *)

Section Timeline.

Context {A : Type}.

Lemma lastN_short (k : nat) (l : list A) :
  (List.length l <= k)%nat -> lastN k l = l.
Proof.
  intros H. unfold lastN.
  replace (List.length l - k)%nat with 0%nat by lia. reflexivity.
Qed.

Lemma lastN_length (k : nat) (l : list A) :
  List.length (lastN k l) = Nat.min k (List.length l).
Proof. unfold lastN. rewrite length_skipn. lia. Qed.

(** Cutting first and cutting after more has arrived is cutting once. *)
Lemma lastN_lastN_app (k : nat) (l r : list A) :
  lastN k (lastN k l ++ r) = lastN k (l ++ r).
Proof.
  destruct (Nat.le_gt_cases (List.length l) k) as [Hle|Hgt].
  - rewrite (lastN_short k l Hle). reflexivity.
  - unfold lastN at 1 3. rewrite !length_app, lastN_length.
    replace (Nat.min k (List.length l)) with k by lia.
    unfold lastN.
    set (j := (List.length l - k)%nat).
    replace (k + List.length r - k)%nat with (List.length r) by lia.
    replace (List.length l + List.length r - k)%nat
      with (j + List.length r)%nat by lia.
    replace (l ++ r) with (firstn j l ++ (skipn j l ++ r))
      by (rewrite app_assoc, firstn_skipn; reflexivity).
    assert (Hj : List.length (firstn j l) = j)
      by (rewrite length_firstn; lia).
    rewrite (skipn_app (j + List.length r)), Hj.
    rewrite (skipn_all2 (firstn j l)) by lia.
    replace (j + List.length r - j)%nat with (List.length r) by lia.
    reflexivity.
Qed.

Lemma addTimelineEntry_lastN (entry : A) (prev : list A) :
  addTimelineEntry entry prev = lastN 200 (prev ++ [entry]).
Proof.
  unfold addTimelineEntry.
  destruct (200 <? List.length (prev ++ [entry]))%nat eqn:E; [reflexivity|].
  apply Nat.ltb_ge in E. symmetry. apply lastN_short. exact E.
Qed.

(** X7.  Whatever snapshots arrive, the timeline is the last 200 entries in
    the order of arrival: feeding the entries [es] one by one to
    [addTimelineEntry], from a timeline [prev] of at most 200 entries,
    gives the last 200 of [prev] followed by [es]; it never holds more
    than 200 entries. *)
Theorem timeline_keeps_last_200 (es prev : list A) :
  (List.length prev <= 200)%nat ->
  let timeline := fold_left (fun tl e => addTimelineEntry e tl) es prev in
  timeline = lastN 200 (prev ++ es)
  /\ (List.length timeline <= 200)%nat.
Proof.
  intros Hlen. pose proof (lastN_short 200 prev Hlen) as Hprev.
  clear Hlen. cbv zeta.
  assert (H : fold_left (fun tl e => addTimelineEntry e tl) es prev
              = lastN 200 (prev ++ es)).
  { revert prev Hprev. induction es as [|e es IH]; intros prev Hprev.
    - cbn. rewrite app_nil_r. symmetry. exact Hprev.
    - cbn [fold_left]. rewrite addTimelineEntry_lastN.
      rewrite IH.
      + rewrite lastN_lastN_app, <- app_assoc. reflexivity.
      + rewrite <- (app_nil_r (lastN 200 (prev ++ [e]))) at 1.
        rewrite lastN_lastN_app, app_nil_r. reflexivity. }
  split; [exact H|]. rewrite H, lastN_length. lia.
Qed.

End Timeline.

Lemma timeline_keeps_last_200_witness :
  let timeline :=
    fold_left (fun tl e => addTimelineEntry e tl) (seq 0 450) [] in
  (List.length (@nil nat) <= 200)%nat
  /\ timeline = seq 250 200
  /\ (List.length timeline <= 200)%nat.
Proof.
  intros timeline.
  assert (H0 : (List.length (@nil nat) <= 200)%nat) by (cbn; lia).
  destruct (timeline_keeps_last_200 (seq 0 450) [] H0) as [H1 H2].
  split; [exact H0|]. split; [|exact H2].
  subst timeline. rewrite H1. reflexivity.
Defined.

(** ** The animated face *)

(** One step of at most [s] towards the target shortens the distance by
    [s], down to zero, and never passes the target. *)
Lemma constrain_step (x t s : Z) :
  0 < s ->
  let x' := x + constrain (t - x) (- s) s in
  Z.abs (t - x') = Z.max 0 (Z.abs (t - x) - s)
  /\ (x' = x <-> x = t).
Proof.
  intros Hs. cbv zeta. unfold constrain.
  destruct (t - x <? - s) eqn:E1; [apply Z.ltb_lt in E1; lia|].
  apply Z.ltb_ge in E1.
  destruct (s <? t - x) eqn:E2; [apply Z.ltb_lt in E2; lia|].
  apply Z.ltb_ge in E2. lia.
Qed.

Lemma animateFace_due (hw : Hardware) (f : Face) :
  50 <= u32 (hw_millis hw - lastFrame f) ->
  let f' := fst (fst (animateFace hw f)) in
  eyeOpen f' = eyeOpen f + constrain (t_eyeOpen f - eyeOpen f) (-2) 2
  /\ pupilOffset f'
     = pupilOffset f + constrain (t_pupilOffset f - pupilOffset f) (-1) 1
  /\ mouthCurve f'
     = mouthCurve f + constrain (t_mouthCurve f - mouthCurve f) (-1) 1
  /\ eyesClosed f' = t_eyesClosed f
  /\ t_eyeOpen f' = t_eyeOpen f
  /\ t_pupilOffset f' = t_pupilOffset f
  /\ t_mouthCurve f' = t_mouthCurve f
  /\ t_eyesClosed f' = t_eyesClosed f
  /\ lastEmotion f' = lastEmotion f
  /\ lastFrame f' = hw_millis hw.
Proof.
  intros Hdue. cbv zeta. unfold animateFace.
  apply Z.ltb_ge in Hdue. rewrite Hdue. cbn. repeat split.
Qed.

(** The distance to the targets after a run of unthrottled frames. *)
Lemma faceFrames_approach (hws : list Hardware) :
  forall f : Face,
    framesDue hws f ->
    let f' := faceFrames hws f in
    let n := Z.of_nat (List.length hws) in
    Z.abs (t_eyeOpen f - eyeOpen f')
    = Z.max 0 (Z.abs (t_eyeOpen f - eyeOpen f) - 2 * n)
    /\ Z.abs (t_pupilOffset f - pupilOffset f')
       = Z.max 0 (Z.abs (t_pupilOffset f - pupilOffset f) - n)
    /\ Z.abs (t_mouthCurve f - mouthCurve f')
       = Z.max 0 (Z.abs (t_mouthCurve f - mouthCurve f) - n)
    /\ t_eyeOpen f' = t_eyeOpen f
    /\ t_pupilOffset f' = t_pupilOffset f
    /\ t_mouthCurve f' = t_mouthCurve f
    /\ t_eyesClosed f' = t_eyesClosed f
    /\ lastEmotion f' = lastEmotion f
    /\ (hws <> [] -> eyesClosed f' = t_eyesClosed f).
Proof.
  induction hws as [|hw rest IH]; intros f Hdue.
  - cbn. repeat split; try lia. intros H. contradiction.
  - cbn [framesDue] in Hdue. destruct Hdue as [Hnow Hrest].
    pose proof (animateFace_due hw f Hnow) as Hstep. cbv zeta in Hstep.
    specialize (IH _ Hrest). cbv zeta in IH.
    unfold faceFrames in *. cbn [fold_left List.length].
    rewrite Nat2Z.inj_succ.
    remember (fst (fst (animateFace hw f))) as f1 eqn:Hf1. clear Hf1 Hrest.
    remember (fold_left (fun acc hw0 => fst (fst (animateFace hw0 acc)))
                rest f1) as f2 eqn:Hf2.
    destruct Hstep as (He & Hp & Hm & Hc & Te & Tp & Tm & Tc & Le & _).
    destruct IH as (I1 & I2 & I3 & I4 & I5 & I6 & I7 & I8 & I9).
    destruct (constrain_step (eyeOpen f) (t_eyeOpen f) 2 ltac:(lia)) as [S1 _].
    destruct (constrain_step (pupilOffset f) (t_pupilOffset f) 1 ltac:(lia))
      as [S2 _].
    destruct (constrain_step (mouthCurve f) (t_mouthCurve f) 1 ltac:(lia))
      as [S3 _].
    cbv zeta in S1, S2, S3.
    change (- (2)) with (-2) in S1. change (- (1)) with (-1) in S2, S3.
    rewrite <- He in S1. rewrite <- Hp in S2. rewrite <- Hm in S3.
    rewrite Te in I1. rewrite Tp in I2. rewrite Tm in I3.
    split; [clear - I1 S1; lia|].
    split; [clear - I2 S2; lia|].
    split; [clear - I3 S3; lia|].
    split; [congruence|]. split; [congruence|]. split; [congruence|].
    split; [congruence|]. split; [congruence|].
    intros _. destruct rest as [|hw2 rest2].
    + cbn in Hf2. subst f2. exact Hc.
    + rewrite I9 by discriminate. exact Tc.
Qed.

(** X8.  Frames that are not throttled move the face towards its targets
    at a fixed pace and never past them: after [n] such frames the eye
    opening is [max(0, d - 2n)] away from its target, where [d] was the
    distance before, the pupil offset and the mouth curve [max(0, d - n)];
    the targets themselves are not touched, and from the first frame on the
    eyes are closed exactly when the target says so. *)
Theorem face_approaches_targets (hws : list Hardware) :
  forall f : Face,
    framesDue hws f ->
    let f' := faceFrames hws f in
    let n := Z.of_nat (List.length hws) in
    Z.abs (t_eyeOpen f - eyeOpen f')
    = Z.max 0 (Z.abs (t_eyeOpen f - eyeOpen f) - 2 * n)
    /\ Z.abs (t_pupilOffset f - pupilOffset f')
       = Z.max 0 (Z.abs (t_pupilOffset f - pupilOffset f) - n)
    /\ Z.abs (t_mouthCurve f - mouthCurve f')
       = Z.max 0 (Z.abs (t_mouthCurve f - mouthCurve f) - n)
    /\ t_eyeOpen f' = t_eyeOpen f
    /\ t_pupilOffset f' = t_pupilOffset f
    /\ t_mouthCurve f' = t_mouthCurve f
    /\ t_eyesClosed f' = t_eyesClosed f
    /\ lastEmotion f' = lastEmotion f
    /\ (hws <> [] -> eyesClosed f' = t_eyesClosed f).
Proof. exact (faceFrames_approach hws). Qed.

Lemma face_approaches_targets_witness :
  let f := setEmotionTargets EMOTION_VERY_SAD
             (mkFace 0 0 14 true 0 0 14 true 0 EMOTION_PROUD) in
  let hws := [mkHw 50 0; mkHw 100 0; mkHw 150 0] in
  framesDue hws f
  /\ eyeOpen (faceFrames hws f) = 6
  /\ Z.abs (t_eyeOpen f - eyeOpen (faceFrames hws f)) = 28
  /\ mouthCurve (faceFrames hws f) = 11.
Proof.
  intros f hws.
  assert (Hdue : framesDue hws f)
    by (vm_compute; repeat split; discriminate).
  destruct (face_approaches_targets hws f Hdue) as (H1 & _).
  split; [exact Hdue|]. split; [reflexivity|].
  split; [rewrite H1; reflexivity | reflexivity].
Defined.

Lemma setEmotionTargets_fields (m : Emotion) (f : Face) :
  let f0 := setEmotionTargets m f in
  eyeOpen f0 = eyeOpen f
  /\ pupilOffset f0 = pupilOffset f
  /\ mouthCurve f0 = mouthCurve f
  /\ eyesClosed f0 = eyesClosed f
  /\ lastFrame f0 = lastFrame f
  /\ lastEmotion f0 = lastEmotion f
  /\ (t_eyeOpen f0, t_pupilOffset f0, t_mouthCurve f0, t_eyesClosed f0)
     = emotionTargets m.
Proof. destruct m; cbn; repeat split. Qed.

(** Every target lies on the screen's scale. *)
Lemma emotionTargets_bounds (m : Emotion) :
  let '(e, p, c, _) := emotionTargets m in
  0 <= e <= 34 /\ 0 <= p <= 8 /\ -10 <= c <= 16.
Proof. destruct m; cbn; lia. Qed.

(** X9.  A change between any two emotions settles within 26 frames: from
    a face settled on [m1], once the targets of [m2] are set, 26 or more
    unthrottled frames leave the face settled on [m2], and any later frame
    redraws neither the eyes nor the mouth. *)
Theorem emotion_change_settles (m1 m2 : Emotion) (hws : list Hardware)
    (f : Face) (hw : Hardware) :
  settledOn m1 f ->
  (26 <= List.length hws)%nat ->
  framesDue hws (setEmotionTargets m2 f) ->
  let f' := faceFrames hws (setEmotionTargets m2 f) in
  settledOn m2 f'
  /\ snd (fst (animateFace hw f')) = false
  /\ snd (animateFace hw f') = false.
Proof.
  intros Hset Hlen Hdue. cbv zeta.
  pose proof (faceFrames_approach hws _ Hdue) as H. cbv zeta in H.
  destruct H as (H1 & H2 & H3 & T1 & T2 & T3 & T4 & _ & H9).
  assert (Hne : hws <> []) by (intros ->; cbn in Hlen; lia).
  specialize (H9 Hne).
  assert (Hn : 26 <= Z.of_nat (List.length hws)) by lia.
  remember (faceFrames hws (setEmotionTargets m2 f)) as f' eqn:Hf'.
  clear Hf' Hdue Hne Hlen.
  pose proof (setEmotionTargets_fields m2 f) as F. cbv zeta in F.
  destruct F as (F1 & F2 & F3 & _ & _ & _ & F7).
  rewrite F1 in H1. rewrite F2 in H2. rewrite F3 in H3.
  pose proof (emotionTargets_bounds m1) as B1.
  pose proof (emotionTargets_bounds m2) as B2.
  unfold settledOn in *.
  destruct (emotionTargets m1) as [[[e1 p1] c1] k1].
  destruct (emotionTargets m2) as [[[e2 p2] c2] k2].
  injection F7 as G1 G2 G3 G4.
  rewrite G1 in *. rewrite G2 in *. rewrite G3 in *. rewrite G4 in *.
  destruct Hset as (E1 & E2 & E3 & _).
  rewrite E1 in H1. rewrite E2 in H2. rewrite E3 in H3.
  assert (S1 : eyeOpen f' = e2) by (clear - H1 B1 B2 Hn; lia).
  assert (S2 : pupilOffset f' = p2) by (clear - H2 B1 B2 Hn; lia).
  assert (S3 : mouthCurve f' = c2) by (clear - H3 B1 B2 Hn; lia).
  split; [repeat split; assumption|].
  unfold animateFace.
  destruct (u32 (hw_millis hw - lastFrame f') <? 50); [split; reflexivity|].
  cbn [fst snd]. rewrite T1, T2, T3, T4, S1, S2, S3, H9, !Z.sub_diag.
  unfold constrain. cbn [Z.ltb Z.compare].
  rewrite !Z.add_0_r, !Z.eqb_refl, Bool.eqb_reflx.
  split; reflexivity.
Qed.

Lemma emotion_change_settles_witness :
  let f := mkFace 0 0 14 true 0 0 14 true 0 EMOTION_PROUD in
  let hws := map (fun k => mkHw (50 * Z.of_nat k) 0) (seq 1 26) in
  settledOn EMOTION_PROUD f
  /\ (26 <= List.length hws)%nat
  /\ framesDue hws (setEmotionTargets EMOTION_VERY_SAD f)
  /\ settledOn EMOTION_VERY_SAD
       (faceFrames hws (setEmotionTargets EMOTION_VERY_SAD f)).
Proof.
  intros f hws.
  assert (H1 : settledOn EMOTION_PROUD f) by (cbn; repeat split).
  assert (H2 : (26 <= List.length hws)%nat) by (cbn; lia).
  assert (H3 : framesDue hws (setEmotionTargets EMOTION_VERY_SAD f))
    by (vm_compute; repeat split; discriminate).
  destruct (emotion_change_settles EMOTION_PROUD EMOTION_VERY_SAD hws f
              (mkHw 5000 0) H1 H2 H3) as (H4 & _).
  split; [exact H1|]. split; [exact H2|]. split; [exact H3|exact H4].
Defined.

(** ** Sound and mood *)

Lemma emotionCode_injective (m1 m2 : Emotion) :
  emotionCode m1 = emotionCode m2 -> m1 = m2.
Proof. destruct m1, m2; cbn; intros H; try reflexivity; discriminate H. Qed.

(** X10.  A sound is started at most once per change of emotion: the
    handler of the loop plays only when the emotion differs from the one
    last rendered, only one of the three tracks for Happy, Proud and Sad and
    only with the player ready, and having run once it does nothing at all
    when run again with the same emotion. *)
Theorem emotion_sound_once_per_change
    (dfPlayerReady : bool) (current : Emotion) (f : Face) :
  let r := onEmotionChange dfPlayerReady current f in
  lastEmotion (fst r) = current
  /\ onEmotionChange dfPlayerReady current (fst r) = (fst r, None)
  /\ (current = lastEmotion f -> r = (f, None))
  /\ (forall track, snd r = Some track ->
        dfPlayerReady = true
        /\ current <> lastEmotion f
        /\ ((current = EMOTION_HAPPY /\ track = 31)
            \/ (current = EMOTION_PROUD /\ track = 32)
            \/ (current = EMOTION_SAD /\ track = 33))).
Proof.
  cbv zeta. unfold onEmotionChange.
  destruct (emotionCode current =? emotionCode (lastEmotion f)) eqn:E.
  - apply Z.eqb_eq, emotionCode_injective in E. subst current.
    cbn [negb fst snd]. rewrite Z.eqb_refl. cbn [negb].
    split; [reflexivity|]. split; [reflexivity|]. split; [reflexivity|].
    intros track H. discriminate H.
  - cbn [negb fst snd lastEmotion]. rewrite Z.eqb_refl. cbn [negb].
    split; [reflexivity|]. split; [reflexivity|].
    split.
    + intros ->. rewrite Z.eqb_refl in E. discriminate E.
    + intros track H. unfold emotionAudio in H.
      destruct dfPlayerReady; [|discriminate H].
      split; [reflexivity|]. split.
      * intros ->. rewrite Z.eqb_refl in E. discriminate E.
      * destruct current; try discriminate H; injection H as <-; auto.
Qed.

Lemma emotion_sound_once_per_change_witness :
  let f := mkFace 28 0 5 false 28 0 5 false 0 EMOTION_CALM in
  let r := onEmotionChange true EMOTION_HAPPY f in
  snd r = Some 31
  /\ EMOTION_HAPPY <> lastEmotion f
  /\ onEmotionChange true EMOTION_HAPPY (fst r) = (fst r, None).
Proof.
  intros f r.
  destruct (emotion_sound_once_per_change true EMOTION_HAPPY f)
    as (_ & H2 & _ & H4).
  assert (Hs : snd r = Some 31) by reflexivity.
  destruct (H4 31 Hs) as (_ & Hne & _).
  split; [exact Hs|]. split; [exact Hne | exact H2].
Defined.

Lemma degradeEmotion_cases (stage : Z) (cur : Emotion) :
  degradeEmotion stage cur = cur
  \/ degradeEmotion stage cur = EMOTION_CALM
  \/ degradeEmotion stage cur = EMOTION_NEUTRAL
  \/ degradeEmotion stage cur = EMOTION_SAD
  \/ degradeEmotion stage cur = EMOTION_VERY_SAD
  \/ degradeEmotion stage cur = EMOTION_REMINDER.
Proof.
  unfold degradeEmotion.
  destruct stage as [|p|p]; auto.
  destruct p as [[[?|?|]|[?|?|]|]|[[?|?|]|[?|?|]|]|]; auto 10.
Qed.

Lemma countEmotion_cases (count : Z) (cur : Emotion) :
  countEmotion count cur = cur
  \/ countEmotion count cur = EMOTION_NEUTRAL
  \/ countEmotion count cur = EMOTION_CALM
  \/ countEmotion count cur = EMOTION_HAPPY
  \/ countEmotion count cur = EMOTION_PROUD.
Proof.
  unfold countEmotion.
  destruct count as [|p|p]; auto.
  destruct p as [[[?|?|]|[?|?|]|]|[[?|?|]|[?|?|]|]|]; auto 10.
Qed.

Lemma calculateEmotionVars_never_very_proud (t c : Z) (e : EmotionVars) :
  currentEmotion e <> EMOTION_VERY_PROUD ->
  currentEmotion (fst (calculateEmotionVars t c e)) <> EMOTION_VERY_PROUD.
Proof.
  intros H.
  unfold calculateEmotionVars, holdOrLater, degradeOrNormal.
  repeat match goal with
         | |- context [if ?b then _ else _] => destruct b; cbn
         end;
    try discriminate; try exact H;
    match goal with
    | |- degradeEmotion ?s ?cur <> _ =>
        destruct (degradeEmotion_cases s cur) as [->|[->|[->|[->|[->| ->]]]]]
    | |- countEmotion ?s ?cur <> _ =>
        destruct (countEmotion_cases s cur) as [->|[->|[->|[->| ->]]]]
    end; try discriminate; exact H.
Qed.

Lemma loopStep_never_very_proud (inp : LoopInput) (d : Device) :
  currentEmotion (emo d) <> EMOTION_VERY_PROUD ->
  currentEmotion (emo (fst (loopStep inp d))) <> EMOTION_VERY_PROUD.
Proof.
  intros H. unfold loopStep.
  destruct (updateBookStates (in_update inp) d) as [d1 ev1] eqn:E1.
  assert (H1 : currentEmotion (emo d1) <> EMOTION_VERY_PROUD).
  { destruct (scanBooks (hw_millis (upd_hw (in_update inp)))
                (upd_pins (in_update inp)) 0 (books d) d 0)
      as [[[bs d0] n] evs0] eqn:Hs.
    destruct (updateBookStates_unfold _ d bs d0 n evs0 Hs)
      as (_ & _ & _ & _ & _ & _ & _ & Hemo & _).
    rewrite E1 in Hemo. cbn [fst] in Hemo. rewrite Hemo.
    destruct (scanBooks_device _ _ _ _ _ _ _ _ _ _ Hs) as [_ Hd].
    match goal with
    | |- context [if ?b then _ else _] => destruct b
    end; [discriminate|].
    destruct Hd as [[_ ->]|[_ ->]]; exact H. }
  destruct (handleTouchSensor (in_touch_hw inp) (in_touch inp) d1)
    as [d2 ev2] eqn:E2.
  assert (H2 : currentEmotion (emo d2) <> EMOTION_VERY_PROUD).
  { replace d2 with (fst (handleTouchSensor (in_touch_hw inp) (in_touch inp) d1))
      by (rewrite E2; reflexivity).
    unfold handleTouchSensor.
    repeat match goal with
           | |- context [if ?b then _ else _] => destruct b; cbn
           end; exact H1. }
  destruct (calculateEmotion (in_calc_hw inp) d2) as [d3 ev3] eqn:E3.
  destruct (calculateEmotion_events (in_calc_hw inp) d2) as (_ & _ & C3 & _).
  rewrite E3 in C3. cbn [fst] in *. rewrite C3.
  apply calculateEmotionVars_never_very_proud. exact H2.
Qed.

(** X11.  The sketch never shows Very Proud: no iteration of the loop
    assigns it, so it is absent from every run that starts without it, as
    the run from boot does. *)
Theorem very_proud_never_shown (inps : list LoopInput) (d : Device) :
  currentEmotion (emo d) <> EMOTION_VERY_PROUD ->
  Forall (fun r => currentEmotion (emo (fst r)) <> EMOTION_VERY_PROUD)
    (runLoop inps d).
Proof.
  revert d. induction inps as [|inp rest IH]; intros d H; cbn [runLoop].
  - constructor.
  - pose proof (loopStep_never_very_proud inp d H) as H1.
    constructor; [exact H1 | apply IH; exact H1].
Qed.

Lemma very_proud_never_shown_witness :
  let d := bootDevice true true 0 8000 in
  currentEmotion (emo d) <> EMOTION_VERY_PROUD
  /\ Forall (fun r => currentEmotion (emo (fst r)) <> EMOTION_VERY_PROUD)
       (runLoop longIdleRun d).
Proof.
  intros d.
  assert (H : currentEmotion (emo d) <> EMOTION_VERY_PROUD) by discriminate.
  split; [exact H | exact (very_proud_never_shown longIdleRun d H)].
Defined.

(** With no phase left active, the tick has taken the mood from the book
    count. *)
Lemma calculateEmotionVars_idle (t c : Z) (e : EmotionVars) :
  let e' := fst (calculateEmotionVars t c e) in
  inBootCalmPeriod e' = false ->
  calmHoldActive e' = false ->
  degradeActive e' = false ->
  currentEmotion e' = countEmotion c (currentEmotion e).
Proof.
  cbv zeta.
  unfold calculateEmotionVars, holdOrLater, degradeOrNormal.
  destruct (inBootCalmPeriod e) eqn:Eb;
    [destruct (_ <? BOOT_CALM_TIME)|]; cbn;
    destruct (calmHoldActive e) eqn:Eh;
    try destruct (_ <? CALM_HOLD_TIME); cbn;
    try destruct (degradeActive e) eqn:Ed; cbn;
    intros H1 H2 H3; try congruence; reflexivity.
Qed.

(** X12.  Whenever an iteration of the loop ends with no phase active
    (boot calm over, no calm hold, no degrading), the mood shown is the
    one of the number of books present: Neutral for none, Calm for one or
    two, Happy for three or four, Proud for five. *)
Theorem idle_mood_follows_book_count (inp : LoopInput) (d : Device) :
  List.length (books d) = NUM_BOOKS ->
  let d' := fst (loopStep inp d) in
  inBootCalmPeriod (emo d') = false ->
  calmHoldActive (emo d') = false ->
  degradeActive (emo d') = false ->
  currentEmotion (emo d')
  = match List.length (filter present (books d')) with
    | 0%nat => EMOTION_NEUTRAL
    | 1%nat | 2%nat => EMOTION_CALM
    | 3%nat | 4%nat => EMOTION_HAPPY
    | _ => EMOTION_PROUD
    end.
Proof.
  intros Hlen. cbv zeta.
  pose proof (loopStep_bookCountConsistent inp d Hlen) as [Hl Hc].
  revert Hl Hc. unfold loopStep.
  destruct (updateBookStates (in_update inp) d) as [d1 ev1].
  pose proof (handleTouchSensor_books (in_touch_hw inp) (in_touch inp) d1)
    as (_ & T2 & _).
  destruct (handleTouchSensor _ _ d1) as [d2 ev2].
  destruct (calculateEmotion_events (in_calc_hw inp) d2) as (_ & _ & C3 & _).
  destruct (calculateEmotion_books (in_calc_hw inp) d2) as (_ & C2 & _).
  destruct (calculateEmotion _ d2) as [d3 ev3].
  cbn [fst] in *. intros Hl Hc H1 H2 H3.
  rewrite C3 in H1, H2, H3 |- *.
  rewrite (calculateEmotionVars_idle _ _ _ H1 H2 H3).
  rewrite <- C2, Hc.
  assert (Hle : (List.length (filter present (books d3)) <= 5)%nat).
  { pose proof (filter_length_le present (books d3)) as Hf.
    rewrite Hl in Hf. exact Hf. }
  destruct (List.length (filter present (books d3)))
    as [|[|[|[|[|[|n]]]]]]; try reflexivity; lia.
Qed.

Lemma idle_mood_follows_book_count_witness :
  let d := bootDevice true true 0 8000 in
  let inp := mkLoop (passAt 10000 1700000002 (fun i => (i <? 3)%nat))
               (mkHw 16000 1700000008) false (mkHw 16000 1700000008) in
  List.length (books d) = NUM_BOOKS
  /\ inBootCalmPeriod (emo (fst (loopStep inp d))) = false
  /\ calmHoldActive (emo (fst (loopStep inp d))) = false
  /\ degradeActive (emo (fst (loopStep inp d))) = false
  /\ List.length (filter present (books (fst (loopStep inp d)))) = 3%nat
  /\ currentEmotion (emo (fst (loopStep inp d))) = EMOTION_HAPPY.
Proof.
  intros d inp.
  assert (H0 : List.length (books d) = NUM_BOOKS) by reflexivity.
  assert (H1 : inBootCalmPeriod (emo (fst (loopStep inp d))) = false)
    by reflexivity.
  assert (H2 : calmHoldActive (emo (fst (loopStep inp d))) = false)
    by reflexivity.
  assert (H3 : degradeActive (emo (fst (loopStep inp d))) = false)
    by reflexivity.
  pose proof (idle_mood_follows_book_count inp d H0 H1 H2 H3) as H.
  split; [exact H0|]. split; [exact H1|]. split; [exact H2|].
  split; [exact H3|]. split; [reflexivity|].
  rewrite H. reflexivity.
Defined.

(** X13.  The degrade clock starts at the tick that notices the end of the
    calm hold, not at the end itself.  With the boot period over and the
    hold running, a tick at [t1], at or after [CALM_HOLD_TIME], starts the
    degrade phase at stage 0 with Calm and [degradeStartTime = t1]; a
    later tick at [t2], less than 256 intervals after [t1], shows stage
    [min(5, (t2 - t1) / 300000)] with the mood of that stage, and fires the
    reminder exactly if that stage is 5. *)
Theorem degrade_runs_from_the_noticing_tick (t1 t2 c : Z) (e : EmotionVars) :
  inBootCalmPeriod e = false ->
  calmHoldActive e = true ->
  reminderSpoken e = false ->
  CALM_HOLD_TIME <= u32 (t1 - calmHoldStartTime e) ->
  u32 (t2 - t1) < 76800000 ->
  let r1 := calculateEmotionVars t1 c e in
  let r2 := calculateEmotionVars t2 c (fst r1) in
  let stage := specStage (u32 (t2 - t1)) in
  (calmHoldActive (fst r1) = false
   /\ degradeActive (fst r1) = true
   /\ degradeStartTime (fst r1) = t1
   /\ currentDegradeStage (fst r1) = 0
   /\ currentEmotion (fst r1) = EMOTION_CALM
   /\ snd r1 = [])
  /\ (degradeActive (fst r2) = true
      /\ degradeStartTime (fst r2) = t1
      /\ currentDegradeStage (fst r2) = stage
      /\ 0 <= stage <= 5
      /\ currentEmotion (fst r2)
         = degradeEmotion stage EMOTION_CALM
      /\ snd r2 = (if stage =? 5 then [ReminderEvent] else [])).
Proof.
  intros Hb Hh Hr Hexp Hlt. cbv zeta.
  assert (E1 : calculateEmotionVars t1 c e
               = (mkEmo EMOTION_CALM (bootCompleteTime e) false false
                    (calmHoldStartTime e) true t1 0 false, [])).
  { unfold calculateEmotionVars, holdOrLater. rewrite Hb, Hh.
    apply Z.ltb_ge in Hexp. rewrite Hexp.
    unfold degradeOrNormal. cbn [degradeActive degradeStartTime].
    rewrite Z.sub_diag. change (u32 0) with 0.
    change (degradeStageOf 0) with 0. cbn. rewrite ?Hb, ?Hr. reflexivity. }
  rewrite E1. cbn [fst snd].
  split; [repeat split|].
  pose proof (u32_range (t2 - t1)) as Hrange.
  pose proof (degradeStageOf_below_wrap (u32 (t2 - t1)) ltac:(lia)) as Hst.
  pose proof (degradeStageOf_bounds (u32 (t2 - t1))) as Hbd.
  rewrite Hst in Hbd.
  unfold calculateEmotionVars, holdOrLater, degradeOrNormal.
  cbn [inBootCalmPeriod calmHoldActive degradeActive degradeStartTime
       reminderSpoken currentEmotion fst snd].
  rewrite Hst.
  set (stage := specStage (u32 (t2 - t1))) in *.
  cbn [fst snd degradeActive degradeStartTime currentDegradeStage
       currentEmotion negb].
  rewrite andb_true_r.
  split; [reflexivity|]. split; [reflexivity|]. split; [reflexivity|].
  split; [exact Hbd|]. split; reflexivity.
Qed.

Lemma degrade_runs_from_the_noticing_tick_witness :
  let e := mkEmo EMOTION_CALM 8000 false true 10000 false 0 0 false in
  let r1 := calculateEmotionVars 312400 5 e in
  let r2 := calculateEmotionVars 1212400 5 (fst r1) in
  inBootCalmPeriod e = false
  /\ calmHoldActive e = true
  /\ reminderSpoken e = false
  /\ CALM_HOLD_TIME <= u32 (312400 - calmHoldStartTime e)
  /\ u32 (1212400 - 312400) < 76800000
  /\ degradeStartTime (fst r1) = 312400
  /\ currentDegradeStage (fst r2) = 3
  /\ currentEmotion (fst r2) = EMOTION_SAD.
Proof.
  intros e r1 r2.
  assert (H1 : inBootCalmPeriod e = false) by reflexivity.
  assert (H2 : calmHoldActive e = true) by reflexivity.
  assert (H3 : reminderSpoken e = false) by reflexivity.
  assert (H4 : CALM_HOLD_TIME <= u32 (312400 - calmHoldStartTime e))
    by (vm_compute; discriminate).
  assert (H5 : u32 (1212400 - 312400) < 76800000) by reflexivity.
  pose proof (degrade_runs_from_the_noticing_tick 312400 1212400 5 e
                H1 H2 H3 H4 H5) as H.
  cbv zeta in H. destruct H as ((_ & _ & A & _) & (_ & _ & B & _ & C & _)).
  split; [exact H1|]. split; [exact H2|]. split; [exact H3|].
  split; [exact H4|]. split; [exact H5|]. split; [exact A|].
  subst r2 r1.
  split; [rewrite B; reflexivity | rewrite C; reflexivity].
Defined.

(** ** A touch from press to release *)

Lemma handleTouchSensor_rising (hw : Hardware) (d : Device) :
  touchPressed d = false ->
  handleTouchSensor hw true d = (set_touch true (hw_millis hw) d, []).
Proof. intros H. unfold handleTouchSensor. rewrite H. reflexivity. Qed.

Lemma handleTouchSensor_held (hw : Hardware) (d : Device) :
  touchPressed d = true -> handleTouchSensor hw true d = (d, []).
Proof. intros H. unfold handleTouchSensor. rewrite H. reflexivity. Qed.

Lemma pollTouch_held (holds : list Hardware) (rest : list (Hardware * bool)) :
  forall d : Device,
    touchPressed d = true ->
    pollTouch (map (fun h => (h, true)) holds ++ rest) d = pollTouch rest d.
Proof.
  induction holds as [|h holds IH]; intros d Hp; [reflexivity|].
  cbn [map app pollTouch]. rewrite (handleTouchSensor_held h d Hp).
  rewrite (IH d Hp). destruct (pollTouch rest d). reflexivity.
Qed.

(** X14.  A touch is classified once, at its release, by the time since
    its first reading alone.  From a released sensor, a HIGH reading at
    [hw0], any number of further HIGH readings and then a LOW reading at
    [hw1] emit nothing before the release, and at the release the detailed
    statistics for a duration of 2000 ms or more, the quick status above
    50 ms, and nothing otherwise; the polls in between neither restart
    the press nor emit anything, however long the finger rests. *)
Theorem touch_is_classified_at_release
    (hw0 hw1 : Hardware) (holds : list Hardware) (d : Device) :
  touchPressed d = false ->
  let pressed := (hw0, true) :: map (fun h => (h, true)) holds in
  let dur := u32 (hw_millis hw1 - hw_millis hw0) in
  pollTouch pressed d = (set_touch true (hw_millis hw0) d, [])
  /\ snd (pollTouch (pressed ++ [(hw1, false)]) d)
     = (if LONG_PRESS_TIME <=? dur then [DetailedStatsIntent]
        else if 50 <? dur then [QuickStatusIntent] else [])
  /\ touchPressed (fst (pollTouch (pressed ++ [(hw1, false)]) d)) = false.
Proof.
  intros Hp. cbv zeta.
  set (d1 := set_touch true (hw_millis hw0) d).
  assert (Hp1 : touchPressed d1 = true) by reflexivity.
  split.
  - cbn [pollTouch]. rewrite (handleTouchSensor_rising hw0 d Hp). fold d1.
    pose proof (pollTouch_held holds [] d1 Hp1) as H.
    rewrite app_nil_r in H. rewrite H. reflexivity.
  - cbn [app pollTouch]. rewrite (handleTouchSensor_rising hw0 d Hp). fold d1.
    rewrite (pollTouch_held holds [(hw1, false)] d1 Hp1).
    cbn [pollTouch]. unfold handleTouchSensor.
    cbn [andb negb]. rewrite Hp1.
    change (touchStartTime d1) with (hw_millis hw0).
    destruct (LONG_PRESS_TIME <=? _); [split; reflexivity|].
    destruct (50 <? _); [|split; reflexivity].
    cbn [emo set_lastInteractionTime].
    destruct (degradeActive (emo d1) || calmHoldActive (emo d1));
      split; reflexivity.
Qed.

Lemma touch_is_classified_at_release_witness :
  let d := bootDevice true true 0 8000 in
  let holds := [mkHw 18030 0; mkHw 19000 0; mkHw 20900 0] in
  let polls := ((mkHw 18000 0, true) :: map (fun h => (h, true)) holds)
               ++ [(mkHw 21000 0, false)] in
  touchPressed d = false
  /\ snd (pollTouch polls d) = [DetailedStatsIntent]
  /\ touchPressed (fst (pollTouch polls d)) = false.
Proof.
  intros d holds polls.
  assert (Hp : touchPressed d = false) by reflexivity.
  destruct (touch_is_classified_at_release (mkHw 18000 0) (mkHw 21000 0)
              holds d Hp) as (_ & H2 & H3).
  split; [exact Hp|]. split; [|exact H3].
  subst polls. rewrite H2. reflexivity.
Defined.

(** ** Slots between passes *)

Lemma sampleSlot_slotWf (now : Z) (smp : SlotSample) (b : BookState) :
  slotWf b -> slotWf (fst (sampleSlot now smp b)).
Proof.
  intros (Hp & Ht & Hl & Hc).
  destruct (sampleSlot_cases now smp b) as [[H1 H2]|[[H1 H2]|H]].
  - rewrite sampleSlot_placed by assumption.
    unfold slotWf. cbn.
    split; [reflexivity|]. split; [reflexivity|].
    split; [intros Habs; discriminate Habs | exact Hc].
  - rewrite sampleSlot_removed by assumption.
    assert (Hr : 0 <= cumulativeSeconds (removeBook now b) < 4294967296).
    { unfold removeBook.
      cbn [cumulativeSeconds].
      destruct (tracking b && (0 <? lastPlacedEpoch b));
        [destruct (lastPlacedEpoch b <? now)|];
        try exact Hc. apply u32_range. }
    unfold slotWf.
    cbn [present wasPresent tracking lastPlacedEpoch cumulativeSeconds fst].
    split; [reflexivity|]. split; [reflexivity|].
    split; [intros _; reflexivity | exact Hr].
  - rewrite sampleSlot_unchanged by assumption.
    unfold slotWf. cbn.
    split; [reflexivity|]. split; [exact Ht|].
    split; [exact Hl | exact Hc].
Qed.

Lemma scanBooks_Forall (P : BookState -> Prop) (t : Z)
    (pins : nat -> SlotSample) (bs : list BookState) :
  (forall now smp b, P b -> P (fst (sampleSlot now smp b))) ->
  forall (i0 : nat) (d : Device) (n : Z) bs' d' n' evs,
    scanBooks t pins i0 bs d n = (bs', d', n', evs) ->
    Forall P bs -> Forall P bs'.
Proof.
  intros HP. induction bs as [|b0 rest IH]; intros i0 d n bs' d' n' evs Hs Hall.
  - cbn in Hs. injection Hs as <- _ _ _. constructor.
  - cbn [scanBooks] in Hs.
    destruct (sampleSlot _ (pins i0) b0) as [b0' changed] eqn:E0.
    destruct (scanBooks t pins (S i0) rest _ _) as [[[r1 d1] n1] e1] eqn:E1.
    injection Hs as <- <- <- <-.
    inversion Hall as [|? ? Hb Hrest]; subst.
    constructor.
    + replace b0' with (fst (sampleSlot
                               (getRTCEpoch (slot_hw (pins i0)) d) (pins i0) b0))
        by (rewrite E0; reflexivity).
      apply HP. exact Hb.
    + eapply IH; [exact E1 | exact Hrest].
Qed.

Lemma loopStep_slotWf (inp : LoopInput) (d : Device) :
  Forall slotWf (books d) -> Forall slotWf (books (fst (loopStep inp d))).
Proof.
  intros Hall. unfold loopStep.
  assert (U : Forall slotWf (books (fst (updateBookStates (in_update inp) d)))).
  { destruct (scanBooks (hw_millis (upd_hw (in_update inp)))
                (upd_pins (in_update inp)) 0 (books d) d 0)
      as [[[bs d0] n] evs0] eqn:Hs.
    destruct (updateBookStates_unfold _ d bs d0 n evs0 Hs) as (Hb & _).
    rewrite Hb.
    exact (scanBooks_Forall slotWf _ _ _ sampleSlot_slotWf
             _ _ _ _ _ _ _ Hs Hall). }
  destruct (updateBookStates (in_update inp) d) as [d1 ev1].
  pose proof (handleTouchSensor_books (in_touch_hw inp) (in_touch inp) d1)
    as (T1 & _).
  destruct (handleTouchSensor _ _ d1) as [d2 ev2].
  pose proof (calculateEmotion_books (in_calc_hw inp) d2) as (C1 & _).
  destruct (calculateEmotion _ d2) as [d3 ev3].
  cbn [fst] in *. rewrite C1, T1. exact U.
Qed.

(** X15.  A slot is tracked exactly while its book is present.  After
    every iteration of every run, each slot has [present], [wasPresent]
    and [tracking] equal, [lastPlacedEpoch] 0 unless it is tracking, and
    [cumulativeSeconds] within 32 bits, provided the run starts so, as it
    does from boot. *)
Theorem slots_stay_well_formed (inps : list LoopInput) (d : Device) :
  Forall slotWf (books d) ->
  Forall (fun r => Forall slotWf (books (fst r))) (runLoop inps d).
Proof.
  revert d. induction inps as [|inp rest IH]; intros d H; cbn [runLoop].
  - constructor.
  - pose proof (loopStep_slotWf inp d H) as H1.
    constructor; [exact H1 | apply IH; exact H1].
Qed.

Lemma bootDevice_slotWf (rtc wifi : bool) (t0 t1 : Z) :
  Forall slotWf (books (bootDevice rtc wifi t0 t1)).
Proof.
  cbn. repeat constructor; cbn; lia.
Qed.

Lemma slots_stay_well_formed_witness :
  let d := bootDevice true true 0 8000 in
  Forall slotWf (books d)
  /\ Forall (fun r => Forall slotWf (books (fst r))) (runLoop longIdleRun d).
Proof.
  intros d.
  pose proof (bootDevice_slotWf true true 0 8000) as H.
  split; [exact H | exact (slots_stay_well_formed longIdleRun d H)].
Defined.

(** ** A pass that confirms no change *)

Lemma debounced_unconfirmed (smp : SlotSample) (b : BookState) :
  negb (pin_first smp) = present b \/ negb (pin_second smp) = present b ->
  debounced smp b = present b.
Proof.
  unfold debounced. intros [H|H].
  - rewrite H, Bool.eqb_reflx. reflexivity.
  - destruct (Bool.eqb (negb (pin_first smp)) (present b)) eqn:E.
    + apply Bool.eqb_prop. exact E.
    + exact H.
Qed.

Lemma sampleSlot_steady (now : Z) (smp : SlotSample) (b : BookState) :
  slotWf b -> debounced smp b = present b -> sampleSlot now smp b = (b, false).
Proof.
  intros (Hp & _) Hd. rewrite Hp in Hd.
  rewrite (sampleSlot_unchanged now smp b Hd).
  destruct b as [p w l c t]. cbn in *. subst p. reflexivity.
Qed.




(** ** A stay of a book, from placement to removal *)

Lemma sampleRun_app (s1 s2 : list (Z * SlotSample)) :
  forall b, sampleRun (s1 ++ s2) b = sampleRun s2 (sampleRun s1 b).
Proof.
  induction s1 as [|[t smp] rest IH]; intros b; [reflexivity|].
  cbn [app sampleRun]. apply IH.
Qed.

Lemma debounced_stays (smp : SlotSample) (b : BookState) :
  present b = true ->
  pin_first smp = false \/ pin_second smp = false ->
  debounced smp b = true.
Proof.
  intros Hp H. rewrite <- Hp. apply debounced_unconfirmed.
  rewrite Hp. destruct H as [H|H]; rewrite H; auto.
Qed.

Lemma sampleRun_stay (mid : list (Z * SlotSample)) (b : BookState) :
  slotWf b ->
  present b = true ->
  Forall (fun st => pin_first (snd st) = false \/ pin_second (snd st) = false)
    mid ->
  sampleRun mid b = b.
Proof.
  intros Hwf Hp. induction mid as [|[t smp] rest IH]; intros Hall;
    [reflexivity|].
  inversion Hall as [|? ? H0 Hrest]; subst. cbn [sampleRun].
  rewrite (sampleSlot_steady t smp b Hwf).
  - cbn [fst]. apply IH. exact Hrest.
  - rewrite Hp. apply debounced_stays; assumption.
Qed.

(** X17.  A stay is worth the seconds between the pass that confirmed the
    placement and the pass that confirmed the removal, whatever the passes
    in between read.  A book placed in an empty slot at epoch [p > 0]
    (both reads LOW), seen present or glitching at any number of passes,
    and removed at epoch [r] (both reads HIGH) leaves the slot empty and
    untracked with [r - p] seconds added modulo 2^32, or with nothing
    added when the clock did not advance ([r <= p]). *)
Theorem stay_is_placement_to_removal
    (p r : Z) (s0 s1 : SlotSample) (mid : list (Z * SlotSample))
    (b : BookState) :
  slotWf b ->
  present b = false ->
  0 < p ->
  pin_first s0 = false -> pin_second s0 = false ->
  Forall (fun st => pin_first (snd st) = false \/ pin_second (snd st) = false)
    mid ->
  pin_first s1 = true -> pin_second s1 = true ->
  sampleRun ((p, s0) :: mid ++ [(r, s1)]) b
  = mkBook false false 0
      (if p <? r then u32 (cumulativeSeconds b + (r - p))
       else cumulativeSeconds b)
      false.
Proof.
  intros Hwf Hp Hpos F0 S0 Hmid F1 S1.
  pose proof Hwf as (Hpw & Htw & Hl & Hc).
  assert (Hw : wasPresent b = false) by congruence.
  assert (D0 : debounced s0 b = true).
  { unfold debounced. rewrite F0, S0, Hp. reflexivity. }
  cbn [sampleRun]. rewrite (sampleSlot_placed p s0 b Hw D0). cbn [fst].
  set (b1 := mkBook true true p (cumulativeSeconds b) true).
  assert (Hwf1 : slotWf b1).
  { unfold slotWf, b1. cbn. repeat split; try lia; try discriminate. }
  rewrite sampleRun_app.
  rewrite (sampleRun_stay mid b1 Hwf1 eq_refl Hmid).
  cbn [sampleRun].
  assert (D1 : debounced s1 b1 = false).
  { unfold debounced. rewrite F1, S1. reflexivity. }
  rewrite (sampleSlot_removed r s1 b1 eq_refl D1). cbn [fst].
  unfold removeBook, b1. cbn [tracking lastPlacedEpoch cumulativeSeconds andb].
  apply Z.ltb_lt in Hpos. rewrite Hpos. reflexivity.
Qed.

Lemma stay_is_placement_to_removal_witness :
  let b := mkBook false false 0 120 false in
  let lows := mkSample false false (mkHw 0 0) in
  let glitch := mkSample true false (mkHw 0 0) in
  let highs := mkSample true true (mkHw 0 0) in
  slotWf b
  /\ sampleRun ((1700000000, lows)
                  :: [(1700000001, lows); (1600000000, glitch)]
                  ++ [(1700000900, highs)]) b
     = mkBook false false 0 1020 false.
Proof.
  intros b lows glitch highs.
  assert (Hwf : slotWf b).
  { unfold slotWf, b. cbn. repeat split; try lia. }
  split; [exact Hwf|].
  rewrite (stay_is_placement_to_removal 1700000000 1700000900 lows highs
             [(1700000001, lows); (1600000000, glitch)] b Hwf eq_refl
             eq_refl eq_refl eq_refl).
  - reflexivity.
  - constructor; [left; reflexivity|].
    constructor; [right; reflexivity|]. constructor.
  - reflexivity.
  - reflexivity.
Defined.

(** ** The throttle of the telemetry push *)

Lemma bookEntries_clock (d d' : Device) (reads : nat -> Hardware)
    (names : list string) :
  rtcReady d = rtcReady d' ->
  forall (bs : list BookState) (i : nat),
    bookEntries d reads i names bs = bookEntries d' reads i names bs.
Proof.
  intros Hr. induction names as [|name names' IH]; intros bs i;
    [reflexivity|].
  destruct bs as [|b bs']; [reflexivity|].
  cbn [bookEntries]. unfold getRTCEpoch. rewrite Hr, IH. reflexivity.
Qed.

Lemma sumTotals_clock (d d' : Device) (reads : nat -> Hardware) :
  rtcReady d = rtcReady d' ->
  forall (bs : list BookState) (i : nat) (acc : Z),
    sumTotals d reads i bs acc = sumTotals d' reads i bs acc.
Proof.
  intros Hr. induction bs as [|b bs' IH]; intros i acc; [reflexivity|].
  cbn [sumTotals]. unfold getRTCEpoch. rewrite Hr, IH. reflexivity.
Qed.

(** The document does not show [lastWsUpdate]. *)
Lemma wsSnapshot_lastWsUpdate (inp : SnapshotInput) (t : Z) (d : Device) :
  wsSnapshot inp (set_lastWsUpdate t d) = wsSnapshot inp d.
Proof.
  unfold wsSnapshot.
  cbn [emo currentBookCount rtcReady books set_lastWsUpdate].
  rewrite (bookEntries_clock (set_lastWsUpdate t d) d) by reflexivity.
  rewrite (sumTotals_clock (set_lastWsUpdate t d) d) by reflexivity.
  reflexivity.
Qed.

(** With one reading for both [millis()] calls the block is [wsPublish]. *)
Lemma throttledPush_same_read (hw : Hardware) (clients : nat)
    (inp : SnapshotInput) (d : Device) :
  throttledPush hw hw clients inp d = wsPublish hw clients inp d.
Proof.
  unfold throttledPush, wsPublish.
  destruct (wifiConnected d && _); [|reflexivity].
  destruct clients; [reflexivity|].
  cbn [sendWebSocketUpdate]. rewrite wsSnapshot_lastWsUpdate. reflexivity.
Qed.

(** X18.  Pushes are at least 2000 ms apart, also across the wrap of the
    millisecond counter.  After a pass that published and stored the
    counter reading [t1], a pass whose test reads [t1 + delta] modulo 2^32
    publishes nothing and leaves the device as is when [delta < 2000]; when
    [2000 <= delta < 2^32] it stores its own reading and publishes the
    snapshot of that moment to a connected client. *)
Theorem ws_push_is_throttled
    (hwT1 hwS1 hwT2 hwS2 : Hardware) (c1 c2 : nat) (i1 i2 : SnapshotInput)
    (d : Device) (doc : JValue) (delta : Z) :
  snd (throttledPush hwT1 hwS1 c1 i1 d) = Some doc ->
  hw_millis hwT2 = u32 (hw_millis hwS1 + delta) ->
  let d1 := fst (throttledPush hwT1 hwS1 c1 i1 d) in
  doc = wsSnapshot i1 d
  /\ lastWsUpdate d1 = hw_millis hwS1
  /\ (0 <= delta < 2000 -> throttledPush hwT2 hwS2 c2 i2 d1 = (d1, None))
  /\ (2000 <= delta < 4294967296 ->
      throttledPush hwT2 hwS2 (S c2) i2 d1
      = (set_lastWsUpdate (hw_millis hwS2) d1, Some (wsSnapshot i2 d1))).
Proof.
  intros Hpub H2. cbv zeta. unfold throttledPush in Hpub |- *.
  destruct (wifiConnected d
            && (WS_UPDATE_INTERVAL <=? u32 (hw_millis hwT1 - lastWsUpdate d)))
    eqn:E; [|discriminate Hpub].
  cbv zeta in Hpub. cbn [fst snd] in *.
  apply andb_true_iff in E. destruct E as [Ew _].
  destruct c1 as [|c1]; [discriminate Hpub|].
  cbn [sendWebSocketUpdate] in Hpub. injection Hpub as <-.
  split; [apply wsSnapshot_lastWsUpdate|]. split; [reflexivity|].
  assert (Hd : 0 <= delta < 4294967296 ->
               u32 (hw_millis hwT2 - hw_millis hwS1) = delta).
  { intros Hdl. rewrite H2. unfold u32.
    rewrite Zminus_mod_idemp_l.
    replace (hw_millis hwS1 + delta - hw_millis hwS1) with delta by lia.
    apply Z.mod_small. exact Hdl. }
  cbn [wifiConnected lastWsUpdate set_lastWsUpdate]. rewrite Ew.
  cbn [andb].
  split; intros Hdl.
  - rewrite Hd by lia.
    replace (WS_UPDATE_INTERVAL <=? delta) with false; [reflexivity|].
    symmetry. apply Z.leb_gt. unfold WS_UPDATE_INTERVAL. lia.
  - rewrite Hd by lia.
    replace (WS_UPDATE_INTERVAL <=? delta) with true.
    + cbn [sendWebSocketUpdate]. rewrite wsSnapshot_lastWsUpdate.
      reflexivity.
    + symmetry. apply Z.leb_le. unfold WS_UPDATE_INTERVAL. lia.
Qed.

Lemma ws_push_is_throttled_witness :
  let d := bootDevice true true 0 8000 in
  let inp := fun t => mkSnap (mkHw t 0) (fun _ => mkHw t 0) (fun _ => mkHw t 0) in
  let hwT1 := mkHw 4294966999 0 in
  let hwS1 := mkHw 4294967000 0 in
  let d1 := fst (throttledPush hwT1 hwS1 1 (inp 4294967000) d) in
  snd (throttledPush hwT1 hwS1 1 (inp 4294967000) d)
  = Some (wsSnapshot (inp 4294967000) d)
  /\ throttledPush (mkHw 704 0) (mkHw 704 0) 1 (inp 704) d1 = (d1, None)
  /\ throttledPush (mkHw 1704 0) (mkHw 1705 0) 1 (inp 1705) d1
     = (set_lastWsUpdate 1705 d1, Some (wsSnapshot (inp 1705) d1)).
Proof.
  intros d inp hwT1 hwS1 d1.
  assert (H1 : snd (throttledPush hwT1 hwS1 1 (inp 4294967000) d)
               = Some (wsSnapshot (inp 4294967000) d))
    by (vm_compute; reflexivity).
  split; [exact H1|]. split.
  - assert (E : hw_millis (mkHw 704 0) = u32 (hw_millis hwS1 + 1000))
      by reflexivity.
    destruct (ws_push_is_throttled hwT1 hwS1 (mkHw 704 0) (mkHw 704 0) 1 1
                (inp 4294967000) (inp 704) d _ 1000 H1 E) as (_ & _ & A & _).
    apply A. lia.
  - assert (E : hw_millis (mkHw 1704 0) = u32 (hw_millis hwS1 + 2000))
      by reflexivity.
    destruct (ws_push_is_throttled hwT1 hwS1 (mkHw 1704 0) (mkHw 1705 0) 1 0
                (inp 4294967000) (inp 1705) d _ 2000 H1 E) as (_ & _ & _ & B).
    apply B. lia.
Defined.

(** ** Names of the moods *)

(** X19.  The dashboard knows every mood the sketch can name, and tells
    them apart: each name [getEmotionName] returns is a key of the
    dashboard's [EMOTION_MAP], so the face never falls back to its default
    entry for a device's push, and two moods never share a name. *)
Theorem emotion_names_known_and_distinct (m1 m2 : Emotion) :
  In (getEmotionName m1) dashboardEmotionKeys
  /\ (getEmotionName m1 = getEmotionName m2 -> m1 = m2).
Proof.
  split.
  - destruct m1; cbn; auto 10.
  - destruct m1, m2; cbn; intros H; try reflexivity; discriminate H.
Qed.

(** ** The demo mode *)

Lemma fold_total_shift (l : list BookData) :
  forall a c : Z,
    fold_left (fun a b => a + bd_totalSeconds b) l (a + c)
    = fold_left (fun a b => a + bd_totalSeconds b) l a + c.
Proof.
  induction l as [|b rest IH]; intros a c; [reflexivity|].
  cbn [fold_left].
  replace (a + c + bd_totalSeconds b) with (a + bd_totalSeconds b + c) by lia.
  apply IH.
Qed.

Lemma demo_totals (phase : Z) (l : list BookData) :
  forall (i : nat) (a : Z),
    let l' :=
      mapIndexed
        (fun b i =>
           let present := demoPresent phase i (bd_present b) in
           mkBookData (bd_name b) present
             (bd_totalSeconds b + (if present then 2 else 0)))
        i l in
    fold_left (fun a b => a + bd_totalSeconds b) l' a
    = fold_left (fun a b => a + bd_totalSeconds b) l a
      + 2 * Z.of_nat (List.length (filter bd_present l'))
    /\ map bd_name l' = map bd_name l
    /\ List.length l' = List.length l.
Proof.
  induction l as [|b rest IH]; intros i a; cbv zeta.
  - cbn. repeat split. lia.
  - cbn [mapIndexed fold_left filter map List.length bd_totalSeconds
         bd_present bd_name].
    destruct (IH (S i)
                (a + (bd_totalSeconds b
                      + (if demoPresent phase i (bd_present b)
                         then 2 else 0)))) as (H1 & H2 & H3).
    cbv zeta in H1, H2, H3. rewrite H1, H2, H3.
    split; [|split; reflexivity].
    destruct (demoPresent phase i (bd_present b)).
    + cbn [List.length].
      replace (a + (bd_totalSeconds b + 2))
        with (a + bd_totalSeconds b + 2) by lia.
      rewrite fold_total_shift. lia.
    + replace (a + (bd_totalSeconds b + 0)) with (a + bd_totalSeconds b)
        by lia.
      reflexivity.
Qed.

(** X20.  A tick of the demo publishes a status that is consistent with
    itself and with the sketch.  [booksPlaced] counts the entries of
    [books] that are present, [totalStudySeconds] is the sum of the totals
    before the tick plus two seconds for each book present, the names are
    kept, and, for the five books the demo has, [emotion] is the name the
    sketch gives to the mood of that count outside its timed phases. *)
Theorem demo_tick_is_consistent
    (tickCount : Z) (demoBooks : list BookData) (cur : Emotion) :
  (List.length demoBooks <= 5)%nat ->
  let '(_, books', st) := demoTick tickCount demoBooks in
  ds_books st = books'
  /\ map bd_name books' = map bd_name demoBooks
  /\ ds_booksPlaced st = Z.of_nat (List.length (filter bd_present books'))
  /\ ds_totalStudySeconds st
     = fold_left (fun a b => a + bd_totalSeconds b) demoBooks 0
       + 2 * ds_booksPlaced st
  /\ ds_emotion st = getEmotionName (countEmotion (ds_booksPlaced st) cur).
Proof.
  intros Hlen. unfold demoTick.
  cbn [ds_books ds_booksPlaced ds_totalStudySeconds ds_emotion].
  destruct (demo_totals ((tickCount + 1) / 5 mod 12) demoBooks 0 0)
    as (H1 & H2 & H3).
  cbv zeta in H1, H2, H3.
  split; [reflexivity|]. split; [exact H2|]. split; [reflexivity|].
  split; [exact H1|].
  match goal with
  | |- context [filter bd_present ?l] =>
      pose proof (filter_length_le bd_present l) as Hf;
      remember (List.length (filter bd_present l)) as n eqn:En
  end.
  rewrite H3 in Hf. clear En H1 H2 H3.
  assert (Hn : (n <= 5)%nat) by lia.
  destruct n as [|[|[|[|[|[|n]]]]]]; try reflexivity. lia.
Qed.

Lemma demo_tick_is_consistent_witness :
  let demoBooks :=
    [mkBookData "English" true 10; mkBookData "Hindi" true 8;
     mkBookData "Maths" false 0; mkBookData "Marathi" false 0;
     mkBookData "Science" false 0]%string in
  let st := snd (demoTick 9 demoBooks) in
  ds_booksPlaced st = 3
  /\ ds_totalStudySeconds st = 18 + 2 * ds_booksPlaced st
  /\ ds_emotion st = "Happy"%string.
Proof.
  intros demoBooks st.
  assert (Hlen : (List.length demoBooks <= 5)%nat) by (cbn; lia).
  pose proof (demo_tick_is_consistent 9 demoBooks EMOTION_CALM Hlen) as H.
  subst st. destruct (demoTick 9 demoBooks) as [[tc bs] st] eqn:E.
  destruct H as (_ & _ & _ & H4 & H5).
  cbn [snd].
  assert (Hp : ds_booksPlaced st = 3).
  { vm_compute in E. injection E as _ _ <-. reflexivity. }
  split; [exact Hp|]. split; [exact H4|].
  rewrite H5, Hp. reflexivity.
Defined.

(** ** Sessions on the dashboard *)

Lemma trackBook_self (now : Z) (book : BookData) (tr : Tracker) :
  viewOf (bd_name book) (trackBook now book tr)
  = stepView now book (viewOf (bd_name book) tr).
Proof.
  unfold viewOf, stepView, trackBook, sessionsOf, setKey.
  cbn [prevBooks sessionStart sessions].
  rewrite String.eqb_refl.
  destruct (prevBooks tr (bd_name book)) as [[|]|];
    destruct (bd_present book); cbn [andb negb];
    rewrite ?String.eqb_refl; try reflexivity;
    rewrite filter_app; cbn [filter rs_book]; rewrite String.eqb_refl;
    reflexivity.
Qed.

Lemma trackBook_other (now : Z) (book : BookData) (tr : Tracker) (k : string) :
  bd_name book <> k ->
  viewOf k (trackBook now book tr) = viewOf k tr.
Proof.
  intros Hne.
  assert (E1 : String.eqb k (bd_name book) = false)
    by (apply String.eqb_neq; congruence).
  assert (E2 : String.eqb (bd_name book) k = false)
    by (apply String.eqb_neq; exact Hne).
  unfold viewOf, trackBook, sessionsOf, setKey.
  cbn [prevBooks sessionStart sessions]. rewrite E1.
  destruct (bd_present book && negb _);
    destruct (negb (bd_present book) && _);
    rewrite ?E1; try reflexivity;
    rewrite filter_app; cbn [filter rs_book]; rewrite E2, app_nil_r;
    reflexivity.
Qed.

Lemma trackSessions_absent (now : Z) (k : string) (books : list BookData) :
  forall tr : Tracker,
    ~ In k (map bd_name books) ->
    viewOf k (trackSessions now books tr) = viewOf k tr.
Proof.
  unfold trackSessions.
  induction books as [|b rest IH]; intros tr Hn; [reflexivity|].
  cbn [fold_left]. rewrite IH.
  - apply trackBook_other. intros E. apply Hn. left. exact E.
  - intros Hin. apply Hn. right. exact Hin.
Qed.

(** With distinct names in a snapshot, what the hook holds about a book
    changes by the step of that book's entry alone. *)
Lemma trackSessions_entry (now : Z) (book : BookData)
    (books : list BookData) :
  forall tr : Tracker,
    NoDup (map bd_name books) ->
    In book books ->
    viewOf (bd_name book) (trackSessions now books tr)
    = stepView now book (viewOf (bd_name book) tr).
Proof.
  induction books as [|b rest IH]; intros tr Hnd Hin; [destruct Hin|].
  cbn [map] in Hnd. inversion Hnd as [|? ? Hnotin Hnd']; subst.
  change (trackSessions now (b :: rest) tr)
    with (trackSessions now rest (trackBook now b tr)).
  destruct Hin as [->|Hin].
  - rewrite trackSessions_absent by exact Hnotin.
    apply trackBook_self.
  - rewrite (IH _ Hnd' Hin).
    rewrite trackBook_other; [reflexivity|].
    intros E. apply Hnotin. rewrite E. apply in_map. exact Hin.
Qed.

(** While every entry for [k] shows it present, a hook that has seen it
    present with a known start keeps what it holds about [k]. *)
Lemma trackRun_stay (k : string) (t0 : Z)
    (mid : list (Z * list BookData)) :
  forall tr : Tracker,
    Forall (fun s => NoDup (map bd_name (snd s))
                     /\ forall b, In b (snd s) -> bd_name b = k ->
                                  bd_present b = true) mid ->
    prevBooks tr k = Some true ->
    sessionStart tr k = Some t0 ->
    viewOf k (trackRun mid tr) = viewOf k tr.
Proof.
  unfold trackRun.
  induction mid as [|[t s] rest IH]; intros tr Hall Hp Hs; [reflexivity|].
  inversion Hall as [|? ? [Hnd Hpres] Hrest]; subst. cbn [fst snd] in *.
  cbn [fold_left fst snd].
  assert (Hv : viewOf k (trackSessions t s tr) = viewOf k tr).
  { destruct (in_dec String.string_dec k (map bd_name s)) as [Hin|Hout].
    - apply in_map_iff in Hin. destruct Hin as (b & Hb & Hin).
      subst k. rewrite (trackSessions_entry t b s tr Hnd Hin).
      unfold viewOf, stepView. rewrite Hp, Hs, (Hpres b Hin eq_refl).
      reflexivity.
    - apply trackSessions_absent. exact Hout. }
  rewrite IH; [exact Hv | exact Hrest | |];
    unfold viewOf in Hv; injection Hv as E1 E2 _; congruence.
Qed.

(** X21.  The dashboard times a session by the arrival of snapshots.  With
    distinct names in every snapshot: when a book the hook has not seen
    present arrives present at [t0] (non-zero), stays present in the
    entries that name it, and arrives absent at [t1], the hook appends for
    that book exactly one session, from [t0] to [t1], of [t1 - t0]
    milliseconds rounded to seconds; the device's [totalSeconds] is not
    used, and the hook is ready for the next placement. *)
Theorem dashboard_session_spans_arrivals
    (k : string) (t0 t1 : Z) (s0 s1 : list BookData)
    (mid : list (Z * list BookData)) (b0 b1 : BookData) (tr : Tracker) :
  NoDup (map bd_name s0) -> NoDup (map bd_name s1) ->
  Forall (fun s => NoDup (map bd_name (snd s))
                   /\ forall b, In b (snd s) -> bd_name b = k ->
                                bd_present b = true) mid ->
  In b0 s0 -> bd_name b0 = k -> bd_present b0 = true ->
  In b1 s1 -> bd_name b1 = k -> bd_present b1 = false ->
  prevBooks tr k <> Some true ->
  t0 <> 0 ->
  viewOf k (trackRun ((t0, s0) :: mid ++ [(t1, s1)]) tr)
  = (Some false, None,
     sessionsOf k tr ++ [mkSession k t0 t1 (roundSeconds (t1 - t0))]).
Proof.
  intros Hnd0 Hnd1 Hmid Hin0 Hk0 Hp0 Hin1 Hk1 Hp1 Hprev Ht0.
  unfold trackRun. cbn [fold_left fst snd]. rewrite fold_left_app.
  cbn [fold_left fst snd].
  fold (trackRun mid (trackSessions t0 s0 tr)).
  set (tr0 := trackSessions t0 s0 tr).
  assert (V0 : viewOf k tr0 = (Some true, Some t0, sessionsOf k tr)).
  { subst tr0 k. rewrite (trackSessions_entry t0 b0 s0 tr Hnd0 Hin0).
    unfold viewOf, stepView. rewrite Hp0.
    destruct (prevBooks tr (bd_name b0)) as [[|]|];
      [contradiction Hprev; reflexivity | reflexivity | reflexivity]. }
  assert (V1 : viewOf k (trackRun mid tr0)
               = (Some true, Some t0, sessionsOf k tr)).
  { rewrite (trackRun_stay k t0 mid tr0 Hmid); [exact V0 | |];
      unfold viewOf in V0; injection V0 as E1 E2 _; assumption. }
  subst k. rewrite <- Hk1 in V1 |- *.
  rewrite (trackSessions_entry t1 b1 s1 _ Hnd1 Hin1), V1.
  unfold stepView. rewrite Hp1. cbn [andb negb].
  apply Z.eqb_neq in Ht0. rewrite Ht0. rewrite Hk1. reflexivity.
Qed.

Lemma dashboard_session_spans_arrivals_witness :
  let snap := fun e h =>
    [mkBookData "English" e 700; mkBookData "Hindi" h 0]%string in
  let run := (1700000000000, snap true false)
               :: [(1700000002000, snap true true);
                   (1700000004000, snap true true)]
               ++ [(1700000005600, snap false true)] in
  sessionsOf "English" (trackRun run freshTracker)
  = [mkSession "English" 1700000000000 1700000005600 6].
Proof.
  intros snap run.
  assert (Hnd : forall e h, NoDup (map bd_name (snap e h))).
  { intros e h. cbn. constructor.
    - intros [H|[]]. discriminate H.
    - constructor; [intros [] | constructor]. }
  assert (H : viewOf "English" (trackRun run freshTracker)
              = (Some false, None,
                 sessionsOf "English" freshTracker
                 ++ [mkSession "English" 1700000000000 1700000005600
                       (roundSeconds (1700000005600 - 1700000000000))])).
  { apply (dashboard_session_spans_arrivals "English"
             1700000000000 1700000005600 (snap true false) (snap false true)
             [(1700000002000, snap true true); (1700000004000, snap true true)]
             (mkBookData "English" true 700) (mkBookData "English" false 700)
             freshTracker).
    - apply Hnd.
    - apply Hnd.
    - assert (Hs : forall t,
                (fun s : Z * list BookData =>
                   NoDup (map bd_name (snd s))
                   /\ forall b, In b (snd s) -> bd_name b = "English"%string ->
                                bd_present b = true) (t, snap true true)).
      { intros t. split; [apply Hnd|]. cbn [snd].
        intros b [<-|[<-|[]]] E; reflexivity. }
      constructor; [apply Hs|]. constructor; [apply Hs|]. constructor.
    - left. reflexivity.
    - reflexivity.
    - reflexivity.
    - left. reflexivity.
    - reflexivity.
    - reflexivity.
    - discriminate.
    - discriminate. }
  change (sessionsOf "English" (trackRun run freshTracker))
    with (snd (viewOf "English" (trackRun run freshTracker))).
  rewrite H. reflexivity.
Defined.

(** ** The mood of the timed phases *)

Lemma stage_mood (s : Z) (cur : Emotion) :
  0 <= s <= 5 ->
  degradeEmotion s cur
  = match s with
    | 0 => EMOTION_CALM
    | 1 | 2 => EMOTION_NEUTRAL
    | 3 => EMOTION_SAD
    | 4 => EMOTION_VERY_SAD
    | _ => EMOTION_REMINDER
    end.
Proof.
  intros H.
  assert (C : s = 0 \/ s = 1 \/ s = 2 \/ s = 3 \/ s = 4 \/ s = 5) by lia.
  destruct C as [->|[->|[->|[->|[->| ->]]]]]; reflexivity.
Qed.

Lemma degradeOrNormal_timed (t c : Z) (e : EmotionVars) :
  let e' := fst (degradeOrNormal t c e) in
  inBootCalmPeriod e' = inBootCalmPeriod e
  /\ calmHoldActive e' = calmHoldActive e
  /\ degradeActive e' = degradeActive e
  /\ (degradeActive e = true ->
      0 <= currentDegradeStage e' <= 5
      /\ currentEmotion e'
         = degradeEmotion (currentDegradeStage e') (currentEmotion e)).
Proof.
  cbv zeta. unfold degradeOrNormal.
  destruct (degradeActive e) eqn:Ed;
    cbn [fst currentDegradeStage currentEmotion inBootCalmPeriod
         calmHoldActive degradeActive set_currentEmotion];
    (split; [reflexivity|]); (split; [reflexivity|]);
    (split; [first [reflexivity | exact Ed]|]).
  - intros _. split; [apply degradeStageOf_bounds | reflexivity].
  - intros H. discriminate H.
Qed.

Lemma calculateEmotionVars_timed (t c : Z) (e : EmotionVars) :
  let e' := fst (calculateEmotionVars t c e) in
  (inBootCalmPeriod e' = true -> currentEmotion e' = EMOTION_CALM)
  /\ (calmHoldActive e' = true -> currentEmotion e' = EMOTION_CALM)
  /\ (inBootCalmPeriod e' = false -> calmHoldActive e' = false ->
      degradeActive e' = true ->
      0 <= currentDegradeStage e' <= 5
      /\ exists cur,
           currentEmotion e' = degradeEmotion (currentDegradeStage e') cur).
Proof.
  cbv zeta.
  assert (D : forall e0,
             inBootCalmPeriod e0 = false -> calmHoldActive e0 = false ->
             let e' := fst (degradeOrNormal t c e0) in
             (inBootCalmPeriod e' = true -> currentEmotion e' = EMOTION_CALM)
             /\ (calmHoldActive e' = true -> currentEmotion e' = EMOTION_CALM)
             /\ (inBootCalmPeriod e' = false -> calmHoldActive e' = false ->
                 degradeActive e' = true ->
                 0 <= currentDegradeStage e' <= 5
                 /\ exists cur,
                      currentEmotion e'
                      = degradeEmotion (currentDegradeStage e') cur)).
  { intros e0 Hb Hh. cbv zeta.
    destruct (degradeOrNormal_timed t c e0) as (B & H & A & S).
    cbv zeta in B, H, A, S.
    split; [intros X; congruence|]. split; [intros X; congruence|].
    intros _ _ Hd. rewrite A in Hd. destruct (S Hd) as [S1 S2].
    split; [exact S1|]. exists (currentEmotion e0). exact S2. }
  assert (Hl : forall e0,
             inBootCalmPeriod e0 = false ->
             let e' := fst (holdOrLater t c e0) in
             (inBootCalmPeriod e' = true -> currentEmotion e' = EMOTION_CALM)
             /\ (calmHoldActive e' = true -> currentEmotion e' = EMOTION_CALM)
             /\ (inBootCalmPeriod e' = false -> calmHoldActive e' = false ->
                 degradeActive e' = true ->
                 0 <= currentDegradeStage e' <= 5
                 /\ exists cur,
                      currentEmotion e'
                      = degradeEmotion (currentDegradeStage e') cur)).
  { intros e0 Hb. cbv zeta. unfold holdOrLater.
    destruct (calmHoldActive e0) eqn:Eh.
    - destruct (_ <? CALM_HOLD_TIME).
      + cbn. rewrite Eh.
        split; [reflexivity|]. split; [reflexivity|].
        intros _ X. discriminate X.
      + apply D; [exact Hb | reflexivity].
    - apply D; [exact Hb | exact Eh]. }
  unfold calculateEmotionVars.
  destruct (inBootCalmPeriod e) eqn:Eb.
  - destruct (_ <? BOOT_CALM_TIME).
    + cbn. rewrite Eb. split; [reflexivity|]. split; [reflexivity|].
      intros X. discriminate X.
    + apply Hl. reflexivity.
  - apply Hl. exact Eb.
Qed.

(** X22.  During the timed phases the mood shown is fixed by the phase.
    After every iteration of the loop: in the boot calm period and in the
    calm hold the mood is Calm; in the degrade phase the stage lies between
    0 and 5 and the mood is the one of the stage: Calm at 0, Neutral at 1
    and 2, Sad at 3, Very Sad at 4, Reminder at 5. *)
Theorem timed_phases_set_the_mood (inp : LoopInput) (d : Device) :
  let e' := emo (fst (loopStep inp d)) in
  (inBootCalmPeriod e' = true -> currentEmotion e' = EMOTION_CALM)
  /\ (calmHoldActive e' = true -> currentEmotion e' = EMOTION_CALM)
  /\ (inBootCalmPeriod e' = false -> calmHoldActive e' = false ->
      degradeActive e' = true ->
      0 <= currentDegradeStage e' <= 5
      /\ currentEmotion e'
         = match currentDegradeStage e' with
           | 0 => EMOTION_CALM
           | 1 | 2 => EMOTION_NEUTRAL
           | 3 => EMOTION_SAD
           | 4 => EMOTION_VERY_SAD
           | _ => EMOTION_REMINDER
           end).
Proof.
  cbv zeta. unfold loopStep.
  destruct (updateBookStates (in_update inp) d) as [d1 ev1].
  destruct (handleTouchSensor _ _ d1) as [d2 ev2].
  destruct (calculateEmotion_events (in_calc_hw inp) d2) as (_ & _ & C3 & _).
  destruct (calculateEmotion _ d2) as [d3 ev3].
  cbn [fst] in *. rewrite C3.
  destruct (calculateEmotionVars_timed (hw_millis (in_calc_hw inp))
              (currentBookCount d2) (emo d2)) as (A & B & C).
  cbv zeta in A, B, C.
  split; [exact A|]. split; [exact B|].
  intros H1 H2 H3. destruct (C H1 H2 H3) as (S1 & cur & S2).
  split; [exact S1|]. rewrite S2. apply stage_mood. exact S1.
Qed.

Lemma timed_phases_set_the_mood_witness :
  let d := finalDevice
             [steadyInput 10000 1700000002 false false;
              steadyInput 310000 1700000302 false false]
             (bootDevice true true 0 8000) in
  let inp := steadyInput 1270000 1700001262 false false in
  let e' := emo (fst (loopStep inp d)) in
  inBootCalmPeriod e' = false
  /\ calmHoldActive e' = false
  /\ degradeActive e' = true
  /\ currentDegradeStage e' = 3
  /\ currentEmotion e' = EMOTION_SAD.
Proof.
  intros d inp e'.
  assert (H1 : inBootCalmPeriod e' = false) by (vm_compute; reflexivity).
  assert (H2 : calmHoldActive e' = false) by (vm_compute; reflexivity).
  assert (H3 : degradeActive e' = true) by (vm_compute; reflexivity).
  assert (H4 : currentDegradeStage e' = 3) by (vm_compute; reflexivity).
  destruct (timed_phases_set_the_mood inp d) as (_ & _ & C).
  destruct (C H1 H2 H3) as [_ S].
  split; [exact H1|]. split; [exact H2|]. split; [exact H3|].
  split; [exact H4|].
  fold e' in S. rewrite S, H4. reflexivity.
Defined.

(** ** The phases over whole runs *)

(** X23.  The phases exclude each other at every iteration of every run.
    From a state in which they do, as at boot, each iteration ends with
    the degrade phase inactive during the boot calm period and during a
    calm hold, with stage 0 and the reminder re-armed whenever the degrade
    phase is inactive, and with the all-placed announcement re-armed
    whenever fewer than five books are present. *)
Theorem phases_exclude_each_other (inps : list LoopInput) (d : Device) :
  armInv d ->
  phaseInv (emo d) ->
  Forall (fun r => armInv (fst r) /\ phaseInv (emo (fst r))) (runLoop inps d).
Proof.
  revert d. induction inps as [|inp rest IH]; intros d Ha Hp; cbn [runLoop].
  - constructor.
  - destruct (loopStep_one_shots inp d Ha Hp) as (A & P & _).
    cbv zeta in A, P.
    constructor; [split; assumption | apply IH; assumption].
Qed.

Lemma phases_exclude_each_other_witness :
  let d := bootDevice true true 0 8000 in
  armInv d
  /\ phaseInv (emo d)
  /\ Forall (fun r => armInv (fst r) /\ phaseInv (emo (fst r)))
       (runLoop longIdleRun d).
Proof.
  intros d.
  destruct (bootDevice_invariants true true 0 8000) as [Ha Hp].
  split; [exact Ha|]. split; [exact Hp|].
  exact (phases_exclude_each_other longIdleRun d Ha Hp).
Defined.

(** ** The fifth book *)

Lemma handleTouchSensor_no_release (hw : Hardware) (r : bool) (d : Device) :
  r = true \/ touchPressed d = false ->
  emo (fst (handleTouchSensor hw r d)) = emo d
  /\ snd (handleTouchSensor hw r d) = [].
Proof.
  unfold handleTouchSensor. intros [-> | Hp].
  - cbn [andb negb]. destruct (touchPressed d); split; reflexivity.
  - rewrite Hp. destruct r; cbn [andb negb]; rewrite ?Hp;
      split; reflexivity.
Qed.

(** X24.  The fifth book starts the calm hold, and the iteration shows
    Calm, not Proud.  When a pass brings the count to five from fewer, no
    touch is released in that iteration and the emotion tick comes less
    than [CALM_HOLD_TIME] after the reading stored as the start of the
    hold, the iteration emits the all-placed event once, arms the
    announcement, and ends in the calm hold, started at that reading, with
    the degrade phase idle and the mood Calm. *)
Theorem fifth_book_starts_calm_hold (inp : LoopInput) (d : Device) :
  armInv d ->
  currentBookCount d < 5 ->
  currentBookCount (fst (updateBookStates (in_update inp) d)) = 5 ->
  in_touch inp = true \/ touchPressed d = false ->
  u32 (hw_millis (in_calc_hw inp) - hw_millis (upd_hold_hw (in_update inp)))
  < CALM_HOLD_TIME ->
  let r := loopStep inp d in
  filter isAllPlaced (snd r) = [AllPlacedEvent]
  /\ allBooksAnnouncedOnce (fst r) = true
  /\ calmHoldActive (emo (fst r)) = true
  /\ calmHoldStartTime (emo (fst r)) = hw_millis (upd_hold_hw (in_update inp))
  /\ degradeActive (emo (fst r)) = false
  /\ currentEmotion (emo (fst r)) = EMOTION_CALM.
Proof.
  intros Harm Hlt H5 Htouch Hhold. cbv zeta.
  destruct (scanBooks (hw_millis (upd_hw (in_update inp)))
              (upd_pins (in_update inp)) 0 (books d) d 0)
    as [[[bs d0] n] evs0] eqn:Hs.
  destruct (updateBookStates_unfold _ d bs d0 n evs0 Hs)
    as (_ & Hn & _ & _ & Htp & _ & Hann & Hemo & Hev).
  cbv zeta in Hann, Hemo, Hev.
  destruct (scanBooks_device _ _ _ _ _ _ _ _ _ _ Hs) as [Hch Hd0].
  assert (Hc0 : currentBookCount d0 = currentBookCount d
                /\ allBooksAnnouncedOnce d0 = allBooksAnnouncedOnce d
                /\ touchPressed d0 = touchPressed d).
  { destruct Hd0 as [[_ ->]|[_ ->]]; repeat split; reflexivity. }
  destruct Hc0 as (Hc0 & Ha0 & Ht0).
  rewrite Hn in H5. subst n.
  rewrite Hc0, Ha0, (Harm Hlt) in Hann, Hemo, Hev.
  apply Z.ltb_lt in Hlt. rewrite Hlt in Hann, Hemo, Hev.
  cbn [Z.eqb Pos.eqb Z.ltb Z.compare Pos.compare Pos.compare_cont andb negb]
    in Hann, Hemo, Hev.
  unfold loopStep.
  destruct (updateBookStates (in_update inp) d) as [d1 ev1].
  cbn [fst snd] in Hann, Hemo, Hev, Htp.
  assert (Htouch1 : in_touch inp = true \/ touchPressed d1 = false).
  { destruct Htouch as [H|H]; [left; exact H | right; congruence]. }
  destruct (handleTouchSensor_no_release (in_touch_hw inp) (in_touch inp) d1
              Htouch1) as [Te Tv].
  pose proof (handleTouchSensor_books (in_touch_hw inp) (in_touch inp) d1)
    as (_ & _ & Ta & _).
  destruct (handleTouchSensor _ _ d1) as [d2 ev2].
  destruct (calculateEmotion_events (in_calc_hw inp) d2) as (Ca & _ & Ce & _).
  pose proof (calculateEmotion_books (in_calc_hw inp) d2) as (_ & _ & Cb & _).
  destruct (calculateEmotion _ d2) as [d3 ev3].
  cbn [fst snd] in *. subst ev2 ev1.
  rewrite !filter_app, Ca, app_nil_r. cbn [filter isAllPlaced app].
  assert (Hf : filter isAllPlaced evs0 = []).
  { clear - Hch. induction evs0 as [|e rest IH]; [reflexivity|].
    cbn in Hch. apply andb_true_iff in Hch. destruct Hch as [H1 H2].
    cbn. destruct e; try discriminate H1; apply IH; exact H2. }
  rewrite Hf. split; [reflexivity|].
  split; [congruence|].
  rewrite Ce, Te, Hemo.
  unfold calculateEmotionVars, holdOrLater.
  cbn [celebrate emo set_emo set_allBooksPlaced set_allBooksAnnouncedOnce
       inBootCalmPeriod calmHoldActive calmHoldStartTime bootCompleteTime
       endBootCalm].
  apply Z.ltb_lt in Hhold.
  destruct (inBootCalmPeriod (emo d0));
    [destruct (_ <? BOOT_CALM_TIME)|];
    cbn [calmHoldActive calmHoldStartTime]; rewrite ?Hhold;
    repeat split; reflexivity.
Qed.

Lemma fifth_book_starts_calm_hold_witness :
  let d := fst (loopStep
                  (mkLoop (passAt 10000 1700000002 (fun i => (i <? 4)%nat))
                     (mkHw 10100 1700000002) false (mkHw 10100 1700000002))
                  (bootDevice true true 0 8000)) in
  let inp := mkLoop (passAt 60000 1700000052 (fun _ => true))
               (mkHw 60060 1700000052) false (mkHw 60070 1700000052) in
  currentBookCount d = 4
  /\ filter isAllPlaced (snd (loopStep inp d)) = [AllPlacedEvent]
  /\ calmHoldActive (emo (fst (loopStep inp d))) = true
  /\ currentEmotion (emo (fst (loopStep inp d))) = EMOTION_CALM.
Proof.
  intros d inp.
  assert (H4 : currentBookCount d = 4) by (vm_compute; reflexivity).
  assert (Ha : armInv d) by (intros _; vm_compute; reflexivity).
  assert (Hlt : currentBookCount d < 5) by (rewrite H4; lia).
  assert (H5 : currentBookCount (fst (updateBookStates (in_update inp) d)) = 5)
    by (vm_compute; reflexivity).
  assert (Ht : in_touch inp = true \/ touchPressed d = false)
    by (right; vm_compute; reflexivity).
  assert (Hh : u32 (hw_millis (in_calc_hw inp)
                    - hw_millis (upd_hold_hw (in_update inp)))
               < CALM_HOLD_TIME) by (vm_compute; reflexivity).
  destruct (fifth_book_starts_calm_hold inp d Ha Hlt H5 Ht Hh)
    as (A & _ & B & _ & _ & C).
  split; [exact H4|]. split; [exact A|]. split; [exact B | exact C].
Defined.
